(** * chess_backend: tournament lifecycle and prize distribution

    A shallow embedding of [controllers/tournamentController.js] and of the
    notification helpers it calls ([controllers/notificationController.js]),
    with the properties the specification states about them.

    Conventions of the embedding.
    - A JavaScript number is a [number]: NaN, the two infinities, or a finite
      value kept as an exact rational.  Rounding of IEEE doubles and the sign
      of zero are not represented.
    - Instants and durations are integers ([Z]), in milliseconds.
    - The MongoDB collections are finite maps keyed by the document id; the
      [transactions] and [notifications] collections are append-only lists.
    - An [async] handler is a function from the database to a result and a
      database; a JavaScript exception is the left injection of the result. *)

From Stdlib Require Import ZArith QArith Qabs Qround Bool List Ascii String Lia.
From stdpp Require Import base option list gmap strings pretty sorting.

Local Open Scope string_scope.
Local Open Scope Z_scope.

(** ** JavaScript numbers *)

Inductive number : Type :=
  | NaN
  | PosInf
  | NegInf
  | Fin (q : Q).

Module Num.

Definition zero : number := Fin 0%Q.
Definition of_Z (z : Z) : number := Fin (inject_Z z).
Definition hundred : number := of_Z 100.

(** -1, 0 or 1 for a number that is not NaN. *)
Definition sign (a : number) : comparison :=
  match a with
  | NaN => Eq
  | PosInf => Gt
  | NegInf => Lt
  | Fin q => (q ?= 0)%Q
  end.

Definition neg (a : number) : number :=
  match a with
  | NaN => NaN
  | PosInf => NegInf
  | NegInf => PosInf
  | Fin q => Fin (Qred (- q))
  end.

(** [a + b] *)
Definition add (a b : number) : number :=
  match a, b with
  | NaN, _ | _, NaN => NaN
  | PosInf, NegInf | NegInf, PosInf => NaN
  | PosInf, _ | _, PosInf => PosInf
  | NegInf, _ | _, NegInf => NegInf
  | Fin x, Fin y => Fin (Qred (x + y))
  end.

(** [a - b] *)
Definition sub (a b : number) : number := add a (neg b).

Definition of_sign (c : comparison) : number :=
  match c with
  | Eq => NaN
  | Gt => PosInf
  | Lt => NegInf
  end.

Definition sign_mul (c d : comparison) : comparison :=
  match c, d with
  | Eq, _ | _, Eq => Eq
  | Lt, Lt | Gt, Gt => Gt
  | _, _ => Lt
  end.

(** [a * b] *)
Definition mul (a b : number) : number :=
  match a, b with
  | NaN, _ | _, NaN => NaN
  | Fin x, Fin y => Fin (Qred (x * y))
  | _, _ => of_sign (sign_mul (sign a) (sign b))
  end.

(** [a / b]; a zero divisor is the positive zero. *)
Definition div (a b : number) : number :=
  match a, b with
  | NaN, _ | _, NaN => NaN
  | Fin x, Fin y =>
      if Qeq_bool y 0 then of_sign (x ?= 0)%Q else Fin (Qred (x / y))
  | Fin _, _ => zero
  | _, Fin y =>
      if Qeq_bool y 0 then a else of_sign (sign_mul (sign a) (y ?= 0)%Q)
  | _, _ => NaN
  end.

(** [a < b] *)
Definition ltb (a b : number) : bool :=
  match a, b with
  | NaN, _ | _, NaN => false
  | _, NegInf | PosInf, _ => false
  | NegInf, _ | _, PosInf => true
  | Fin x, Fin y => negb (Qle_bool y x)
  end.

(** [a <= b] *)
Definition leb (a b : number) : bool :=
  match a, b with
  | NaN, _ | _, NaN => false
  | NegInf, _ | _, PosInf => true
  | _, NegInf | PosInf, _ => false
  | Fin x, Fin y => Qle_bool x y
  end.

(** [a > b] *)
Definition gtb (a b : number) : bool := ltb b a.

Definition isNaN (a : number) : bool :=
  match a with NaN => true | _ => false end.

(** ToBoolean on a number: NaN and zero are falsy. *)
Definition truthy (a : number) : bool :=
  match a with
  | NaN => false
  | Fin q => negb (Qeq_bool q 0)
  | _ => true
  end.

(** [a || 0] *)
Definition or_zero (a : number) : number :=
  if truthy a then a else zero.

(** [Math.round(a)]: the nearest integer, a half rounding up. *)
Definition round (a : number) : number :=
  match a with
  | Fin q => of_Z (Qfloor (q + (1 # 2)))
  | _ => a
  end.

(** [Math.round(a * 100) / 100] *)
Definition round2 (a : number) : number :=
  div (round (mul a hundred)) hundred.

(** Truncation of a finite number toward zero. *)
Definition trunc (q : Q) : Z :=
  Z.quot (Qnum q) (Z.pos (Qden q)).

End Num.

Declare Scope num_scope.
Delimit Scope num_scope with num.
Bind Scope num_scope with number.
Infix "+" := Num.add : num_scope.
Infix "-" := Num.sub : num_scope.
Infix "*" := Num.mul : num_scope.
Infix "/" := Num.div : num_scope.
Infix "<?" := Num.ltb : num_scope.
Infix "<=?" := Num.leb : num_scope.
Infix ">?" := Num.gtb : num_scope.

Coercion Num.of_Z : Z >-> number.

(** ** JavaScript strings and the built-in parsers *)

Module Str.

Definition isDigit (c : ascii) : bool :=
  let n := nat_of_ascii c in ((48 <=? n) && (n <=? 57))%nat.

Definition digitVal (c : ascii) : Z := Z.of_nat (nat_of_ascii c) - 48.

(** Value of a hexadecimal digit, if [c] is one. *)
Definition hexVal (c : ascii) : option Z :=
  let n := nat_of_ascii c in
  if isDigit c then Some (digitVal c)
  else if ((97 <=? n) && (n <=? 102))%nat then Some (Z.of_nat n - 87)
  else if ((65 <=? n) && (n <=? 70))%nat then Some (Z.of_nat n - 55)
  else None.

(** White space and line terminators, among the characters of [ascii]. *)
Definition isSpace (c : ascii) : bool :=
  let n := nat_of_ascii c in ((9 <=? n) && (n <=? 13) || (n =? 32))%nat.

Fixpoint trimStart (s : string) : string :=
  match s with
  | String c s' => if isSpace c then trimStart s' else s
  | EmptyString => s
  end.

(** [s.replace(/\D/g, "")]: the decimal digits of [s], in order. *)
Fixpoint digitsOnly (s : string) : string :=
  match s with
  | String c s' => if isDigit c then String c (digitsOnly s') else digitsOnly s'
  | EmptyString => EmptyString
  end.

(** [s.toLowerCase()], on the letters of [ascii]. *)
Definition lowerChar (c : ascii) : ascii :=
  let n := nat_of_ascii c in
  if ((65 <=? n) && (n <=? 90))%nat then ascii_of_nat (n + 32) else c.

Fixpoint toLowerCase (s : string) : string :=
  match s with
  | String c s' => String (lowerChar c) (toLowerCase s')
  | EmptyString => EmptyString
  end.

(** [s.startsWith(p)] *)
Fixpoint startsWith (p s : string) : bool :=
  match p, s with
  | EmptyString, _ => true
  | String a p', String b s' => Ascii.eqb a b && startsWith p' s'
  | String _ _, EmptyString => false
  end.

(** [s.includes(p)] *)
Fixpoint includes (s p : string) : bool :=
  startsWith p s ||
  match s with
  | String _ s' => includes s' p
  | EmptyString => false
  end.

(** A maximal run of decimal digits at the head of [s]: its value after
    [acc], the number of digits read after [n], and what follows. *)
Fixpoint readDigits (s : string) (acc : Z) (n : nat) : Z * nat * string :=
  match s with
  | String c s' =>
      if isDigit c then readDigits s' (10 * acc + digitVal c) (S n)
      else (acc, n, s)
  | EmptyString => (acc, n, s)
  end.

Fixpoint readHexDigits (s : string) (acc : Z) (n : nat) : Z * nat * string :=
  match s with
  | String c s' =>
      match hexVal c with
      | Some d => readHexDigits s' (16 * acc + d) (S n)
      | None => (acc, n, s)
      end
  | EmptyString => (acc, n, s)
  end.

(** An optional sign at the head of [s]. *)
Definition readSign (s : string) : bool * string :=
  match s with
  | String "-" s' => (true, s')
  | String "+" s' => (false, s')
  | _ => (false, s)
  end.

(** The exponent part [e[+-]ddd] at the head of [s]; 0 when there is none. *)
Definition readExponent (s : string) : Z :=
  match s with
  | String c s' =>
      if Ascii.eqb c "e" || Ascii.eqb c "E" then
        let '(negative, s'') := readSign s' in
        let '(e, n, _) := readDigits s'' 0 0 in
        if (n =? 0)%nat then 0 else if negative then - e else e
      else 0
  | EmptyString => 0
  end.

(** [parseFloat(s)] for a string: the longest prefix that is a decimal
    literal, after leading white space.  The value of the literal is kept
    exact: a literal beyond the range of doubles, which JavaScript reads as
    an infinity or as 0, is not represented. *)
Definition parseFloat (s : string) : number :=
  let '(negative, s0) := readSign (trimStart s) in
  if startsWith "Infinity" s0 then (if negative then NegInf else PosInf)
  else
    let '(ip, ni, s1) := readDigits s0 0 0 in
    let '(fp, nf, s2) :=
      match s1 with
      | String "." s' => readDigits s' 0 0
      | _ => (0, 0%nat, s1)
      end in
    if (ni + nf =? 0)%nat then NaN
    else
      let scale := 10 ^ Z.of_nat nf in
      let mantissa := Qmake (ip * scale + fp) (Z.to_pos scale) in
      let value := (mantissa * Qpower (inject_Z 10) (readExponent s2))%Q in
      Fin (Qred (if negative then - value else value)).

(** [parseInt(s)] for a string, without a radix: [None] is NaN. *)
Definition parseInt (s : string) : option Z :=
  let '(negative, s0) := readSign (trimStart s) in
  let '(v, n, _) :=
    if startsWith "0x" s0 || startsWith "0X" s0
    then readHexDigits (String.substring 2 (String.length s0 - 2) s0) 0 0
    else readDigits s0 0 0 in
  if (n =? 0)%nat then None else Some (if negative then - v else v).

(** [parseInt(s, 10)] for a string. *)
Definition parseInt10 (s : string) : option Z :=
  let '(negative, s0) := readSign (trimStart s) in
  let '(v, n, _) := readDigits s0 0 0 in
  if (n =? 0)%nat then None else Some (if negative then - v else v).

End Str.



(** ** JavaScript values, as a request body carries them *)

#[warnings="-register-all"]
Inductive JsValue : Type :=
  | JsUndefined
  | JsNull
  | JsBool (b : bool)
  | JsNumber (n : number)
  | JsString (s : string)
  | JsArray (items : list JsValue)
  | JsObject (fields : gmap string JsValue).

(** What a JavaScript computation yields: a value, or a thrown error with
    its message. *)
Definition result (A : Type) : Type := string + A.

Module Js.

(** ToBoolean *)
Definition truthy (v : JsValue) : bool :=
  match v with
  | JsUndefined | JsNull => false
  | JsBool b => b
  | JsNumber n => Num.truthy n
  | JsString s => negb (String.eqb s "")
  | JsArray _ | JsObject _ => true
  end.

(** [typeof v === "object"] *)
Definition isObjectType (v : JsValue) : bool :=
  match v with
  | JsNull | JsArray _ | JsObject _ => true
  | _ => false
  end.

(** [typeof v !== "undefined"] *)
Definition isDefined (v : JsValue) : bool :=
  match v with JsUndefined => false | _ => true end.

(** [v[key]], for the property names the controller reads: none of them is
    a property of an array, a string, a number or a boolean.  Reading a
    property of [null] or [undefined] throws. *)
Definition get (v : JsValue) (key : string) : result JsValue :=
  match v with
  | JsUndefined | JsNull =>
      inl ("Cannot read properties of undefined (reading '" +:+ key +:+ "')")
  | JsObject fields => inr (default JsUndefined (fields !! key))
  | _ => inr JsUndefined
  end.

(** [v[key]] where [v] is known to be truthy, so that the read cannot throw. *)
Definition field (v : JsValue) (key : string) : JsValue :=
  match v with
  | JsObject fields => default JsUndefined (fields !! key)
  | _ => JsUndefined
  end.

(** [parseFloat(v)]: [v] is converted to a string and parsed.  A number
    prints as a literal that parses back to itself; an array prints its
    items separated by commas, [null] and [undefined] items as nothing, so
    that only the first item is parsed. *)
Fixpoint parseFloat (v : JsValue) : number :=
  match v with
  | JsNumber n => n
  | JsString s => Str.parseFloat s
  | JsArray (item :: _) =>
      match item with
      | JsUndefined | JsNull => NaN
      | _ => parseFloat item
      end
  | _ => NaN
  end.

(** The leading significant digit of a positive integer. *)
Fixpoint leadingDigit (fuel : nat) (t : Z) : Z :=
  match fuel with
  | O => t
  | S fuel' => if t <? 10 then t else leadingDigit fuel' (t / 10)
  end.

(** The first significant digit of a positive rational below one. *)
Fixpoint firstDigit (fuel : nat) (q : Q) : Z :=
  match fuel with
  | O => 0
  | S fuel' =>
      if Qle_bool 1 q then Qfloor q else firstDigit fuel' (q * inject_Z 10)%Q
  end.

(** [parseInt(n)] for a number: the integer part of what it prints as.
    A number prints in exponent notation from 1e21 on and below 1e-6, and
    then only its first digit is read. *)
Definition parseIntNumber (n : number) : option Z :=
  match n with
  | Fin q =>
      let a := Qabs q in
      let signed (z : Z) := if Qle_bool 0 q then z else - z in
      if Qeq_bool q 0 then Some 0
      else if Qle_bool (inject_Z (10 ^ 21)) a then
        Some (signed (leadingDigit (S (Z.to_nat (Z.log2 (Qfloor a)))) (Qfloor a)))
      else if Qle_bool (1 # 1000000) a then Some (Num.trunc q)
      else Some (signed (firstDigit (S (Pos.size_nat (Qden a))) a))
  | _ => None
  end.

(** [parseInt(v)]; [None] is NaN. *)
Fixpoint parseInt (v : JsValue) : option Z :=
  match v with
  | JsNumber n => parseIntNumber n
  | JsString s => Str.parseInt s
  | JsArray (item :: _) =>
      match item with
      | JsUndefined | JsNull => None
      | _ => parseInt item
      end
  | _ => None
  end.

(** [parseFloat(v) || 0] *)
Definition parseFloatOrZero (v : JsValue) : number :=
  Num.or_zero (parseFloat v).

(** [parseInt(v) || 0] *)
Definition parseIntOrZero (v : JsValue) : Z := default 0 (parseInt v).

End Js.


(** ** The result monad *)

Definition res_bind {A B : Type} (m : result A) (k : A -> result B) : result B :=
  match m with
  | inl e => inl e
  | inr a => k a
  end.

Notation "'try!' x ':=' m 'in' k" := (res_bind m (fun x => k))
  (at level 10, x pattern, m at level 100, k at level 200).

(** [items.map(f)] where [f] may throw: the first exception ends the loop. *)
Fixpoint res_map {A B : Type} (f : A -> result B) (items : list A) : result (list B) :=
  match items with
  | [] => inr []
  | a :: rest =>
      try! b := f a in
      try! bs := res_map f rest in
      inr (b :: bs)
  end.

(** ** Prize schedules *)

Module FixedExtra.
Record t : Type := make { position : Z; amount : number }.
End FixedExtra.

Module Fixed.
Record t : Type := make { amounts : list number; additional : list FixedExtra.t }.
End Fixed.

Module PercentageExtra.
Record t : Type := make { position : Z; percentage : number }.
End PercentageExtra.

Module Percentage.
Record t : Type := make {
  basePrizePool : number;
  _1st : number;
  _2nd : number;
  _3rd : number;
  _4th : number;
  _5th : number;
  additional : list PercentageExtra.t
}.
End Percentage.

Module SpecialPrize.
Record t (C : Type) : Type := make { category : C; amount : number; isPercentage : bool }.
Arguments make {C}.
Arguments category {C}.
Arguments amount {C}.
Arguments isPercentage {C}.
End SpecialPrize.

Module Special.
Record t (C : Type) : Type := make {
  isFixed : bool;
  basePrizePool : number;
  specialPrizes : list (SpecialPrize.t C)
}.
Arguments make {C}.
Arguments isFixed {C}.
Arguments basePrizePool {C}.
Arguments specialPrizes {C}.
End Special.

(** The [prizes] object: at most one of the three keys is set at creation.
    [C] is the type of a special prize's category: any value before the
    document is cast by its schema, a string once it is stored. *)
Module Prizes.
Record t (C : Type) : Type := make {
  fixed : option Fixed.t;
  percentage : option Percentage.t;
  special : option (Special.t C)
}.
Arguments make {C}.
Arguments fixed {C}.
Arguments percentage {C}.
Arguments special {C}.
Definition empty {C : Type} : t C := make None None None.
End Prizes.

(** ** createTournament: the prize structure (lines 183-301) *)

Definition labels : list string := ["1st"; "2nd"; "3rd"; "4th"; "5th"].

(** [labels.forEach(lbl => { if (typeof fixed[lbl] !== "undefined")
    amounts.push(parseFloat(fixed[lbl]) || 0) })] *)
Definition legacyAmounts (fixed : JsValue) : list number :=
  fold_left
    (fun amounts lbl =>
       if Js.isDefined (Js.field fixed lbl)
       then (amounts ++ [Js.parseFloatOrZero (Js.field fixed lbl)])%list
       else amounts)
    labels [].

(** The [amounts] of a fixed schedule, from [prizes.fixed] (an object). *)
Definition normalizeFixedAmounts (fixed : JsValue) : list number :=
  match Js.field fixed "amounts" with
  | JsArray items => map Js.parseFloatOrZero items
  | _ => legacyAmounts fixed
  end.

Definition normalizeFixedAdditional (fixed : JsValue) : result (list FixedExtra.t) :=
  match Js.field fixed "additional" with
  | JsArray items =>
      res_map
        (fun prize =>
           try! position := Js.get prize "position" in
           try! amount := Js.get prize "amount" in
           inr (FixedExtra.make (Js.parseIntOrZero position)
                                (Js.parseFloatOrZero amount)))
        items
  | _ => inr []
  end.

Definition normalizeFixed (prizes : JsValue) : result Fixed.t :=
  if Js.truthy prizes && Js.truthy (Js.field prizes "fixed")
     && Js.isObjectType (Js.field prizes "fixed")
  then
    let fixed := Js.field prizes "fixed" in
    try! additional := normalizeFixedAdditional fixed in
    inr (Fixed.make (normalizeFixedAmounts fixed) additional)
  else inr (Fixed.make [] []).

(** [if (raw) target = parseFloat(raw) || 0], the target being 0 before. *)
Definition guardedFloat (raw : JsValue) : number :=
  if Js.truthy raw then Js.parseFloatOrZero raw else Num.zero.

Definition normalizePercentage (prizes : JsValue) : result Percentage.t :=
  if Js.truthy prizes && Js.truthy (Js.field prizes "percentage")
     && Js.isObjectType (Js.field prizes "percentage")
  then
    let percentage := Js.field prizes "percentage" in
    try! additional :=
      match Js.field percentage "additional" with
      | JsArray items =>
          res_map
            (fun prize =>
               try! position := Js.get prize "position" in
               try! pct := Js.get prize "percentage" in
               inr (PercentageExtra.make (Js.parseIntOrZero position)
                                         (Js.parseFloatOrZero pct)))
            items
      | _ => inr []
      end in
    inr (Percentage.make
           (guardedFloat (Js.field percentage "basePrizePool"))
           (guardedFloat (Js.field percentage "1st"))
           (guardedFloat (Js.field percentage "2nd"))
           (guardedFloat (Js.field percentage "3rd"))
           (guardedFloat (Js.field percentage "4th"))
           (guardedFloat (Js.field percentage "5th"))
           additional)
  else inr (Percentage.make Num.zero Num.zero Num.zero Num.zero Num.zero Num.zero []).

Definition normalizeSpecial (prizes : JsValue) : result (Special.t JsValue) :=
  if Js.truthy prizes && Js.truthy (Js.field prizes "special")
     && Js.isObjectType (Js.field prizes "special")
  then
    let special := Js.field prizes "special" in
    try! specialPrizes :=
      match Js.field special "specialPrizes" with
      | JsArray items =>
          res_map
            (fun prize =>
               try! category := Js.get prize "category" in
               try! amount := Js.get prize "amount" in
               try! isPercentage := Js.get prize "isPercentage" in
               inr (SpecialPrize.make
                      (if Js.truthy category then category else JsString "")
                      (Js.parseFloatOrZero amount)
                      (match isPercentage with JsBool true => true | _ => false end)))
            items
      | _ => inr []
      end in
    inr (Special.make
           (match Js.field special "isFixed" with JsBool b => b | _ => true end)
           (guardedFloat (Js.field special "basePrizePool"))
           specialPrizes)
  else inr (Special.make true Num.zero []).

(** [normalizedPrizes], by [prizeType]. *)
Definition normalizePrizes (prizeType : string) (prizes : JsValue)
  : result (Prizes.t JsValue) :=
  if String.eqb prizeType "fixed" then
    try! fixed := normalizeFixed prizes in
    inr (Prizes.make (Some fixed) None None)
  else if String.eqb prizeType "percentage" then
    try! percentage := normalizePercentage prizes in
    inr (Prizes.make None (Some percentage) None)
  else if String.eqb prizeType "special" then
    try! special := normalizeSpecial prizes in
    inr (Prizes.make None None (Some special))
  else inr Prizes.empty.

(** ** createTournament: the total prize pool (lines 308-345) *)

Definition typeError (what : string) : string :=
  "Cannot read properties of undefined (reading '" +:+ what +:+ "')".

(** [items.reduce((sum, x) => sum + (amount(x) || 0), 0)] *)
Definition sumOrZero {A : Type} (amount : A -> number) (items : list A) : number :=
  fold_left (fun sum x => Num.add sum (Num.or_zero (amount x))) items Num.zero.

Definition totalPrizePool {C : Type} (prizeType : string) (prizes : Prizes.t C)
  : result number :=
  if String.eqb prizeType "fixed" then
    match Prizes.fixed prizes with
    | Some fixed =>
        let pool := sumOrZero id (Fixed.amounts fixed) in
        inr (match Fixed.additional fixed with
             | [] => pool
             | additional => Num.add pool (sumOrZero FixedExtra.amount additional)
             end)
    | None => inl (typeError "amounts")
    end
  else if String.eqb prizeType "percentage" then
    match Prizes.percentage prizes with
    | Some percentage => inr (Num.or_zero (Percentage.basePrizePool percentage))
    | None => inl (typeError "basePrizePool")
    end
  else if String.eqb prizeType "special" then
    match Prizes.special prizes with
    | Some special =>
        if Special.isFixed special
        then inr (sumOrZero SpecialPrize.amount (Special.specialPrizes special))
        else inr (Num.or_zero (Special.basePrizePool special))
    | None => inl (typeError "isFixed")
    end
  else inr Num.zero.


(** ** Documents and collections *)

Inductive Status : Type := upcoming | active | completed | cancelled.

Inductive PrizeType : Type := fixed | percentage | special.

#[global] Instance Status_eq_dec : EqDecision Status.
Proof. solve_decision. Defined.

(** One entry of [tournament.results]: [{ userId, position, score }]. *)
Module Result.
Record t : Type := make { userId : string; position : Z; score : number }.
End Result.

Module Metadata.
Record t : Type := make {
  prizesDistributed : bool;
  prizeDistributionDate : option Z;
  distributedBy : option string
}.
Definition empty : t := make false None None.
End Metadata.

Module Tournament.
Record t : Type := make {
  title : string;
  organizer : string;
  startDate : Z;
  startTime : string;
  timezone : string;
  duration : Z;
  status : Status;
  manualStatusOverride : bool;
  fiveMinuteReminderSent : bool;
  prizeType : PrizeType;
  prizes : Prizes.t string;
  entryFee : number;
  fundingMethod : string;
  participants : list string;
  results : list Result.t;
  metadata : Metadata.t
}.

Definition set_status (s : Status) (x : t) : t :=
  make (title x) (organizer x) (startDate x) (startTime x) (timezone x)
       (duration x) s (manualStatusOverride x) (fiveMinuteReminderSent x)
       (prizeType x) (prizes x) (entryFee x) (fundingMethod x)
       (participants x) (results x) (metadata x).

Definition set_results (r : list Result.t) (x : t) : t :=
  make (title x) (organizer x) (startDate x) (startTime x) (timezone x)
       (duration x) (status x) (manualStatusOverride x)
       (fiveMinuteReminderSent x) (prizeType x) (prizes x) (entryFee x)
       (fundingMethod x) (participants x) r (metadata x).

Definition set_fiveMinuteReminderSent (b : bool) (x : t) : t :=
  make (title x) (organizer x) (startDate x) (startTime x) (timezone x)
       (duration x) (status x) (manualStatusOverride x) b
       (prizeType x) (prizes x) (entryFee x) (fundingMethod x)
       (participants x) (results x) (metadata x).

Definition set_metadata (m : Metadata.t) (x : t) : t :=
  make (title x) (organizer x) (startDate x) (startTime x) (timezone x)
       (duration x) (status x) (manualStatusOverride x)
       (fiveMinuteReminderSent x) (prizeType x) (prizes x) (entryFee x)
       (fundingMethod x) (participants x) (results x) m.
End Tournament.

Module User.
Record t : Type := make {
  fullName : string;
  walletBalance : number;
  createdTournaments : list string
}.

Definition set_walletBalance (b : number) (u : t) : t :=
  make (fullName u) b (createdTournaments u).

Definition push_createdTournament (id : string) (u : t) : t :=
  make (fullName u) (walletBalance u) (createdTournaments u ++ [id])%list.
End User.

(** A ledger entry.  [position] is the [details.position] of a payout. *)
Module Transaction.
Record t : Type := make {
  user : string;
  tournament : string;
  type : string;
  amount : number;
  status : string;
  paymentMethod : string;
  reference : string;
  position : option string
}.
End Transaction.

Module Notification.
Record t : Type := make {
  user : string;
  type : string;
  relatedId : string;
  emailSent : bool;
  pushSent : bool
}.
End Notification.

(** The database.  [notifications] is written outside any session. *)
Module Db.
Record t : Type := make {
  users : gmap string User.t;
  tournaments : gmap string Tournament.t;
  transactions : list Transaction.t;
  notifications : list Notification.t
}.

Definition set_users (u : gmap string User.t) (db : t) : t :=
  make u (tournaments db) (transactions db) (notifications db).

Definition set_tournaments (ts : gmap string Tournament.t) (db : t) : t :=
  make (users db) ts (transactions db) (notifications db).

Definition add_transaction (x : Transaction.t) (db : t) : t :=
  make (users db) (tournaments db) (transactions db ++ [x])%list (notifications db).

Definition add_notifications (ns : list Notification.t) (db : t) : t :=
  make (users db) (tournaments db) (transactions db) (notifications db ++ ns)%list.

(** What [session.abortTransaction()] leaves: the writes made through the
    session are dropped, those made outside it stay. *)
Definition rollback (before after : t) : t :=
  make (users before) (tournaments before) (transactions before)
       (notifications after).
End Db.

(** ** Handlers: state and exceptions *)

Definition action (A : Type) : Type := Db.t -> result A * Db.t.

Definition ret {A : Type} (a : A) : action A := fun db => (inr a, db).

Definition throw {A : Type} (error : string) : action A := fun db => (inl error, db).

Definition bind {A B : Type} (m : action A) (k : A -> action B) : action B :=
  fun db =>
    match m db with
    | (inr a, db') => k a db'
    | (inl e, db') => (inl e, db')
    end.

Notation "'do!' x ':=' m 'in' k" := (bind m (fun x => k))
  (at level 10, x pattern, m at level 100, k at level 200).
Notation "m ';;' k" := (bind m (fun _ => k))
  (at level 100, k at level 200, right associativity, only parsing).

(** [try { body } catch (error) { handler }] *)
Definition tryCatch {A : Type} (body : action A) (handler : string -> action A)
  : action A :=
  fun db =>
    match body db with
    | (inl e, db') => handler e db'
    | ok => ok
    end.

Definition get_db : action Db.t := fun db => (inr db, db).

Definition modify (f : Db.t -> Db.t) : action unit := fun db => (inr tt, f db).

(** [for (const x of items) { body(x) }] *)
Fixpoint forEach {A : Type} (body : A -> action unit) (items : list A) : action unit :=
  match items with
  | [] => ret tt
  | x :: rest => body x ;; forEach body rest
  end.

(** A session transaction: commit when the body returns, abort and rethrow
    when it throws. *)
Definition inTransaction {A : Type} (body : action A) : action A :=
  fun db =>
    match body db with
    | (inl e, db') => (inl e, Db.rollback db db')
    | ok => ok
    end.

(** What the controller hands to [Tournament.create]. *)
Module TournamentInput.
Record t : Type := make {
  title : string;
  category : string;
  banner : string;
  rules : string;
  startDate : Z;
  startTime : string;
  timezone : string;
  duration : number;
  prizeType : string;
  prizes : Prizes.t JsValue;
  entryFee : number;
  fundingMethod : string;
  organizer : string;
  tournamentLink : string;
  password : option string
}.
End TournamentInput.

(** The run-time environment of one request: the clock, the identifier
    generator, the libraries and the services the controllers call, and the
    schema of the Tournament model, which casts and validates a document
    when it is created. *)
Module Env.
Record t : Type := make {
  (** [Date.now()] *)
  now : Z;
  (** [uuidv4().slice(0, 8)] for the n-th entry of the ledger *)
  uuid : nat -> string;
  (** whether [Notification.create] / [insertMany] rejects, given the
      recipient and the notifications stored so far *)
  notificationRejected : string -> list Notification.t -> bool;
  (** whether the mail and the push services deliver to a user *)
  emailDelivered : string -> bool;
  pushDelivered : string -> bool;
  (** [urlPattern.test(link)] *)
  urlPatternTest : string -> bool;
  (** the error [DateTime.now().setZone(zone)] throws, if any *)
  zoneError : string -> option string;
  (** [new Date(text).getTime()], [None] for an invalid date *)
  parseDate : string -> option Z;
  (** [cloudinary.uploader.upload]: the URL of the banner, or an error *)
  uploadBanner : result string;
  (** [Tournament.create]: the identifier and the stored document, or the
      validation error *)
  tournamentCreate : TournamentInput.t -> result (string * Tournament.t);
  (** whether [Transaction.create] rejects the funding record *)
  fundingRecordRejected : bool;
  (** Luxon's [DateTime.fromISO] on the date of [startDate], a time of day
      and a zone: the instant, or [None] when the result is invalid *)
  fromISO : Z -> string -> string -> option Z
}.
End Env.

(** ** notificationController.js

    The texts of a notification are not represented.  The mail and push
    helpers catch their own errors and report [{ success }]. *)

Section Notifications.

Variable env : Env.t.

(** The stored notification of [userId], with its delivery flags once the
    mail and push helpers have run for a user that exists. *)
Definition notificationFor (db : Db.t) (userId type relatedId : string)
  : Notification.t :=
  let known := bool_decide (is_Some (Db.users db !! userId)) in
  Notification.make userId type relatedId
    (known && Env.emailDelivered env userId)
    (known && Env.pushDelivered env userId).

(** [exports.createNotification] (lines 573-614) *)
Definition createNotification (userId type relatedId : string)
  : action (option Notification.t) :=
  tryCatch
    (do! db := get_db in
     if Env.notificationRejected env userId (Db.notifications db)
     then throw "Notification validation failed"
     else
       let notification := notificationFor db userId type relatedId in
       modify (Db.add_notifications [notification]) ;;
       ret (Some notification))
    (fun _ => ret None).

(** [User.find({ _id: { $in: userIds } })]: the users of the collection
    whose identifier is among [userIds], each of them once, in the order of
    the collection. *)
Definition usersAmong (db : Db.t) (userIds : list string) : list string :=
  (map_to_list (filter (fun entry => entry.1 ∈ userIds) (Db.users db))).*1.

(** [exports.createBulkNotifications] (lines 617-718): one notification per
    user found, inserted together. *)
Definition createBulkNotifications (userIds : list string) (type relatedId : string)
  : action (option (list Notification.t)) :=
  tryCatch
    (do! db := get_db in
     let users := usersAmong db userIds in
     if existsb (fun id => Env.notificationRejected env id (Db.notifications db)) users
     then throw "Notification validation failed"
     else
       let created := map (fun id => notificationFor db id type relatedId) users in
       modify (Db.add_notifications created) ;;
       ret (Some created))
    (fun _ => ret None).

(** [tournament.populate("participants")]: the participants that exist. *)
Definition populateParticipants (db : Db.t) (tournament : Tournament.t) : list string :=
  filter (fun id => is_Some (Db.users db !! id)) (Tournament.participants tournament).

(** [exports.notifyTournamentStartingInFiveMinutes] (lines 991-1022) *)
Definition notifyTournamentStartingInFiveMinutes (tournamentId : string)
  : action (option (list Notification.t)) :=
  tryCatch
    (do! db := get_db in
     match Db.tournaments db !! tournamentId with
     | None => ret None
     | Some tournament =>
         match populateParticipants db tournament with
         | [] => ret None
         | participantIds =>
             createBulkNotifications participantIds "tournament_reminder" tournamentId
         end
     end)
    (fun _ => ret None).

(** [exports.notifyTournamentWinner] (lines 1111-1132) *)
Definition notifyTournamentWinner (userId tournamentId : string)
  : action (option Notification.t) :=
  tryCatch
    (createNotification userId "tournament_result" tournamentId)
    (fun _ => ret None).

End Notifications.

(** ** calculatePrizeDistribution (lines 1067-1157) *)

Module Payout.
Record t : Type := make {
  userId : string;
  position : Z;
  amount : number;
  category : option string
}.
End Payout.

(** [results.sort((a, b) => a.position - b.position)], a stable sort. *)
Fixpoint insertByPosition (r : Result.t) (sorted : list Result.t) : list Result.t :=
  match sorted with
  | [] => [r]
  | s :: rest =>
      if Result.position r <=? Result.position s then r :: sorted
      else s :: insertByPosition r rest
  end.

Definition sortByPosition (results : list Result.t) : list Result.t :=
  fold_right insertByPosition [] results.

(** [parseFloat(amounts[i]) || 0] on an array of numbers: an index out of
    range reads [undefined]. *)
Definition amountAt (amounts : list number) (i : nat) : number :=
  Num.or_zero (default NaN (amounts !! i)).

(** The loop over the standard positions of a fixed schedule:
    [for (let i = 0; i < sortedResults.length && i < 5; i++)]. *)
Definition fixedStandardLines (amounts : list number) (sortedResults : list Result.t)
  : list Payout.t :=
  omap
    (fun i =>
       match sortedResults !! i with
       | Some result =>
           let amount := amountAt amounts i in
           if Num.gtb amount Num.zero
           then Some (Payout.make (Result.userId result) (Z.of_nat i + 1) amount None)
           else None
       | None => None
       end)
    (seq 0 (Nat.min (length sortedResults) 5)).

Definition fixedAdditionalLines (additional : list FixedExtra.t)
    (sortedResults : list Result.t) : list Payout.t :=
  omap
    (fun additionalPrize =>
       match find (fun r => Result.position r =? FixedExtra.position additionalPrize)
                  sortedResults with
       | Some result =>
           if Num.gtb (FixedExtra.amount additionalPrize) Num.zero
           then Some (Payout.make (Result.userId result)
                        (FixedExtra.position additionalPrize)
                        (FixedExtra.amount additionalPrize) None)
           else None
       | None => None
       end)
    additional.

(** [percentagePrizes[positions[i]] || 0] for [i] below 5. *)
Definition rankPercentage (p : Percentage.t) (i : nat) : number :=
  Num.or_zero
    (match i with
     | 0%nat => Percentage._1st p
     | 1%nat => Percentage._2nd p
     | 2%nat => Percentage._3rd p
     | 3%nat => Percentage._4th p
     | _ => Percentage._5th p
     end).

Definition percentageLines (p : Percentage.t) (sortedResults : list Result.t)
  : list Payout.t :=
  omap
    (fun i =>
       match sortedResults !! i with
       | Some result =>
           let amount :=
             Num.div (Num.mul (Percentage.basePrizePool p) (rankPercentage p i))
                     Num.hundred in
           if Num.gtb amount Num.zero
           then Some (Payout.make (Result.userId result) (Z.of_nat i + 1)
                        (Num.round2 amount) None)
           else None
       | None => None
       end)
    (seq 0 (Nat.min (length sortedResults) 5)).

(** Every special prize goes to [sortedResults[0]]; reading its [userId]
    throws when there is no result. *)
Definition specialLines (s : Special.t string) (sortedResults : list Result.t)
  : result (list Payout.t) :=
  try! lines :=
    res_map
      (fun specialPrize =>
         let amount :=
           if SpecialPrize.isPercentage specialPrize
           then Num.div (Num.mul (Special.basePrizePool s)
                                 (SpecialPrize.amount specialPrize)) Num.hundred
           else SpecialPrize.amount specialPrize in
         if Num.gtb amount Num.zero then
           match sortedResults with
           | result :: _ =>
               inr (Some (Payout.make (Result.userId result) 1 (Num.round2 amount)
                            (Some (SpecialPrize.category specialPrize))))
           | [] => inl (typeError "userId")
           end
         else inr None)
      (Special.specialPrizes s) in
  inr (omap id lines).

Definition calculatePrizeDistribution (tournament : Tournament.t)
    (results : list Result.t) : result (list Payout.t) :=
  let prizes := Tournament.prizes tournament in
  let sortedResults := sortByPosition results in
  match Tournament.prizeType tournament with
  | fixed =>
      match Prizes.fixed prizes with
      | Some fixedPrizes =>
          inr (fixedStandardLines (Fixed.amounts fixedPrizes) sortedResults
               ++ fixedAdditionalLines (Fixed.additional fixedPrizes) sortedResults)%list
      | None => inr (fixedStandardLines [] sortedResults)
      end
  | percentage =>
      match Prizes.percentage prizes with
      | Some percentagePrizes => inr (percentageLines percentagePrizes sortedResults)
      | None => inl (typeError "basePrizePool")
      end
  | special =>
      match Prizes.special prizes with
      | Some specialPrizes => specialLines specialPrizes sortedResults
      | None => inl (typeError "specialPrizes")
      end
  end.

(** ** Requests and responses *)

(** One entry of the body of a distribution request:
    [{ userId, position, customAmount (optional) }], the position being a
    label such as ['1st'] or the category of a special prize. *)
Module PrizeEntry.
Record t : Type := make {
  userId : string;
  position : string;
  customAmount : option number
}.
End PrizeEntry.

Module CalculatedPrize.
Record t : Type := make { userId : string; position : string; amount : number }.
End CalculatedPrize.

Module Winner.
Record t : Type := make {
  userId : string;
  userName : string;
  position : string;
  amount : number;
  newWalletBalance : number
}.
End Winner.

(** What a handler sends with [res.status(code).json(...)]. *)
Inductive Body : Type :=
  | Message (message : string)
  | Failure (message : string) (error : string)
  | Submitted (prizeDistribution : list Payout.t)
  | Distributed (totalDistributed : number) (winners : list Winner.t)
  | Created (tournamentId : string)
  | RedirectToTopup (amountNeeded : number).

Module Response.
Record t : Type := make { code : Z; body : Body }.
End Response.

Definition handler : Type := Db.t -> Response.t * Db.t.

(** The outer [try { ... } catch (error) { res.status(500)... }]. *)
Definition catchAll (body : action Response.t) (message : string) : handler :=
  fun db =>
    match body db with
    | (inr response, db') => (response, db')
    | (inl error, db') => (Response.make 500 (Failure message error), db')
    end.

Definition lift {A : Type} (r : result A) : action A := fun db => (r, db).

(** [items.map(f)] for an [f] that awaits. *)
Fixpoint mapM {A B : Type} (f : A -> action B) (items : list A) : action (list B) :=
  match items with
  | [] => ret []
  | x :: rest =>
      do! y := f x in
      do! ys := mapM f rest in
      ret (y :: ys)
  end.

(** ** submitTournamentResults (lines 973-1062) *)

Section SubmitResults.

Variable env : Env.t.

(** [User.findByIdAndUpdate(userId, { $inc: { walletBalance: amount } })] *)
Definition incWalletBalance (userId : string) (amount : number) : action unit :=
  modify (fun db =>
    Db.set_users
      (alter (fun u => User.set_walletBalance (Num.add (User.walletBalance u) amount) u)
             userId (Db.users db))
      db).

Definition prizeTransaction (db : Db.t) (tournamentId : string) (prize : Payout.t)
  : Transaction.t :=
  Transaction.make (Payout.userId prize) tournamentId "tournament_prize"
    (Payout.amount prize) "completed" "wallet"
    ("PRIZE-" +:+ Env.uuid env (length (Db.transactions db)))
    (Some (pretty (Payout.position prize))).

(** The body of the loop over [prizeDistribution]. *)
Definition payPrize (tournamentId : string) (prize : Payout.t) : action unit :=
  if Num.gtb (Payout.amount prize) Num.zero then
    incWalletBalance (Payout.userId prize) (Payout.amount prize) ;;
    (do! db := get_db in
     modify (Db.add_transaction (prizeTransaction db tournamentId prize))) ;;
    tryCatch
      (notifyTournamentWinner env (Payout.userId prize) tournamentId ;; ret tt)
      (fun _ => ret tt)
  else ret tt.

(** [tournament.status = "completed"; tournament.results = results;
    await tournament.save()], [results] having been sorted in place. *)
Definition saveResults (tournamentId : string) (results : list Result.t) : action unit :=
  modify (fun db =>
    Db.set_tournaments
      (alter (fun t => Tournament.set_results (sortByPosition results)
                         (Tournament.set_status completed t))
             tournamentId (Db.tournaments db))
      db).

(** [results] is [None] when the body does not carry an array. *)
Definition submitTournamentResults (tournamentId reqUserId : string)
    (results : option (list Result.t)) : handler :=
  fun db =>
    match Db.tournaments db !! tournamentId with
    | None => (Response.make 404 (Message "Tournament not found"), db)
    | Some tournament =>
        if negb (String.eqb (Tournament.organizer tournament) reqUserId) then
          (Response.make 403
             (Message "You are not authorized to submit results for this tournament"),
           db)
        else
          match results with
          | None | Some [] =>
              (Response.make 400 (Message "Invalid results format"), db)
          | Some results =>
              catchAll
                (do! prizeDistribution :=
                   lift (calculatePrizeDistribution tournament results) in
                 forEach (payPrize tournamentId) prizeDistribution ;;
                 saveResults tournamentId results ;;
                 ret (Response.make 200 (Submitted prizeDistribution)))
                "Error processing tournament results" db
          end
    end.

End SubmitResults.

(** ** distributeTournamentPrizes (lines 1408-1679) *)

(** [s.slice(-n)] *)
Definition sliceLast (n : nat) (s : string) : string :=
  String.substring (String.length s - n) n s.

(** [additional?.find(ap => ap.position === posNum)] and its amount. *)
Definition additionalAmountAt (additional : list FixedExtra.t) (posNum : Z) : number :=
  match find (fun ap => FixedExtra.position ap =? posNum) additional with
  | Some additionalPrize => FixedExtra.amount additionalPrize
  | None => Num.zero
  end.

(** The amount of a fixed schedule for a position label (lines 1488-1511).
    [posNum] is [None] when no digit occurs in the label; the fallback
    then compares the printed position of an additional prize with the
    digits of the label, of which there is none. *)
Definition fixedAmountFor (fixedPrizes : option Fixed.t) (position : string) : number :=
  let posNum := Str.parseInt10 (Str.digitsOnly position) in
  match posNum, fixedPrizes with
  | Some n, Some fixedPrizes =>
      let arrAmount :=
        if 1 <=? n then amountAt (Fixed.amounts fixedPrizes) (Z.to_nat (n - 1))
        else Num.zero in
      if Num.gtb arrAmount Num.zero then arrAmount
      else additionalAmountAt (Fixed.additional fixedPrizes) n
  | None, Some fixedPrizes =>
      match find (fun ap => String.eqb (pretty (FixedExtra.position ap))
                                       (Str.digitsOnly position))
                 (Fixed.additional fixedPrizes) with
      | Some additionalPrize => FixedExtra.amount additionalPrize
      | None => Num.zero
      end
  | _, None => Num.zero
  end.

(** [additional?.find(ap => ap.position.toString() === position.replace(/\D/g, ""))]
    and its percentage. *)
Definition additionalPercentage (p : Percentage.t) (position : string) : number :=
  match find (fun ap => String.eqb (pretty (PercentageExtra.position ap))
                                   (Str.digitsOnly position))
             (Percentage.additional p) with
  | Some additionalPrize => PercentageExtra.percentage additionalPrize
  | None => Num.zero
  end.

(** The [percentage] that multiplies the pool (lines 1514-1524).
    [percentage[position]] is read on the keys of the schema; the
    [additional] array, always truthy, is converted to a number by the
    product: 0 when empty, NaN otherwise.  A position that names a
    property inherited from the prototype of the object ([toString],
    [constructor], ...) is read as absent; in JavaScript it yields a
    function, and the product is NaN. *)
Definition percentageFor (p : Percentage.t) (position : string) : number :=
  let named (n : number) :=
    if Num.truthy n then n else additionalPercentage p position in
  if String.eqb position "1st" then named (Percentage._1st p)
  else if String.eqb position "2nd" then named (Percentage._2nd p)
  else if String.eqb position "3rd" then named (Percentage._3rd p)
  else if String.eqb position "4th" then named (Percentage._4th p)
  else if String.eqb position "5th" then named (Percentage._5th p)
  else if String.eqb position "basePrizePool" then named (Percentage.basePrizePool p)
  else if String.eqb position "additional" then
    match Percentage.additional p with [] => Num.zero | _ => NaN end
  else additionalPercentage p position.

(** The special prize matched by a label (lines 1529-1543). *)
Definition specialAmountFor (s : Special.t string) (position : string) : number :=
  match find (fun sp =>
                String.eqb (SpecialPrize.category sp) position
                || Str.includes (Str.toLowerCase (SpecialPrize.category sp))
                                (Str.toLowerCase position))
             (Special.specialPrizes s) with
  | Some specialPrize =>
      if Special.isFixed s || negb (SpecialPrize.isPercentage specialPrize)
      then SpecialPrize.amount specialPrize
      else Num.div (Num.mul (Num.or_zero (Special.basePrizePool s))
                            (SpecialPrize.amount specialPrize)) Num.hundred
  | None => Num.zero
  end.

(** The amount the prize structure gives to a position (lines 1487-1544). *)
Definition scheduleAmount (tournament : Tournament.t) (position : string)
  : result number :=
  let prizes := Tournament.prizes tournament in
  match Tournament.prizeType tournament with
  | fixed => inr (fixedAmountFor (Prizes.fixed prizes) position)
  | percentage =>
      match Prizes.percentage prizes with
      | Some p =>
          inr (Num.div (Num.mul (Num.or_zero (Percentage.basePrizePool p))
                                (percentageFor p position)) Num.hundred)
      | None => inl (typeError "basePrizePool")
      end
  | special =>
      match Prizes.special prizes with
      | Some s => inr (specialAmountFor s position)
      | None => inl (typeError "specialPrizes")
      end
  end.

(** [prize.customAmount && prize.customAmount > 0] *)
Definition usesCustomAmount (prize : PrizeEntry.t) : bool :=
  match PrizeEntry.customAmount prize with
  | Some custom => Num.truthy custom && Num.gtb custom Num.zero
  | None => false
  end.

(** [prizeAmount] once the custom amount has been applied (lines 1484-1549). *)
Definition prizeAmount (tournament : Tournament.t) (prize : PrizeEntry.t)
  : result number :=
  try! amount := scheduleAmount tournament (PrizeEntry.position prize) in
  inr (if usesCustomAmount prize
       then default amount (PrizeEntry.customAmount prize)
       else amount).

Definition invalidAmount (prize : PrizeEntry.t) : Response.t :=
  Response.make 400
    (Message ("Invalid prize amount for position " +:+ PrizeEntry.position prize)).

(** The loop that fills [calculatedPrizes] and [totalDistributedAmount]
    (lines 1483-1566); a line whose amount is [<= 0] ends the request. *)
Fixpoint calculatePrizes (tournament : Tournament.t) (entries : list PrizeEntry.t)
    (calculatedPrizes : list CalculatedPrize.t) (totalDistributedAmount : number)
  : result (Response.t + list CalculatedPrize.t * number) :=
  match entries with
  | [] => inr (inr (calculatedPrizes, totalDistributedAmount))
  | prize :: rest =>
      try! amount := prizeAmount tournament prize in
      if Num.leb amount Num.zero then inr (inl (invalidAmount prize))
      else
        calculatePrizes tournament rest
          (calculatedPrizes
             ++ [CalculatedPrize.make (PrizeEntry.userId prize)
                   (PrizeEntry.position prize) amount])%list
          (Num.add totalDistributedAmount amount)
  end.

Section DistributePrizes.

Variable env : Env.t.

(** An entry of the ledger that the replay guard looks for. *)
Definition isCompletedPayout (tournamentId : string) (x : Transaction.t) : bool :=
  String.eqb (Transaction.tournament x) tournamentId
  && String.eqb (Transaction.type x) "prize_payout"
  && String.eqb (Transaction.status x) "completed".

(** [Transaction.find({ tournament, type: "prize_payout", status: "completed" })] *)
Definition existingPrizePayouts (db : Db.t) (tournamentId : string)
  : list Transaction.t :=
  List.filter (isCompletedPayout tournamentId) (Db.transactions db).

Definition payoutTransaction (tournamentId : string) (prize : CalculatedPrize.t)
  : Transaction.t :=
  Transaction.make (CalculatedPrize.userId prize) tournamentId "prize_payout"
    (CalculatedPrize.amount prize) "completed" "wallet"
    ("PRIZE-" +:+ sliceLast 8 tournamentId +:+ "-"
       +:+ sliceLast 8 (CalculatedPrize.userId prize) +:+ "-" +:+ pretty (Env.now env))
    (Some (CalculatedPrize.position prize)).

(** The body of the loop over [calculatedPrizes], inside the session
    (lines 1578-1634). *)
Definition creditWinner (tournamentId : string) (prize : CalculatedPrize.t)
  : action Winner.t :=
  do! db := get_db in
  match Db.users db !! CalculatedPrize.userId prize with
  | None => throw ("User not found: " +:+ CalculatedPrize.userId prize)
  | Some user =>
      let balance := Num.add (User.walletBalance user) (CalculatedPrize.amount prize) in
      modify (fun db =>
        Db.set_users
          (<[CalculatedPrize.userId prize := User.set_walletBalance balance user]>
             (Db.users db)) db) ;;
      modify (Db.add_transaction (payoutTransaction tournamentId prize)) ;;
      notifyTournamentWinner env (CalculatedPrize.userId prize) tournamentId ;;
      ret (Winner.make (CalculatedPrize.userId prize) (User.fullName user)
             (CalculatedPrize.position prize) (CalculatedPrize.amount prize) balance)
  end.

(** [Tournament.findByIdAndUpdate(tournamentId, { $set: { "metadata...": } })] *)
Definition markDistributed (tournamentId reqUserId : string) : action unit :=
  modify (fun db =>
    Db.set_tournaments
      (alter (Tournament.set_metadata
                (Metadata.make true (Some (Env.now env)) (Some reqUserId)))
             tournamentId (Db.tournaments db))
      db).

(** The session (lines 1571-1671). *)
Definition distributionTransaction (tournamentId reqUserId : string)
    (calculatedPrizes : list CalculatedPrize.t) (totalDistributedAmount : number)
  : action Response.t :=
  inTransaction
    (do! winners := mapM (creditWinner tournamentId) calculatedPrizes in
     markDistributed tournamentId reqUserId ;;
     ret (Response.make 200 (Distributed totalDistributedAmount winners))).

(** [prizeDistribution] is [None] when the body does not carry an array. *)
Definition distributeTournamentPrizes (tournamentId reqUserId : string)
    (prizeDistribution : option (list PrizeEntry.t)) : handler :=
  catchAll
    (match prizeDistribution with
     | None | Some [] =>
         ret (Response.make 400
                (Message "Prize distribution data is required and must be an array"))
     | Some prizeDistribution =>
         do! db := get_db in
         match Db.tournaments db !! tournamentId with
         | None => ret (Response.make 404 (Message "Tournament not found"))
         | Some tournament =>
             if negb (bool_decide (is_Some (Db.users db !! Tournament.organizer tournament)))
             then throw (typeError "_id")
             else if negb (String.eqb (Tournament.organizer tournament) reqUserId) then
               ret (Response.make 403
                      (Message "Only tournament organizer can distribute prizes"))
             else if negb (bool_decide (Tournament.status tournament = completed)) then
               ret (Response.make 400
                      (Message "Tournament must be completed before distributing prizes"))
             else if negb (Nat.eqb (length (existingPrizePayouts db tournamentId)) 0) then
               ret (Response.make 400
                      (Message "Prizes have already been distributed for this tournament"))
             else
               let participantIds := populateParticipants db tournament in
               let invalidUsers :=
                 List.filter
                   (fun prize =>
                      negb (existsb (String.eqb (PrizeEntry.userId prize)) participantIds))
                   prizeDistribution in
               if negb (Nat.eqb (length invalidUsers) 0) then
                 ret (Response.make 400
                        (Message "Some users in prize distribution are not tournament participants"))
               else
                 do! calculated :=
                   lift (calculatePrizes tournament prizeDistribution [] Num.zero) in
                 match calculated with
                 | inl response => ret response
                 | inr (calculatedPrizes, totalDistributedAmount) =>
                     distributionTransaction tournamentId reqUserId
                       calculatedPrizes totalDistributedAmount
                 end
         end
     end)
    "Error distributing prizes".

End DistributePrizes.

(** ** scheduleTournamentReminder (lines 1160-1262) *)

(** A pending [setTimeout]: the tournament its callback reminds, and the
    instant at which it fires. *)
Module Timer.
Record t : Type := make { tournamentId : string; fireAt : Z }.
End Timer.

(** [setTimeout] replaces a delay above 2^31 - 1 by 1. *)
Definition timeoutDelay (delay : Z) : Z :=
  if 2147483647 <? delay then 1 else delay.

Section Reminders.

Variable env : Env.t.

(** The timer the function sets, if any.  An invalid date and time yield
    no timer: the zone branch returns, the UTC branch computes a delay that
    is NaN. *)
Definition scheduleTournamentReminder (tournamentId : string) (startDate : Z)
    (startTime timezone : string) : option Timer.t :=
  let zone :=
    if negb (String.eqb timezone "") && negb (String.eqb timezone "UTC")
    then timezone else "UTC" in
  match Env.fromISO env startDate startTime zone with
  | None => None
  | Some tournamentStart =>
      let reminderTime := tournamentStart - 5 * 60 * 1000 in
      let delay := reminderTime - Env.now env in
      if 0 <? delay
      then Some (Timer.make tournamentId (Env.now env + timeoutDelay delay))
      else None
  end.

(** The callback of the timer (lines 1238-1247). *)
Definition reminderCallback (tournamentId : string) : action unit :=
  tryCatch
    (notifyTournamentStartingInFiveMinutes env tournamentId ;; ret tt)
    (fun _ => ret tt).

End Reminders.

(** ** createTournament (lines 21-474) *)

Module CreateRequest.
Record t : Type := make {
  title : string;
  category : string;
  rules : string;
  startDate : string;
  startTime : string;
  timezone : string;
  duration : JsValue;
  prizeType : string;
  prizes : JsValue;
  entryFee : JsValue;
  fundingMethod : string;
  tournamentLink : string;
  password : string;
  (** whether [req.file] is set *)
  file : bool;
  (** [req.user.id] *)
  userId : string
}.
End CreateRequest.

(** [/^\d{1,2}:\d{2}(\s?(AM|PM))?$/i.test(s)] *)
Definition timePatternTest (s : string) : bool :=
  let '(_, hours, afterHours) := Str.readDigits s 0 0 in
  ((hours =? 1) || (hours =? 2))%nat &&
  match afterHours with
  | String ":" afterColon =>
      let '(_, minutes, suffix) := Str.readDigits afterColon 0 0 in
      (minutes =? 2)%nat &&
      (String.eqb suffix "" ||
       let meridiem :=
         match suffix with
         | String c rest => if Str.isSpace c then rest else suffix
         | EmptyString => suffix
         end in
       String.eqb (Str.toLowerCase meridiem) "am"
       || String.eqb (Str.toLowerCase meridiem) "pm")
  | _ => false
  end.

Definition missingRequiredField (req : CreateRequest.t) : bool :=
  existsb (String.eqb "")
    [CreateRequest.title req; CreateRequest.category req; CreateRequest.rules req;
     CreateRequest.startDate req; CreateRequest.startTime req;
     CreateRequest.prizeType req; CreateRequest.fundingMethod req;
     CreateRequest.tournamentLink req]
  || negb (Js.truthy (CreateRequest.duration req)).

(** What one step of the handler decides: answer now, or go on. *)
Definition step (A : Type) : Type := Response.t + A.

Definition bad (code : Z) (message : string) {A : Type} : step A :=
  inl (Response.make code (Message message)).

Section CreateTournament.

Variable env : Env.t.

(** The checks of lines 44-181, up to the banner: the duration in
    milliseconds, the start date and the URL of the banner. *)
Definition validateRequest (req : CreateRequest.t) : step (number * Z * string) :=
  if missingRequiredField req then bad 400 "Missing required fields"
  else if negb (Env.urlPatternTest env (CreateRequest.tournamentLink req)) then
    bad 400 "Please provide a valid tournament link URL"
  else if negb (timePatternTest (CreateRequest.startTime req)) then
    bad 400 "Invalid time format. Expected HH:MM or HH:MM AM/PM format"
  else
    let userTimezone :=
      if String.eqb (CreateRequest.timezone req) "" then "UTC"
      else CreateRequest.timezone req in
    match Env.zoneError env userTimezone with
    | Some _ => bad 400 "Invalid timezone provided"
    | None =>
        let durationInMinutes := Js.parseFloat (CreateRequest.duration req) in
        if Num.isNaN durationInMinutes then
          bad 400 "Invalid duration. Duration must be a valid number in minutes."
        else if Num.ltb durationInMinutes (Num.of_Z 5) then
          bad 400 "Tournament duration must be at least 5 minutes."
        else
          let durationInMs :=
            Num.mul (Num.mul durationInMinutes (Num.of_Z 60)) (Num.of_Z 1000) in
          match Env.parseDate env (CreateRequest.startDate req) with
          | None => bad 400 "Invalid start date format"
          | Some startDate =>
              if CreateRequest.file req then
                match Env.uploadBanner env with
                | inr bannerUrl => inr (durationInMs, startDate, bannerUrl)
                | inl error =>
                    inl (Response.make 500
                           (Failure "Error uploading tournament banner" error))
                end
              else bad 400 "Please upload a tournament banner"
          end
    end.

(** The funding of lines 363-396, for the [wallet] method: the total prize
    pool is taken from the balance of the organizer, and saved. *)
Definition fundFromWallet (userId : string) (totalPrizePool : number) (db : Db.t)
  : step Db.t :=
  match Db.users db !! userId with
  | None => bad 404 "User not found"
  | Some user =>
      if Num.ltb (User.walletBalance user) totalPrizePool then
        bad 400
          "Insufficient wallet balance. Please top up or select another payment method"
      else
        inr (Db.set_users
               (<[userId := User.set_walletBalance
                              (Num.sub (User.walletBalance user) totalPrizePool) user]>
                  (Db.users db))
               db)
  end.

Definition fundingTransaction (db : Db.t) (req : CreateRequest.t) (tournamentId : string)
    (totalPrizePool : number) : Transaction.t :=
  Transaction.make (CreateRequest.userId req) tournamentId "tournament_funding"
    totalPrizePool "completed" "wallet"
    ("FUND-" +:+ Env.uuid env (length (Db.transactions db))) None.

(** Lines 398-466: the tournament is created, the funding is recorded,
    the organizer's list is extended and the reminder is scheduled; an
    error of [Tournament.create] is answered with a 500. *)
Definition persistTournament (req : CreateRequest.t) (input : TournamentInput.t)
    (totalPrizePool : number) (db : Db.t) : Response.t * Db.t * option Timer.t :=
  match Env.tournamentCreate env input with
  | inl error => (Response.make 500 (Failure "Error creating tournament" error), db, None)
  | inr (tournamentId, tournament) =>
      let db1 := Db.set_tournaments (<[tournamentId := tournament]> (Db.tournaments db)) db in
      let db2 :=
        if String.eqb (CreateRequest.fundingMethod req) "wallet"
           && negb (Env.fundingRecordRejected env)
        then Db.add_transaction (fundingTransaction db1 req tournamentId totalPrizePool) db1
        else db1 in
      let db3 :=
        Db.set_users
          (alter (User.push_createdTournament tournamentId) (CreateRequest.userId req)
                 (Db.users db2))
          db2 in
      (Response.make 201 (Created tournamentId), db3,
       scheduleTournamentReminder env tournamentId (Tournament.startDate tournament)
         (Tournament.startTime tournament) (Tournament.timezone tournament))
  end.

Definition createTournament (req : CreateRequest.t) (db : Db.t)
  : Response.t * Db.t * option Timer.t :=
  let unexpected error :=
    (Response.make 500 (Failure "An unexpected error occurred" error), db, None) in
  let parsedEntryFee := Js.parseFloatOrZero (CreateRequest.entryFee req) in
  match validateRequest req with
  | inl response => (response, db, None)
  | inr (durationInMs, startDate, bannerUrl) =>
      match normalizePrizes (CreateRequest.prizeType req) (CreateRequest.prizes req) with
      | inl error => unexpected error
      | inr normalizedPrizes =>
          match totalPrizePool (CreateRequest.prizeType req) normalizedPrizes with
          | inl error =>
              (Response.make 400 (Failure "Error calculating prize pool" error), db, None)
          | inr totalPrizePool =>
              if Num.gtb parsedEntryFee totalPrizePool then
                (Response.make 400
                   (Message "Entry fee cannot be higher than the total prize pool"),
                 db, None)
              else
                let input :=
                  TournamentInput.make (CreateRequest.title req)
                    (CreateRequest.category req) bannerUrl (CreateRequest.rules req)
                    startDate (CreateRequest.startTime req)
                    (if String.eqb (CreateRequest.timezone req) "" then "UTC"
                     else CreateRequest.timezone req)
                    durationInMs (CreateRequest.prizeType req) normalizedPrizes
                    parsedEntryFee (CreateRequest.fundingMethod req)
                    (CreateRequest.userId req) (CreateRequest.tournamentLink req)
                    (if String.eqb (CreateRequest.password req) "" then None
                     else Some (CreateRequest.password req)) in
                if String.eqb (CreateRequest.fundingMethod req) "wallet" then
                  match fundFromWallet (CreateRequest.userId req) totalPrizePool db with
                  | inl response => (response, db, None)
                  | inr funded => persistTournament req input totalPrizePool funded
                  end
                else if String.eqb (CreateRequest.fundingMethod req) "topup" then
                  (Response.make 200 (RedirectToTopup totalPrizePool), db, None)
                else persistTournament req input totalPrizePool db
          end
      end
  end.

End CreateTournament.

(** ** getDetailedTimeInfo: the time flags (lines 539-540 and 585-589) *)

Module TimeInfo.
Record t : Type := make {
  minutesUntilStart : number;
  minutesUntilEnd : number;
  isStartingSoon : bool;
  hasStarted : bool;
  hasEnded : bool;
  isActive : bool
}.
End TimeInfo.

(** [later.diff(earlier, "minutes").minutes] on two instants *)
Definition diffMinutes (later earlier : Z) : number :=
  Num.div (Num.of_Z (later - earlier)) (Num.of_Z 60000).

(** The flags, from the start and end instants the model computes. *)
Definition getDetailedTimeInfo (startDateTime endDateTime now : Z) : TimeInfo.t :=
  let minutesUntilStart := diffMinutes startDateTime now in
  let minutesUntilEnd := diffMinutes endDateTime now in
  TimeInfo.make minutesUntilStart minutesUntilEnd
    (Num.gtb minutesUntilStart Num.zero && Num.leb minutesUntilStart (Num.of_Z 5))
    (Num.leb minutesUntilStart Num.zero)
    (Num.leb minutesUntilEnd Num.zero)
    (Num.leb minutesUntilStart Num.zero && Num.gtb minutesUntilEnd Num.zero).

(** ** The status engine *)

(** Modelled from the spec: the status computation of the Tournament model
    (models/Tournament.js: the [currentStatus] virtual and
    [updateStatusBasedOnTime]) is missing from the sources.  Sections 4.2
    and 8: the status that holds at [now] is [upcoming] before the start,
    [active] from the start to the end, [completed] from the end on. *)
Definition statusAt (startInstant duration now : Z) : Status :=
  if now <? startInstant then upcoming
  else if now <? startInstant + duration then active
  else completed.

(** Modelled from the spec: [computeStatus], missing with the Tournament
    model.  Sections 4.2, 6 and 8: pure in (persisted status, start instant,
    duration, now, override flag), it returns the new status and whether it
    changed, and returns [(currentStatus, false)] under a manual override. *)
Definition computeStatus (currentStatus : Status) (startInstant duration now : Z)
    (manualStatusOverride : bool) : Status * bool :=
  if manualStatusOverride then (currentStatus, false)
  else
    let newStatus := statusAt startInstant duration now in
    (newStatus, negb (bool_decide (newStatus = currentStatus))).

(** Modelled from the spec: [tournament.updateStatusBasedOnTime()], missing
    with the Tournament model: it applies [computeStatus] to the document
    and reports whether the status changed.  [getStartDateTime] is the
    clock resolver of section 4.1. *)
Definition specUpdateStatus (getStartDateTime : Tournament.t -> Z) (now : Z)
    (tournament : Tournament.t) : Tournament.t * bool :=
  let '(newStatus, changed) :=
    computeStatus (Tournament.status tournament) (getStartDateTime tournament)
      (Tournament.duration tournament) now
      (Tournament.manualStatusOverride tournament) in
  (Tournament.set_status newStatus tournament, changed).

(** Modelled from the spec: [tournament.isStartingWithinMinutes(minutes)],
    missing with the Tournament model.  Section 2: whether the tournament
    starts within the given number of minutes. *)
Definition specIsStartingWithinMinutes (getStartDateTime : Tournament.t -> Z)
    (tournament : Tournament.t) (minutes now : Z) : bool :=
  (now <? getStartDateTime tournament)
  && (getStartDateTime tournament - now <=? minutes * 60000).

Section Reconciliation.

(** The two methods of the Tournament model that the controller calls; the
    clock they read is passed to them. *)
Variable updateStatusBasedOnTime : Z -> Tournament.t -> Tournament.t * bool.
Variable isStartingWithinMinutes : Tournament.t -> Z -> Z -> bool.
Variable env : Env.t.

(** [const wasUpdated = tournament.updateStatusBasedOnTime();
    if (wasUpdated) await tournament.save()] *)
Definition updateAndSave (now : Z) (tournamentId : string) (tournament : Tournament.t)
    (db : Db.t) : Db.t * bool :=
  let '(updated, wasUpdated) := updateStatusBasedOnTime now tournament in
  if wasUpdated
  then (Db.set_tournaments (<[tournamentId := updated]> (Db.tournaments db)) db, true)
  else (db, false).

(** The refresh on read of [getTournament] (lines 615-637). *)
Definition refreshStatusOnRead (now : Z) (tournamentId : string) (db : Db.t) : Db.t :=
  match Db.tournaments db !! tournamentId with
  | None => db
  | Some tournament => fst (updateAndSave now tournamentId tournament db)
  end.

(** [Tournament.find({ status: { $in: ["upcoming", "active"] },
    manualStatusOverride: { $ne: true } })] *)
Definition needsStatusCheck (tournament : Tournament.t) : bool :=
  match Tournament.status tournament with
  | upcoming | active => negb (Tournament.manualStatusOverride tournament)
  | _ => false
  end.

Definition tournamentsToCheck (db : Db.t) : list (string * Tournament.t) :=
  map_to_list (filter (fun entry => needsStatusCheck entry.2 = true) (Db.tournaments db)).

(** [updateAllTournamentStatuses] (lines 810-834), and the loop of the
    status job (lines 1320-1403): the database and [updatedCount]. *)
Definition updateAllTournamentStatuses (now : Z) (db : Db.t) : Db.t * nat :=
  fold_left
    (fun '(db, updatedCount) '(tournamentId, tournament) =>
       let '(db', wasUpdated) := updateAndSave now tournamentId tournament db in
       (db', if wasUpdated then S updatedCount else updatedCount))
    (tournamentsToCheck db) (db, 0%nat).

(** [Tournament.find({ status: "upcoming", fiveMinuteReminderSent: false })] *)
Definition awaitsReminder (tournament : Tournament.t) : bool :=
  bool_decide (Tournament.status tournament = upcoming)
  && negb (Tournament.fiveMinuteReminderSent tournament).

Definition upcomingTournaments (db : Db.t) : list (string * Tournament.t) :=
  map_to_list (filter (fun entry => awaitsReminder entry.2 = true) (Db.tournaments db)).

(** [Tournament.findByIdAndUpdate(id, { $set: { fiveMinuteReminderSent: true } })] *)
Definition markReminderSent (tournamentId : string) : action unit :=
  modify (fun db =>
    Db.set_tournaments
      (alter (Tournament.set_fiveMinuteReminderSent true) tournamentId
             (Db.tournaments db))
      db).

(** The body of the loop of the reminder job (lines 1286-1312). *)
Definition remindIfStarting (now : Z) (entry : string * Tournament.t) : action unit :=
  tryCatch
    (if isStartingWithinMinutes entry.2 5 now then
       notifyTournamentStartingInFiveMinutes env entry.1 ;;
       markReminderSent entry.1
     else ret tt)
    (fun _ => ret tt).

(** The reminder job, run every minute (lines 1267-1316). *)
Definition reminderJob (now : Z) : action unit :=
  tryCatch
    (do! db := get_db in forEach (remindIfStarting now) (upcomingTournaments db))
    (fun _ => ret tt).

End Reconciliation.

(** ** Example data *)

Module Example.

(** Luxon on the zone UTC and a time of day [HH:MM], the date being the
    instant of its midnight; other zones are left out. *)
Definition utcFromISO (startDate : Z) (startTime zone : string) : option Z :=
  let '(hours, nh, afterHours) := Str.readDigits startTime 0 0 in
  match afterHours with
  | String ":" afterColon =>
      let '(minutes, nm, rest) := Str.readDigits afterColon 0 0 in
      if (nh =? 2)%nat && (nm =? 2)%nat && String.eqb rest ""
         && String.eqb zone "UTC" && (hours <? 24) && (minutes <? 60)
      then Some (startDate + (hours * 60 + minutes) * 60000)
      else None
  | _ => None
  end.

(** A schema for the example: a known prize type, a finite duration, and
    the categories of special prizes as strings. *)
Definition castCategory (c : JsValue) : string :=
  match c with JsString s => s | _ => "" end.

Definition castSpecial (s : Special.t JsValue) : Special.t string :=
  Special.make (Special.isFixed s) (Special.basePrizePool s)
    (map (fun sp => SpecialPrize.make (castCategory (SpecialPrize.category sp))
                      (SpecialPrize.amount sp) (SpecialPrize.isPercentage sp))
         (Special.specialPrizes s)).

Definition castPrizes (p : Prizes.t JsValue) : Prizes.t string :=
  Prizes.make (Prizes.fixed p) (Prizes.percentage p)
    (option_map castSpecial (Prizes.special p)).

Definition acceptTournament (tournamentId : string) (input : TournamentInput.t)
  : result (string * Tournament.t) :=
  let prizeType :=
    if String.eqb (TournamentInput.prizeType input) "fixed" then Some fixed
    else if String.eqb (TournamentInput.prizeType input) "percentage" then Some percentage
    else if String.eqb (TournamentInput.prizeType input) "special" then Some special
    else None in
  match prizeType, TournamentInput.duration input with
  | Some prizeType, Fin duration =>
      inr (tournamentId,
           Tournament.make (TournamentInput.title input) (TournamentInput.organizer input)
             (TournamentInput.startDate input) (TournamentInput.startTime input)
             (TournamentInput.timezone input) (Qfloor duration) upcoming false false
             prizeType (castPrizes (TournamentInput.prizes input))
             (TournamentInput.entryFee input) (TournamentInput.fundingMethod input)
             [] [] Metadata.empty)
  | _, _ => inl "Tournament validation failed"
  end.

(** 2024-01-01T00:00:00Z *)
Definition newYear : Z := 1704067200000.

(** An environment in which every service works. *)
Definition env (now : Z) : Env.t :=
  Env.make now (fun n => pretty n) (fun _ _ => false) (fun _ => true) (fun _ => true)
    (fun _ => true) (fun _ => None) (fun _ => Some newYear)
    (inr "https://res.cloudinary.com/banner.png") (acceptTournament "t2") false
    utcFromISO.

(** The same, except that [Tournament.create] rejects the document. *)
Definition rejectingEnv (now : Z) : Env.t :=
  Env.make now (fun n => pretty n) (fun _ _ => false) (fun _ => true) (fun _ => true)
    (fun _ => true) (fun _ => None) (fun _ => Some newYear)
    (inr "https://res.cloudinary.com/banner.png")
    (fun _ => inl "Tournament validation failed: category is not a valid enum value")
    false utcFromISO.

(** The same as [env], except that no notification can be stored or sent. *)
Definition silentEnv (now : Z) : Env.t :=
  Env.make now (fun n => pretty n) (fun _ _ => true) (fun _ => false) (fun _ => false)
    (fun _ => true) (fun _ => None) (fun _ => Some newYear)
    (inr "https://res.cloudinary.com/banner.png") (acceptTournament "t2") false
    utcFromISO.

Definition organizer : User.t := User.make "Olga Organizer" (Fin 5000) ["t1"].
Definition alice : User.t := User.make "Alice" (Fin 0) [].
Definition bob : User.t := User.make "Bob" (Fin 70) [].

Definition fixedPrizes (amounts : list number) : Prizes.t string :=
  Prizes.make (Some (Fixed.make amounts [])) None None.

(** A tournament of [org] that starts on 2024-01-01 at 12:00 UTC and lasts
    an hour, with a fixed schedule and two participants. *)
Definition tournament (status : Status) (amounts : list number) : Tournament.t :=
  Tournament.make "Winter Open" "org" newYear "12:00" "UTC" 3600000 status false false
    fixed (fixedPrizes amounts) (Fin 100) "wallet" ["alice"; "bob"] [] Metadata.empty.

Definition db (status : Status) (amounts : list number) : Db.t :=
  Db.make {[ "org" := organizer; "alice" := alice; "bob" := bob ]}
          {[ "t1" := tournament status amounts ]} [] [].

Definition balanceOf (userId : string) (db : Db.t) : option number :=
  User.walletBalance <$> Db.users db !! userId.

(** A request that funds a fixed schedule of 1000 and 500 from the wallet. *)
Definition createRequest : CreateRequest.t :=
  CreateRequest.make "Spring Open" "blitz" "Swiss, 7 rounds" "2024-01-01" "12:00" "UTC"
    (JsString "60") "fixed"
    (JsObject {[ "fixed" := JsObject {[ "amounts" :=
        JsArray [JsNumber (Fin 1000); JsNumber (Fin 500)] ]} ]})
    (JsString "100") "wallet" "https://lichess.org/tournament/abc" "" true "org".

(** The start instant of a tournament, by the clock of the example. *)
Definition getStartDateTime (t : Tournament.t) : Z :=
  default 0 (utcFromISO (Tournament.startDate t) (Tournament.startTime t)
               (Tournament.timezone t)).

(** 2024-01-01T12:00:00Z, the start of the example tournament. *)
Definition noon : Z := newYear + 12 * 3600000.

Definition sixAmounts : list number :=
  [Fin 600; Fin 500; Fin 400; Fin 300; Fin 200; Fin 100].

Definition sixResults : list Result.t :=
  [Result.make "alice" 1 (Fin 6); Result.make "bob" 2 (Fin 5);
   Result.make "carol" 3 (Fin 4); Result.make "dave" 4 (Fin 3);
   Result.make "erin" 5 (Fin 2); Result.make "frank" 6 (Fin 1)].

(** Legacy keys, as section 8 of the specification gives them. *)
Definition legacyFirstOnly : JsValue :=
  JsObject {[ "1st" := JsNumber (Fin 1000) ]}.

Definition legacyMixed : JsValue :=
  JsObject {[ "1st" := JsString "1000"; "3rd" := JsString "n/a"; "4th" := JsNull ]}.

Definition legacyNegative : JsValue :=
  JsObject {[ "1st" := JsNumber (Fin (-100)) ]}.

(** The example tournament, still marked upcoming, under a manual override. *)
Definition frozen : Tournament.t :=
  Tournament.make "Winter Open" "org" newYear "12:00" "UTC" 3600000 upcoming true false
    fixed (fixedPrizes [Fin 1000]) (Fin 100) "wallet" ["alice"; "bob"] [] Metadata.empty.

Definition frozenDb : Db.t :=
  Db.make {[ "org" := organizer; "alice" := alice; "bob" := bob ]}
          {[ "t1" := frozen ]} [] [].

(** A distribution request: the first prize to alice. *)
Definition firstToAlice : option (list PrizeEntry.t) :=
  Some [PrizeEntry.make "alice" "1st" None].

(** The first prize to bob, with a custom amount of one million. *)
Definition millionToBob : PrizeEntry.t :=
  PrizeEntry.make "bob" "1st" (Some (Fin 1000000)).

End Example.

(** ** Definitions used to state the properties *)

(** The part of the database that a session protects: balances and the
    other fields of users, tournaments with their distribution flag, and
    the ledger. *)
Definition ledger (db : Db.t)
  : gmap string User.t * gmap string Tournament.t * list Transaction.t :=
  (Db.users db, Db.tournaments db, Db.transactions db).



Definition walletOf (userId : string) (db : Db.t) : option number :=
  User.walletBalance <$> Db.users db !! userId.

Definition addBalance (amount : number) (u : User.t) : User.t :=
  User.set_walletBalance (Num.add (User.walletBalance u) amount) u.

(** The users once every line has been credited, in order. *)
Definition creditUsers (users : gmap string User.t) (lines : list CalculatedPrize.t)
  : gmap string User.t :=
  fold_left
    (fun m line =>
       alter (addBalance (CalculatedPrize.amount line)) (CalculatedPrize.userId line) m)
    lines users.

(** The users once result submission has paid every line, in order. *)
Definition payUsers (users : gmap string User.t) (lines : list Payout.t)
  : gmap string User.t :=
  fold_left
    (fun m line =>
       if Num.gtb (Payout.amount line) Num.zero
       then alter (addBalance (Payout.amount line)) (Payout.userId line) m
       else m)
    lines users.

(** The amounts of the lines of one user, in order. *)
Definition creditsFor (userId : string) (lines : list CalculatedPrize.t) : list number :=
  map CalculatedPrize.amount
    (List.filter (fun line => String.eqb (CalculatedPrize.userId line) userId) lines).

(** The line that the calculation derives from an entry of the request. *)
Definition lineOf (tournament : Tournament.t) (entry : PrizeEntry.t)
    (line : CalculatedPrize.t) : Prop :=
  CalculatedPrize.userId line = PrizeEntry.userId entry
  /\ CalculatedPrize.position line = PrizeEntry.position entry
  /\ prizeAmount tournament entry = inr (CalculatedPrize.amount line)
  /\ Num.leb (CalculatedPrize.amount line) Num.zero = false.

(** The answer of the replay guard. *)
Definition alreadyDistributed : Response.t :=
  Response.make 400 (Message "Prizes have already been distributed for this tournament").


(** The legacy keys that are present in [prizes.fixed], in rank order. *)
Definition presentLabels (fixed : JsValue) : list string :=
  List.filter (fun lbl => Js.isDefined (Js.field fixed lbl)) labels.

(** [prizes.fixed] carries no [amounts] array: the legacy keys are read. *)
Definition hasNoAmountsArray (fixed : JsValue) : Prop :=
  match Js.field fixed "amounts" with JsArray _ => False | _ => True end.

(** scripts/migrateFixedPrizes.js, for comparison: the amounts that the
    migration of a stored legacy document builds,
    [labels.map(lbl => typeof fixed[lbl] !== "undefined"
                       ? parseFloat(fixed[lbl]) || 0 : 0)]. *)
Definition migratedAmounts (fixed : JsValue) : list number :=
  map (fun lbl =>
         if Js.isDefined (Js.field fixed lbl)
         then Js.parseFloatOrZero (Js.field fixed lbl)
         else Num.zero)
      labels.

(** The normalization of legacy keys as the specification words it: the
    ranks present, in rank order, each a non-negative number. *)
Definition legacyAmountsAsSpecified (fixed : JsValue) : Prop :=
  length (normalizeFixedAmounts fixed) = length (presentLabels fixed)
  /\ Forall (fun amount => Num.leb Num.zero amount = true) (normalizeFixedAmounts fixed).

(** The standard lines of a fixed schedule as the specification words
    them: one line for each of the first min(len(results), len(amounts))
    ranks, of amount [amounts[rank - 1]], unless that amount is not
    positive. *)
Definition fixedStandardLinesSpec (amounts : list number) (sortedResults : list Result.t)
  : list Payout.t :=
  omap
    (fun i =>
       match sortedResults !! i, amounts !! i with
       | Some result, Some amount =>
           if Num.gtb amount Num.zero
           then Some (Payout.make (Result.userId result) (Z.of_nat i + 1) amount None)
           else None
       | _, _ => None
       end)
    (seq 0 (Nat.min (length sortedResults) (length amounts))).

(** The notifications of a type that a user has received about a
    tournament. *)
Definition received (userId type tournamentId : string) (db : Db.t) : nat :=
  length
    (List.filter
       (fun n => String.eqb (Notification.user n) userId
                 && String.eqb (Notification.type n) type
                 && String.eqb (Notification.relatedId n) tournamentId)
       (Db.notifications db)).

(** ** registerForTournament (lines 839-939) *)

(** The fields of a user document that registration reads and writes and
    that [User.t] does not carry, kept beside the database under the same
    identifier. *)
Module Account.
Record t : Type := make {
  lichessUsername : string;
  registeredTournaments : list string
}.
Definition empty : t := make "" [].
End Account.

Module Site.
Record t : Type := make { db : Db.t; accounts : gmap string Account.t }.
End Site.

(** [tournament.participants.push(userId)] *)
Definition pushParticipant (userId : string) (x : Tournament.t) : Tournament.t :=
  Tournament.make (Tournament.title x) (Tournament.organizer x)
    (Tournament.startDate x) (Tournament.startTime x) (Tournament.timezone x)
    (Tournament.duration x) (Tournament.status x)
    (Tournament.manualStatusOverride x) (Tournament.fiveMinuteReminderSent x)
    (Tournament.prizeType x) (Tournament.prizes x) (Tournament.entryFee x)
    (Tournament.fundingMethod x) (Tournament.participants x ++ [userId])%list
    (Tournament.results x) (Tournament.metadata x).

(** The outcome of the four writes of one registration, in the order of the
    handler: the error with which the write rejects, or [None] when the
    document is stored.  None of them is inside a [try] or a session. *)
Module Saves.
Record t : Type := make {
  (** [user.save()] after the fee is deducted (line 890) *)
  debit : option string;
  (** [Transaction.create] (lines 893-901) *)
  entry : option string;
  (** [tournament.save()] (line 906) *)
  participant : option string;
  (** [user.save()] after the tournament is pushed (line 910) *)
  registered : option string
}.
Definition accepted : t := make None None None None.
End Saves.

(** A write that is stored, or rejects and leaves the database as it is. *)
Definition save (outcome : option string) (write : Db.t -> Db.t) : action unit :=
  match outcome with
  | Some error => throw error
  | None => modify write
  end.

Section Registration.

Variable env : Env.t.
Variable saves : Saves.t.

(** [exports.notifyTournamentRegistration] (notificationController.js,
    lines 947-968) *)
Definition notifyTournamentRegistration (userId tournamentId : string)
  : action (option Notification.t) :=
  tryCatch
    (createNotification env userId "tournament_registration" tournamentId)
    (fun _ => ret None).

Definition entryTransaction (db : Db.t) (userId tournamentId : string) (fee : number)
  : Transaction.t :=
  Transaction.make userId tournamentId "tournament_entry" fee "completed" "wallet"
    ("ENTRY-" +:+ Env.uuid env (length (Db.transactions db))) None.

(** The payment of the entry fee (lines 863-902): nothing when the fee is
    not positive; otherwise the balance and the confirmation are checked,
    the fee is taken from the wallet and saved, and then the entry is
    recorded.  The answer is a refusal, or [tt] to go on. *)
Definition payEntryFee (userId tournamentId : string) (user : User.t)
    (fee : number) (confirmed : bool) : action (step unit) :=
  if Num.gtb fee Num.zero then
    if Num.ltb (User.walletBalance user) fee then
      ret (bad 400 "Insufficient wallet balance. Please top up to register")
    else if negb confirmed then ret (bad 400 "Please confirm registration to proceed")
    else
      save (Saves.debit saves)
        (fun db =>
           Db.set_users
             (<[userId := User.set_walletBalance
                            (Num.sub (User.walletBalance user) fee) user]>
                (Db.users db))
             db) ;;
      do! db := get_db in
      save (Saves.entry saves)
        (Db.add_transaction (entryTransaction db userId tournamentId fee)) ;;
      ret (inr tt)
  else ret (inr tt).

(** [confirmed] is the truth value of [req.body.confirmed].  An error that
    the handler does not catch is the left injection; the writes made before
    it stay. *)
Definition registerForTournament (tournamentId reqUserId : string) (confirmed : bool)
    (site : Site.t) : result Response.t * Site.t :=
  let db := Site.db site in
  match Db.tournaments db !! tournamentId with
  | None => (inr (Response.make 404 (Message "Tournament not found")), site)
  | Some tournament =>
      if existsb (String.eqb reqUserId) (Tournament.participants tournament) then
        (inr (Response.make 400
                (Message "You are already registered for this tournament")), site)
      else
        match Db.users db !! reqUserId with
        | None => (inl (typeError "lichessUsername"), site)
        | Some user =>
            let account := default Account.empty (Site.accounts site !! reqUserId) in
            if String.eqb (Account.lichessUsername account) "" then
              (inr (Response.make 400
                      (Message "You need to link your Lichess account to register for tournaments")),
               site)
            else
              match payEntryFee reqUserId tournamentId user
                      (Tournament.entryFee tournament) confirmed db with
              | (inl error, stored) => (inl error, Site.make stored (Site.accounts site))
              | (inr (inl response), _) => (inr response, site)
              | (inr (inr _), paid) =>
                  match Saves.participant saves with
                  | Some error => (inl error, Site.make paid (Site.accounts site))
                  | None =>
                      let joined :=
                        Db.set_tournaments
                          (alter (pushParticipant reqUserId) tournamentId
                                 (Db.tournaments paid))
                          paid in
                      match Saves.registered saves with
                      | Some error => (inl error, Site.make joined (Site.accounts site))
                      | None =>
                          let accounts :=
                            <[reqUserId :=
                                Account.make (Account.lichessUsername account)
                                  (Account.registeredTournaments account
                                   ++ [tournamentId])%list]>
                              (Site.accounts site) in
                          let notified :=
                            (tryCatch
                               (notifyTournamentRegistration reqUserId tournamentId ;;
                                ret tt)
                               (fun _ => ret tt) joined).2 in
                          (inr (Response.make 200
                                  (Message "Successfully registered for tournament")),
                           Site.make notified accounts)
                      end
                  end
              end
        end
  end.

End Registration.

(** ** updateTournamentStatus (lines 944-968) *)

(** [status] is the status of the request body, a value of the schema. *)
Definition updateTournamentStatus (tournamentId reqUserId : string) (status : Status)
  : handler :=
  fun db =>
    match Db.tournaments db !! tournamentId with
    | None => (Response.make 404 (Message "Tournament not found"), db)
    | Some tournament =>
        if negb (String.eqb (Tournament.organizer tournament) reqUserId) then
          (Response.make 403
             (Message "You are not authorized to update this tournament"), db)
        else
          (Response.make 200 (Message "Tournament status updated successfully"),
           Db.set_tournaments
             (<[tournamentId := Tournament.set_status status tournament]>
                (Db.tournaments db))
             db)
    end.

(** ** scripts/migrateFixedPrizes.js *)

(** [labels.some(lbl => typeof fixed[lbl] !== "undefined")] *)
Definition legacyKeysExist (fixed : JsValue) : bool :=
  existsb (fun lbl => Js.isDefined (Js.field fixed lbl)) labels.

(** What the script does to the [prizes.fixed] object of one document: the
    object once the update is applied, or [None] when the document is
    skipped (already migrated, or without any legacy key).  The update sets
    [amounts] and unsets the legacy keys; [unsetApplies] tells whether the
    schema of the model, which is not among the sources, lets the [$unset]
    of the legacy paths through. *)
Definition migrateFixed (unsetApplies : bool) (fixed : gmap string JsValue)
  : option (gmap string JsValue) :=
  match fixed !! "amounts" with
  | Some (JsArray _) => None
  | _ =>
      if legacyKeysExist (JsObject fixed) then
        Some (<["amounts" := JsArray (map JsNumber (migratedAmounts (JsObject fixed)))]>
                (if unsetApplies then foldr delete fixed labels else fixed))
      else None
  end.

(** ** walletController.js: withdrawals and deposit verification *)

(** The services that the wallet controller calls: the PIN check of
    utils/pinVerification and Paystack. *)
Module Bank.
Record t : Type := make {
  (** [verifyUserPin(userId, pin)]: the message when the PIN is refused *)
  pinRefusal : string -> string -> option string;
  (** ['CHESS_WD_' + crypto.randomBytes(8).toString('hex')] for the n-th
      entry of the ledger *)
  withdrawalReference : nat -> string;
  (** the two requests of a withdrawal, for a reference and an amount:
      whether Paystack asks for an OTP, or the error of either request *)
  transfer : string -> number -> result bool;
  (** [GET /transaction/verify/:reference]: the status and the amount in
      kobo, or the error *)
  verify : string -> result (string * number)
}.
End Bank.

(** The body of a withdrawal request, for an authenticated user.  [amount]
    is a number; [detailsGiven] tells whether the account number, the bank
    code, the bank name and the account name are all truthy. *)
Module Withdrawal.
Record t : Type := make {
  userId : string;
  amount : number;
  pin : string;
  detailsGiven : bool
}.
End Withdrawal.

Definition set_transactionStatus (status : string) (x : Transaction.t) : Transaction.t :=
  Transaction.make (Transaction.user x) (Transaction.tournament x) (Transaction.type x)
    (Transaction.amount x) status (Transaction.paymentMethod x)
    (Transaction.reference x) (Transaction.position x).

(** [document.field = value; await document.save()] on the first document
    that a [findOne] matches. *)
Fixpoint updateFirst {A : Type} (p : A -> bool) (f : A -> A) (l : list A) : list A :=
  match l with
  | [] => []
  | x :: rest => if p x then f x :: rest else x :: updateFirst p f rest
  end.

Definition updateTransaction (p : Transaction.t -> bool) (f : Transaction.t -> Transaction.t)
    (db : Db.t) : Db.t :=
  Db.make (Db.users db) (Db.tournaments db) (updateFirst p f (Db.transactions db))
    (Db.notifications db).

(** [user.walletBalance += amount; await user.save()] *)
Definition creditWallet (userId : string) (user : User.t) (amount : number) (db : Db.t)
  : Db.t :=
  Db.set_users
    (<[userId := User.set_walletBalance (Num.add (User.walletBalance user) amount) user]>
       (Db.users db))
    db.

Section Wallet.

Variable env : Env.t.
Variable bank : Bank.t.

(** [exports.notifyWithdrawalSuccess] (notificationController.js, lines
    1267-1288); the notification is related to the transaction, which its
    reference stands for. *)
Definition notifyWithdrawalSuccess (userId reference : string)
  : action (option Notification.t) :=
  tryCatch
    (createNotification env userId "transaction_success" reference)
    (fun _ => ret None).

(** [notificationController.notifyWithdrawalFailure] is not a function:
    the controller exports no such name, the call throws, and the handler
    catches it. *)
Definition notifyWithdrawalFailure (userId reference : string)
  : action (option Notification.t) :=
  throw "notificationController.notifyWithdrawalFailure is not a function".

(** The entry of a withdrawal as it is stored when the handler answers:
    [Transaction.create] with the status pending, then
    [transaction.status = status; await transaction.save()]. *)
Definition withdrawalTransaction (req : Withdrawal.t) (reference status : string)
  : Transaction.t :=
  Transaction.make (Withdrawal.userId req) "" "withdrawal" (Withdrawal.amount req) status
    "bank_transfer" reference None.

(** [exports.initiateWithdrawal] (lines 904-1128) *)
Definition initiateWithdrawal (req : Withdrawal.t) : handler :=
  fun db =>
    let userId := Withdrawal.userId req in
    let amount := Withdrawal.amount req in
    if negb (Num.truthy amount) || negb (Withdrawal.detailsGiven req) then
      (Response.make 400
         (Message "All fields are required: amount, account number, bank code, bank name, and account name"),
       db)
    else if Num.isNaN amount || Num.leb amount Num.zero then
      (Response.make 400 (Message "Please provide a valid amount"), db)
    else if Num.ltb amount Num.hundred then
      (Response.make 400 (Message "Minimum withdrawal amount is ₦100"), db)
    else
      match Bank.pinRefusal bank userId (Withdrawal.pin req) with
      | Some message => (Response.make 401 (Message message), db)
      | None =>
          match Db.users db !! userId with
          | None => (Response.make 404 (Message "User not found"), db)
          | Some user =>
              if Num.ltb (User.walletBalance user) amount then
                (Response.make 400 (Message "Insufficient wallet balance"), db)
              else
                let reference :=
                  Bank.withdrawalReference bank (length (Db.transactions db)) in
                let record status :=
                  Db.add_transaction (withdrawalTransaction req reference status) in
                let debited :=
                  User.set_walletBalance (Num.sub (User.walletBalance user) amount) user in
                let taken := Db.set_users (<[userId := debited]> (Db.users db)) db in
                match Bank.transfer bank reference amount with
                | inr true =>
                    (Response.make 200
                       (Message "Transfer initiated. Please check your email/SMS for OTP verification."),
                     record "pending" taken)
                | inr false =>
                    (Response.make 200
                       (Message "Withdrawal successful! Money has been sent to your bank account."),
                     (tryCatch (notifyWithdrawalSuccess userId reference ;; ret tt)
                        (fun _ => ret tt) (record "completed" taken)).2)
                | inl _ =>
                    (Response.make 400
                       (Message "Withdrawal failed. Your wallet has been refunded."),
                     (tryCatch (notifyWithdrawalFailure userId reference ;; ret tt)
                        (fun _ => ret tt)
                        (record "failed" (creditWallet userId debited amount taken))).2)
                end
          end
      end.

(** [Transaction.findOne({ reference, type: 'withdrawal' })] *)
Definition isWithdrawal (reference : string) (x : Transaction.t) : bool :=
  String.eqb (Transaction.reference x) reference
  && String.eqb (Transaction.type x) "withdrawal".

(** [handleTransferSuccess] (lines 762-780), on the reference of the event *)
Definition handleTransferSuccess (reference : string) (db : Db.t) : Db.t :=
  match find (isWithdrawal reference) (Db.transactions db) with
  | None => db
  | Some withdrawal =>
      if negb (String.eqb (Transaction.status withdrawal) "completed")
      then updateTransaction (isWithdrawal reference) (set_transactionStatus "completed") db
      else db
  end.

(** [handleTransferFailed] (lines 783-815) *)
Definition handleTransferFailed (reference : string) (db : Db.t) : Db.t :=
  match find (isWithdrawal reference) (Db.transactions db) with
  | None => db
  | Some withdrawal =>
      if negb (String.eqb (Transaction.status withdrawal) "failed") then
        let failed :=
          updateTransaction (isWithdrawal reference) (set_transactionStatus "failed") db in
        match Db.users failed !! Transaction.user withdrawal with
        | Some user =>
            creditWallet (Transaction.user withdrawal) user (Transaction.amount withdrawal)
              failed
        | None => failed
        end
      else db
  end.

(** [exports.verifyDeposit] (lines 842-900) *)
Definition verifyDeposit (reference : string) : handler :=
  fun db =>
    let hasReference x := String.eqb (Transaction.reference x) reference in
    match Bank.verify bank reference with
    | inl _ => (Response.make 500 (Message "Failed to verify payment"), db)
    | inr (status, amount) =>
        match find hasReference (Db.transactions db) with
        | None => (Response.make 404 (Message "Transaction not found"), db)
        | Some transaction =>
            if String.eqb status "success" then
              let completed :=
                updateTransaction hasReference (set_transactionStatus "completed") db in
              match Db.users completed !! Transaction.user transaction with
              | None => (Response.make 500 (Message "Failed to verify payment"), completed)
              | Some user =>
                  (Response.make 200 (Message "Deposit successful"),
                   creditWallet (Transaction.user transaction) user
                     (Num.div amount Num.hundred) completed)
              end
            else
              (Response.make 400 (Message "Payment verification failed"),
               updateTransaction hasReference (set_transactionStatus "failed") db)
        end
    end.

End Wallet.

(** ** More example data *)

Module Sample.

(** The example request, with an entry fee above the pool of 1500. *)
Definition expensiveRequest : CreateRequest.t :=
  CreateRequest.make "Spring Open" "blitz" "Swiss, 7 rounds" "2024-01-01" "12:00" "UTC"
    (JsString "60") "fixed"
    (JsObject {[ "fixed" := JsObject {[ "amounts" :=
        JsArray [JsNumber (Fin 1000); JsNumber (Fin 500)] ]} ]})
    (JsString "2000") "wallet" "https://lichess.org/tournament/abc" "" true "org".

(** A completed tournament with two special prizes: 100, and 10 percent of
    a base pool of 1000. *)
Definition specialTournament : Tournament.t :=
  Tournament.make "Brilliancy Cup" "org" Example.newYear "12:00" "UTC" 3600000 completed
    false false special
    (Prizes.make None None
       (Some (Special.make false (Fin 1000)
                [SpecialPrize.make "Best Game" (Fin 100) false;
                 SpecialPrize.make "Biggest Upset" (Fin 10) true])))
    (Fin 0) "wallet" ["alice"; "bob"] [] Metadata.empty.

(** Results given out of order: alice is first. *)
Definition twoResults : list Result.t :=
  [Result.make "bob" 2 (Fin 3); Result.make "alice" 1 (Fin 5)].

(** The lines of the calculator, none when it throws. *)
Definition linesOf (tournament : Tournament.t) (results : list Result.t) : list Payout.t :=
  match calculatePrizeDistribution tournament results with
  | inr lines => lines
  | inl _ => []
  end.

(** The example database once 1500 is taken from the organizer's wallet. *)
Definition funded : Db.t :=
  match fundFromWallet "org" (Fin 1500) (Example.db active []) with
  | inr funded => funded
  | inl _ => Example.db active []
  end.

(** A user with a linked Lichess account, and the example site. *)
Definition aliceAccount : Account.t := Account.make "alice_lichess" [].

Definition site (status : Status) : Site.t :=
  Site.make
    (Db.make {[ "org" := Example.organizer; "alice" := Example.alice;
                "bob" := Example.bob; "carol" := User.make "Carol" (Fin 250) [] ]}
             {[ "t1" := Example.tournament status [Fin 1000] ]} [] [])
    {[ "alice" := aliceAccount; "carol" := Account.make "carol_lichess" ["t0"] ]}.

(** The writes of a registration of which the ledger rejects the entry. *)
Definition entryRejected : Saves.t :=
  Saves.make None (Some "Transaction validation failed") None None.

(** A stored legacy schedule with a first and a third prize and an
    additional prize. *)
Definition legacyStored : gmap string JsValue :=
  {[ "1st" := JsNumber (Fin 1000); "3rd" := JsString "300";
     "additional" := JsArray [] ]}.

(** A PIN check that accepts 1234, references numbered by the ledger, a
    transfer that answers as given, and a verification that reports a
    successful payment of 2500.00. *)
Definition bank (transfer : result bool) : Bank.t :=
  Bank.make (fun _ pin => if String.eqb pin "1234" then None else Some "Invalid PIN")
    (fun n => "CHESS_WD_" +:+ pretty n) (fun _ _ => transfer)
    (fun _ => inr ("success", Fin 250000)).

(** The organizer of the example withdraws 2000. *)
Definition withdrawal : Withdrawal.t :=
  Withdrawal.make "org" (Num.of_Z 2000) "1234" true.

(** The example database with a pending deposit of alice. *)
Definition depositDb : Db.t :=
  Db.make {[ "org" := Example.organizer; "alice" := Example.alice; "bob" := Example.bob ]}
    {[ "t1" := Example.tournament upcoming [Fin 1000] ]}
    [Transaction.make "alice" "" "deposit" (Fin 2500) "pending" "paystack" "CHESS_1" None]
    [].

End Sample.

(** ** More definitions used to state the properties *)

(** What a ledger entry says: its type, user, tournament and amount. *)
Definition posting (x : Transaction.t) : string * string * string * number :=
  (Transaction.type x, Transaction.user x, Transaction.tournament x, Transaction.amount x).

(** The lines that result submission pays: those of an amount above zero. *)
Definition paidLines (lines : list Payout.t) : list Payout.t :=
  List.filter (fun line => Num.gtb (Payout.amount line) Num.zero) lines.

(** What a winner of the response says of a line. *)
Definition winnerLine (w : Winner.t) : CalculatedPrize.t :=
  CalculatedPrize.make (Winner.userId w) (Winner.position w) (Winner.amount w).

(** The zone in which [scheduleTournamentReminder] reads the start: that
    of the tournament, UTC when it is empty. *)
Definition reminderZone (timezone : string) : string :=
  if negb (String.eqb timezone "") && negb (String.eqb timezone "UTC")
  then timezone else "UTC".

(** What the reminder job does to a tournament it finds. *)
Definition afterReminderJob (isStartingWithinMinutes : Tournament.t -> Z -> Z -> bool)
    (now : Z) (t : Tournament.t) : Tournament.t :=
  if awaitsReminder t && isStartingWithinMinutes t 5 now
  then Tournament.set_fiveMinuteReminderSent true t
  else t.

(** What reconciliation does to a tournament it finds. *)
Definition afterReconciliation (update : Z -> Tournament.t -> Tournament.t * bool)
    (now : Z) (t : Tournament.t) : Tournament.t :=
  if needsStatusCheck t && (update now t).2 then (update now t).1 else t.

(** The times a user occurs in a list of identifiers. *)
Definition occurrences (userId : string) (ids : list string) : nat :=
  length (List.filter (String.eqb userId) ids).

(** * Properties *)

Example parseFloat_examples :
  Str.parseFloat "1000" = Fin 1000 /\ Str.parseFloat " -12.50e1x" = Fin (-125)
  /\ Str.parseFloat ".5" = Fin (1 # 2) /\ Str.parseFloat "abc" = NaN
  /\ Str.parseFloat "" = NaN /\ Str.parseFloat "-Infinity" = NegInf
  /\ Str.parseFloat "7e" = Fin 7 /\ Str.parseFloat "." = NaN.
Proof. repeat split; reflexivity. Qed.

Example parseInt_examples :
  Str.parseInt "6th" = Some 6 /\ Str.parseInt "0x1F" = Some 31
  /\ Str.parseInt "-3.9" = Some (-3) /\ Str.parseInt "x" = None
  /\ Str.parseInt10 (Str.digitsOnly "10th") = Some 10
  /\ Str.parseInt10 (Str.digitsOnly "first") = None.
Proof. repeat split; reflexivity. Qed.

Example parseIntNumber_examples :
  Js.parseIntNumber (Fin (7 # 2)) = Some 3
  /\ Js.parseIntNumber (Fin (-7 # 2)) = Some (-3)
  /\ Js.parseIntNumber (Fin (inject_Z (3 * 10 ^ 21))) = Some 3
  /\ Js.parseIntNumber (Fin (5 # 10000000)) = Some 5
  /\ Js.parseIntNumber NaN = None /\ Js.parseIntNumber PosInf = None.
Proof. repeat split; vm_compute; reflexivity. Qed.

Example normalize_amounts_array :
  let prizes := JsObject {[ "fixed" := JsObject {[ "amounts" :=
                   JsArray [JsNumber 1000; JsString "500"] ]} ]} in
  normalizePrizes "fixed" prizes
    = inr (Prizes.make (Some (Fixed.make [Fin 1000; Fin 500] [])) None None)
  /\ (try! p := normalizePrizes "fixed" prizes in totalPrizePool "fixed" p)
     = inr (Fin 1500).
Proof. split; vm_compute; reflexivity. Qed.

Example submit_then_balance :
  Example.balanceOf "alice"
    (submitTournamentResults (Example.env 0) "t1" "org"
       (Some [Result.make "alice" 1 (Fin 7)]) (Example.db active [Fin 1000])).2
  = Some (Fin 1000).
Proof. vm_compute. reflexivity. Qed.

(** ** Numbers *)

Lemma gtb_zero_positive c :
  Num.gtb c Num.zero = true -> Num.truthy c = true /\ Num.leb c Num.zero = false.
Proof.
  destruct c as [| | |q]; cbn; try done.
  intros H. apply negb_true_iff in H. split; [|exact H].
  apply negb_true_iff. destruct (Qeq_bool q 0) eqn:Heq; [|reflexivity].
  apply Qeq_bool_iff in Heq.
  assert (Qle_bool q 0 = true) as Hle by (apply Qle_bool_iff; rewrite Heq; apply Qle_refl).
  congruence.
Qed.

Lemma gtb_or_zero a : Num.gtb (Num.or_zero a) Num.zero = Num.gtb a Num.zero.
Proof.
  unfold Num.or_zero. destruct (Num.truthy a) eqn:Ht; [reflexivity|].
  destruct a as [| | |q]; try discriminate; try reflexivity.
  cbn in Ht. apply negb_false_iff, Qeq_bool_iff in Ht. cbn.
  symmetry. apply negb_false_iff, Qle_bool_iff. rewrite Ht. apply Qle_refl.
Qed.

Lemma or_zero_positive a : Num.gtb a Num.zero = true -> Num.or_zero a = a.
Proof.
  intros H. unfold Num.or_zero. by rewrite (proj1 (gtb_zero_positive a H)).
Qed.

Lemma or_zero_not_NaN a : Num.isNaN (Num.or_zero a) = false.
Proof.
  unfold Num.or_zero. destruct a as [| | |q]; try reflexivity.
  cbn. destruct (negb _); reflexivity.
Qed.

Lemma or_zero_falsy a : Num.truthy a = false -> Num.or_zero a = Num.zero.
Proof. intros H. unfold Num.or_zero. by rewrite H. Qed.

Lemma diffMinutes_le later earlier :
  Num.leb (diffMinutes later earlier) Num.zero = (later <=? earlier).
Proof.
  unfold diffMinutes, Num.div, Num.of_Z, Num.leb, Num.zero.
  change (Qeq_bool (inject_Z 60000) 0) with false. cbn iota.
  apply eq_true_iff_eq. rewrite Qle_bool_iff, Qred_correct, Z.leb_le.
  unfold Qle, Qdiv, Qmult, Qinv, inject_Z. cbn. lia.
Qed.

Lemma diffMinutes_gt later earlier :
  Num.gtb (diffMinutes later earlier) Num.zero = (earlier <? later).
Proof.
  unfold diffMinutes, Num.div, Num.of_Z, Num.gtb, Num.ltb, Num.zero.
  change (Qeq_bool (inject_Z 60000) 0) with false. cbn iota.
  apply eq_true_iff_eq. rewrite negb_true_iff, Z.ltb_lt.
  rewrite <- not_true_iff_false, Qle_bool_iff, Qred_correct.
  unfold Qle, Qdiv, Qmult, Qinv, inject_Z. cbn. lia.
Qed.

(** ** The prize schedule normalizer *)

(** The loop over the labels keeps the present keys, in rank order. *)
Lemma legacyAmounts_present fixed :
  legacyAmounts fixed
  = map (fun lbl => Js.parseFloatOrZero (Js.field fixed lbl)) (presentLabels fixed).
Proof.
  unfold legacyAmounts, presentLabels, labels. cbn [fold_left List.filter].
  repeat (destruct (Js.isDefined _); cbn [app map List.filter]); reflexivity.
Qed.

(** C7, as amended.  When [prizes.fixed] carries legacy per-rank keys and
    no [amounts] array, the normalized amounts are those of the ranks that
    are present, in rank order and without padding: as many amounts as
    present keys.  Each amount is [parseFloat(value) || 0]: it is never
    NaN, and it is 0 when the value does not parse as a number; a negative
    number is kept as it is. *)
Theorem legacy_amounts_follow_present_ranks fixed :
  hasNoAmountsArray fixed ->
  normalizeFixedAmounts fixed
    = map (fun lbl => Num.or_zero (Js.parseFloat (Js.field fixed lbl)))
          (presentLabels fixed)
  /\ length (normalizeFixedAmounts fixed) = length (presentLabels fixed)
  /\ Forall (fun amount => Num.isNaN amount = false) (normalizeFixedAmounts fixed)
  /\ Forall2
       (fun lbl amount =>
          Num.isNaN (Js.parseFloat (Js.field fixed lbl)) = true -> amount = Num.zero)
       (presentLabels fixed) (normalizeFixedAmounts fixed)
  /\ Forall2
       (fun lbl amount =>
          Num.truthy (Js.parseFloat (Js.field fixed lbl)) = true ->
          amount = Js.parseFloat (Js.field fixed lbl))
       (presentLabels fixed) (normalizeFixedAmounts fixed).
Proof.
  intros Hno.
  assert (normalizeFixedAmounts fixed
          = map (fun lbl => Js.parseFloatOrZero (Js.field fixed lbl))
                (presentLabels fixed)) as ->.
  { unfold normalizeFixedAmounts, hasNoAmountsArray in *.
    destruct (Js.field fixed "amounts"); try apply legacyAmounts_present.
    contradiction. }
  unfold Js.parseFloatOrZero. split; [reflexivity|].
  split; [apply length_map|]. split; [|split].
  - apply Forall_map, Forall_forall. intros lbl _. apply or_zero_not_NaN.
  - apply Forall2_fmap_r, Forall_Forall2_diag, Forall_forall.
    intros lbl _ Hnan. apply or_zero_falsy.
    destruct (Js.parseFloat (Js.field fixed lbl)); done.
  - apply Forall2_fmap_r, Forall_Forall2_diag, Forall_forall.
    intros lbl _ Htruthy. unfold Num.or_zero. by rewrite Htruthy.
Qed.

Lemma legacy_amounts_follow_present_ranks_witness :
  hasNoAmountsArray Example.legacyMixed
  /\ normalizeFixedAmounts Example.legacyMixed
      = map (fun lbl => Num.or_zero (Js.parseFloat (Js.field Example.legacyMixed lbl)))
            (presentLabels Example.legacyMixed)
  /\ length (normalizeFixedAmounts Example.legacyMixed)
      = length (presentLabels Example.legacyMixed)
  /\ Forall (fun amount => Num.isNaN amount = false)
        (normalizeFixedAmounts Example.legacyMixed)
  /\ Forall2
       (fun lbl amount =>
          Num.isNaN (Js.parseFloat (Js.field Example.legacyMixed lbl)) = true ->
          amount = Num.zero)
       (presentLabels Example.legacyMixed) (normalizeFixedAmounts Example.legacyMixed)
  /\ Forall2
       (fun lbl amount =>
          Num.truthy (Js.parseFloat (Js.field Example.legacyMixed lbl)) = true ->
          amount = Js.parseFloat (Js.field Example.legacyMixed lbl))
       (presentLabels Example.legacyMixed) (normalizeFixedAmounts Example.legacyMixed).
Proof.
  split; [exact I|].
  apply (legacy_amounts_follow_present_ranks Example.legacyMixed). exact I.
Defined.

(** The example of section 8: [{'1st': 1000}] yields one amount; and keys
    whose values do not parse yield zeros. *)
Example legacy_amounts_examples :
  normalizeFixedAmounts Example.legacyFirstOnly = [Fin 1000]
  /\ presentLabels Example.legacyMixed = ["1st"; "3rd"; "4th"]
  /\ normalizeFixedAmounts Example.legacyMixed = [Fin 1000; Fin 0; Fin 0].
Proof. repeat split; vm_compute; reflexivity. Qed.

(** The migration script, unlike the controller, pads to five ranks. *)
Example migration_pads_to_five :
  migratedAmounts Example.legacyFirstOnly = [Fin 1000; Fin 0; Fin 0; Fin 0; Fin 0].
Proof. vm_compute. reflexivity. Qed.

(** C7, as stated, fails: a negative amount under a legacy key is kept,
    so that the normalized amounts are not all non-negative. *)
Lemma negative_legacy_amount_is_kept :
  normalizeFixedAmounts Example.legacyNegative = [Fin (-100)]
  /\ ~ legacyAmountsAsSpecified Example.legacyNegative.
Proof.
  split; [vm_compute; reflexivity|].
  intros [_ Hnonneg]. apply Forall_inv in Hnonneg. vm_compute in Hnonneg.
  discriminate.
Qed.

(** ** The payout calculator *)

Lemma omap_seq_none {A : Type} (f : nat -> option A) (k : nat) : forall s,
  (forall i, (s <= i < s + k)%nat -> f i = None) -> omap f (seq s k) = [].
Proof.
  induction k as [|k IH]; intros s Hnone; [reflexivity|].
  simpl. rewrite Hnone by lia. apply IH. intros i Hi. apply Hnone. lia.
Qed.

Lemma omap_seq_extend {A : Type} (f : nat -> option A) (n m : nat) :
  (n <= m)%nat ->
  (forall i, (n <= i < m)%nat -> f i = None) ->
  omap f (seq 0 n) = omap f (seq 0 m).
Proof.
  intros Hle Hnone. replace m with (n + (m - n))%nat by lia.
  rewrite seq_app, omap_app.
  rewrite (omap_seq_none f (m - n) (0 + n)); [symmetry; apply app_nil_r|].
  intros i Hi. apply Hnone. lia.
Qed.

(** What the loop computes: the lines the specification describes, for
    the first five amounts only. *)
Lemma fixedStandardLines_capped amounts sortedResults :
  fixedStandardLines amounts sortedResults
  = fixedStandardLinesSpec (take 5 amounts) sortedResults.
Proof.
  unfold fixedStandardLines, fixedStandardLinesSpec.
  set (g := fun i : nat => match sortedResults !! i with
                            | Some result => _ | None => None end).
  set (h := fun i : nat => match sortedResults !! i, take 5 amounts !! i with
                            | Some result, Some amount => _ | _, _ => None end).
  assert (forall i, (i < 5)%nat -> g i = h i) as Hgh.
  { intros i Hi. unfold g, h. destruct (sortedResults !! i) as [result|]; [|reflexivity].
    rewrite lookup_take_lt by exact Hi. unfold amountAt.
    destruct (amounts !! i) as [a|]; cbn [default from_option id].
    - rewrite gtb_or_zero. destruct (Num.gtb a Num.zero) eqn:Ha; [|reflexivity].
      by rewrite or_zero_positive.
    - reflexivity. }
  rewrite (omap_seq_extend g _ 5), (omap_seq_extend h _ 5).
  - simpl. rewrite !Hgh by lia. reflexivity.
  - rewrite length_take. lia.
  - intros i Hi. unfold h. destruct (sortedResults !! i) eqn:Hs; [|reflexivity].
    apply lookup_lt_Some in Hs. rewrite lookup_ge_None_2; [reflexivity|].
    rewrite length_take in *. lia.
  - lia.
  - intros i Hi. unfold g. rewrite lookup_ge_None_2; [reflexivity|lia].
Qed.

(** C4 fails on the code.  With six fixed amounts and six ranked results
    the calculator emits five lines: the loop stops at [i < 5], and the
    sixth rank, whose amount is 100, gets no line. *)
Theorem sixth_fixed_prize_is_not_paid :
  let tournament := Example.tournament completed Example.sixAmounts in
  let specified :=
    fixedStandardLinesSpec Example.sixAmounts (sortByPosition Example.sixResults) in
  calculatePrizeDistribution tournament Example.sixResults = inr (take 5 specified)
  /\ length specified = 6%nat
  /\ specified !! 5%nat = Some (Payout.make "frank" 6 (Fin 100) None).
Proof. repeat split; vm_compute; reflexivity. Qed.

(** ** The status engine *)

(** C5.  For a duration that is not negative, the status computed without
    a manual override is [upcoming] exactly before the start, [active]
    exactly from the start to the end and [completed] exactly from the end
    on; computing it again from its own result returns the same status and
    reports no change.  The flags of [getDetailedTimeInfo] draw the same
    three intervals. *)
Theorem status_follows_the_clock current startInstant duration now :
  0 <= duration ->
  let status := (computeStatus current startInstant duration now false).1 in
  let info := getDetailedTimeInfo startInstant (startInstant + duration) now in
  (status = upcoming <-> now < startInstant)
  /\ (status = active <-> startInstant <= now < startInstant + duration)
  /\ (status = completed <-> startInstant + duration <= now)
  /\ computeStatus status startInstant duration now false = (status, false)
  /\ (TimeInfo.hasStarted info = false <-> now < startInstant)
  /\ (TimeInfo.isActive info = true <-> startInstant <= now < startInstant + duration)
  /\ (TimeInfo.hasEnded info = true <-> startInstant + duration <= now).
Proof.
  intros Hd status info. subst status info.
  unfold computeStatus, getDetailedTimeInfo.
  cbn [fst TimeInfo.hasStarted TimeInfo.isActive TimeInfo.hasEnded].
  rewrite !diffMinutes_le, !diffMinutes_gt.
  rewrite bool_decide_eq_true_2 by reflexivity. cbn [negb].
  unfold statusAt.
  destruct (Z.ltb_spec now startInstant);
    [|destruct (Z.ltb_spec now (startInstant + duration))].
  all: repeat split; intros; try discriminate; try lia; try reflexivity.
  all: rewrite ?andb_true_iff, ?Z.leb_le, ?Z.ltb_lt, ?Z.leb_gt in *; try lia.
Qed.

Lemma status_follows_the_clock_witness :
  0 <= 3600000
  /\ let status := (computeStatus upcoming Example.noon 3600000 (Example.noon + 60000) false).1 in
     let info :=
       getDetailedTimeInfo Example.noon (Example.noon + 3600000) (Example.noon + 60000) in
     (status = upcoming <-> Example.noon + 60000 < Example.noon)
     /\ (status = active <->
         Example.noon <= Example.noon + 60000 < Example.noon + 3600000)
     /\ (status = completed <-> Example.noon + 3600000 <= Example.noon + 60000)
     /\ computeStatus status Example.noon 3600000 (Example.noon + 60000) false
        = (status, false)
     /\ (TimeInfo.hasStarted info = false <-> Example.noon + 60000 < Example.noon)
     /\ (TimeInfo.isActive info = true <->
         Example.noon <= Example.noon + 60000 < Example.noon + 3600000)
     /\ (TimeInfo.hasEnded info = true <->
         Example.noon + 3600000 <= Example.noon + 60000).
Proof.
  split; [lia|].
  apply (status_follows_the_clock upcoming Example.noon 3600000 (Example.noon + 60000)).
  lia.
Defined.

Example status_examples :
  computeStatus upcoming Example.noon 3600000 (Example.noon - 1) false = (upcoming, false)
  /\ computeStatus upcoming Example.noon 3600000 Example.noon false = (active, true)
  /\ computeStatus upcoming Example.noon 3600000 (Example.noon + 3600000) false
     = (completed, true)
  /\ computeStatus active Example.noon 3600000 (Example.noon + 3600000) true
     = (active, false).
Proof. repeat split; reflexivity. Qed.

Lemma tournamentsToCheck_skips_override db tid t :
  Db.tournaments db !! tid = Some t ->
  Tournament.manualStatusOverride t = true ->
  forall t', (tid, t') ∉ tournamentsToCheck db.
Proof.
  intros Ht Ho t' Hin. unfold tournamentsToCheck in Hin.
  apply elem_of_map_to_list, map_lookup_filter_Some in Hin.
  destruct Hin as [Hl Hp]. rewrite Ht in Hl. injection Hl as <-.
  cbn in Hp. unfold needsStatusCheck in Hp. rewrite Ho in Hp.
  destruct (Tournament.status t); discriminate.
Qed.

Lemma updateAndSave_other update now id t db tid :
  id <> tid ->
  Db.tournaments (updateAndSave update now id t db).1 !! tid = Db.tournaments db !! tid.
Proof.
  intros Hne. unfold updateAndSave. destruct (update now t) as [t' []]; cbn; [|done].
  by rewrite lookup_insert_ne.
Qed.

Lemma reconcile_keeps update now tid (entries : list (string * Tournament.t)) :
  (forall t', (tid, t') ∉ entries) ->
  forall db count,
    Db.tournaments
      (fold_left
         (fun '(db, updatedCount) '(tournamentId, tournament) =>
            let '(db', wasUpdated) := updateAndSave update now tournamentId tournament db in
            (db', if wasUpdated then S updatedCount else updatedCount))
         entries (db, count)).1 !! tid
    = Db.tournaments db !! tid.
Proof.
  induction entries as [|[id t] entries IH]; intros Hnot db count; [done|].
  cbn [fold_left].
  pose proof (updateAndSave_other update now id t db tid) as Hk.
  destruct (updateAndSave update now id t db) as [db' w]. cbn in Hk.
  rewrite IH.
  - apply Hk. intros ->. apply (Hnot t). left.
  - intros t' Hin. apply (Hnot t'). right. exact Hin.
Qed.

(** C6.  A tournament under a manual override is never moved by the
    status engine: [computeStatus] returns its persisted status and no
    change, the refresh on read leaves the database as it is, and the
    periodic reconciliation, whatever the model's update method does,
    leaves the tournament as it is: its query skips the tournament. *)
Theorem manual_override_freezes_status update getStartDateTime now tid db t :
  Db.tournaments db !! tid = Some t ->
  Tournament.manualStatusOverride t = true ->
  computeStatus (Tournament.status t) (getStartDateTime t) (Tournament.duration t) now
    (Tournament.manualStatusOverride t) = (Tournament.status t, false)
  /\ refreshStatusOnRead (specUpdateStatus getStartDateTime) now tid db = db
  /\ Db.tournaments (updateAllTournamentStatuses update now db).1 !! tid = Some t.
Proof.
  intros Ht Ho. split; [|split].
  - unfold computeStatus. rewrite Ho. reflexivity.
  - unfold refreshStatusOnRead, updateAndSave, specUpdateStatus, computeStatus.
    rewrite Ht, Ho. reflexivity.
  - unfold updateAllTournamentStatuses. rewrite reconcile_keeps; [exact Ht|].
    by apply (tournamentsToCheck_skips_override db tid t).
Qed.

Lemma manual_override_freezes_status_witness :
  Db.tournaments Example.frozenDb !! "t1" = Some Example.frozen
  /\ Tournament.manualStatusOverride Example.frozen = true
  /\ computeStatus (Tournament.status Example.frozen)
       (Example.getStartDateTime Example.frozen) (Tournament.duration Example.frozen)
       (Example.noon + 7200000) (Tournament.manualStatusOverride Example.frozen)
     = (Tournament.status Example.frozen, false)
  /\ refreshStatusOnRead (specUpdateStatus Example.getStartDateTime)
       (Example.noon + 7200000) "t1" Example.frozenDb = Example.frozenDb
  /\ Db.tournaments
       (updateAllTournamentStatuses (specUpdateStatus Example.getStartDateTime)
          (Example.noon + 7200000) Example.frozenDb).1 !! "t1"
     = Some Example.frozen.
Proof.
  split; [vm_compute; reflexivity|]. split; [reflexivity|].
  apply (manual_override_freezes_status (specUpdateStatus Example.getStartDateTime)
           Example.getStartDateTime (Example.noon + 7200000) "t1" Example.frozenDb
           Example.frozen).
  - vm_compute. reflexivity.
  - reflexivity.
Defined.

(** Without the override the same reconciliation completes the tournament. *)
Example reconciliation_moves_other_tournaments :
  Tournament.status
    <$> Db.tournaments
          (updateAllTournamentStatuses (specUpdateStatus Example.getStartDateTime)
             (Example.noon + 7200000) (Example.db upcoming [Fin 1000])).1 !! "t1"
  = Some completed.
Proof. vm_compute. reflexivity. Qed.

(** ** The distribution ledger *)


(** A winner notification never throws and never touches the ledger. *)
Lemma notifyTournamentWinner_ledger env userId tournamentId db :
  exists r db', notifyTournamentWinner env userId tournamentId db = (inr r, db')
    /\ ledger db' = ledger db.
Proof.
  unfold notifyTournamentWinner, createNotification, tryCatch, bind, get_db, throw,
    ret, modify.
  destruct (Env.notificationRejected env userId (Db.notifications db)); eauto.
Qed.

Lemma creditWinner_ok env tid prize db user :
  Db.users db !! CalculatedPrize.userId prize = Some user ->
  exists w db', creditWinner env tid prize db = (inr w, db')
    /\ w = Winner.make (CalculatedPrize.userId prize) (User.fullName user)
             (CalculatedPrize.position prize) (CalculatedPrize.amount prize)
             (Num.add (User.walletBalance user) (CalculatedPrize.amount prize))
    /\ Db.users db'
       = alter (addBalance (CalculatedPrize.amount prize)) (CalculatedPrize.userId prize)
               (Db.users db)
    /\ Db.tournaments db' = Db.tournaments db
    /\ Db.transactions db'
       = (Db.transactions db ++ [payoutTransaction env tid prize])%list.
Proof.
  intros Hu. unfold creditWinner, bind at 1, get_db. rewrite Hu.
  unfold bind at 1. unfold modify at 1. cbn beta iota.
  unfold bind at 1. unfold modify at 1. cbn beta iota.
  unfold bind.
  match goal with |- context [notifyTournamentWinner env ?u ?t ?d] =>
    destruct (notifyTournamentWinner_ledger env u t d) as (r & d' & -> & Hl) end.
  unfold ret. eexists _, _. split; [reflexivity|]. split; [reflexivity|].
  unfold ledger in Hl. cbn in Hl. injection Hl as -> -> ->.
  repeat split.
  apply map_eq. intros i. rewrite lookup_alter, lookup_insert.
  destruct (decide (CalculatedPrize.userId prize = i)) as [<-|]; [|done].
  rewrite Hu. reflexivity.
Qed.

Lemma creditWinner_missing env tid prize db :
  Db.users db !! CalculatedPrize.userId prize = None ->
  exists e, creditWinner env tid prize db = (inl e, db).
Proof.
  intros Hu. unfold creditWinner, bind, get_db. rewrite Hu. unfold throw. eauto.
Qed.

Lemma mapM_creditWinner env tid lines : forall db winners db',
  mapM (creditWinner env tid) lines db = (inr winners, db') ->
  Db.users db' = creditUsers (Db.users db) lines
  /\ Db.tournaments db' = Db.tournaments db
  /\ Db.transactions db'
     = (Db.transactions db ++ map (payoutTransaction env tid) lines)%list
  /\ length winners = length lines.
Proof.
  induction lines as [|line lines IH]; intros db winners db' H.
  - cbn in H. injection H as <- <-. cbn. rewrite app_nil_r. done.
  - cbn [mapM] in H. unfold bind at 1 in H.
    destruct (Db.users db !! CalculatedPrize.userId line) as [user|] eqn:Hu.
    + destruct (creditWinner_ok env tid line db user Hu)
        as (w & d1 & Hc & _ & Hus & Hts & Htx).
      rewrite Hc in H. unfold bind at 1 in H.
      destruct (mapM (creditWinner env tid) lines d1) as [[e|ws] d2] eqn:Hm;
        [discriminate|].
      unfold ret in H. injection H as <- <-.
      destruct (IH _ _ _ Hm) as (IHu & IHt & IHx & IHl).
      cbn. rewrite IHu, IHt, IHx, Hus, Hts, Htx, IHl. rewrite <- app_assoc. done.
    + destruct (creditWinner_missing env tid line db Hu) as (e & Hc).
      rewrite Hc in H. discriminate.
Qed.

(** The balance of a user after the lines: the amounts of the user's own
    lines, added once each and in order. *)
Lemma creditUsers_lookup lines : forall (users : gmap string User.t) userId,
  User.walletBalance <$> creditUsers users lines !! userId
  = (fun balance => fold_left Num.add (creditsFor userId lines) balance)
      <$> (User.walletBalance <$> users !! userId).
Proof.
  induction lines as [|line lines IH]; intros users userId.
  - cbn. destruct (users !! userId); reflexivity.
  - cbn [creditUsers fold_left].
    fold (creditUsers (alter (addBalance (CalculatedPrize.amount line))
                             (CalculatedPrize.userId line) users) lines).
    rewrite IH. rewrite lookup_alter. unfold creditsFor. cbn [List.filter].
    destruct (String.eqb_spec (CalculatedPrize.userId line) userId) as [->|Hne].
    + rewrite decide_True by done. destruct (users !! userId); reflexivity.
    + rewrite decide_False by done. reflexivity.
Qed.

Lemma creditUsers_is_Some lines : forall (users : gmap string User.t) userId,
  is_Some (users !! userId) -> is_Some (creditUsers users lines !! userId).
Proof.
  intros users userId [u Hu].
  pose proof (creditUsers_lookup lines users userId) as H.
  rewrite Hu in H. cbn in H.
  destruct (creditUsers users lines !! userId); [eauto|discriminate].
Qed.

Lemma calculatePrizes_lines tournament entries : forall acc total lines total',
  calculatePrizes tournament entries acc total = inr (inr (lines, total')) ->
  exists new, lines = (acc ++ new)%list /\ Forall2 (lineOf tournament) entries new.
Proof.
  induction entries as [|entry entries IH]; intros acc total lines total' H.
  - cbn in H. injection H as <- <-. exists []. rewrite app_nil_r.
    split; [done|constructor].
  - cbn [calculatePrizes] in H. unfold res_bind in H.
    destruct (prizeAmount tournament entry) as [e|amount] eqn:Ha; [discriminate|].
    destruct (Num.leb amount Num.zero) eqn:Hle; [discriminate|].
    destruct (IH _ _ _ _ H) as (new & -> & HF).
    eexists (_ :: new). rewrite <- app_assoc. split; [reflexivity|].
    constructor; [|done]. unfold lineOf. cbn. done.
Qed.

Lemma calculatePrizes_early_answer tournament entries : forall acc total response,
  calculatePrizes tournament entries acc total = inr (inl response) ->
  Response.code response = 400.
Proof.
  induction entries as [|entry entries IH]; intros acc total response H; [discriminate|].
  cbn [calculatePrizes] in H. unfold res_bind in H.
  destruct (prizeAmount tournament entry) as [e|amount]; [discriminate|].
  destruct (Num.leb amount Num.zero); [injection H as <-; reflexivity|].
  eapply IH, H.
Qed.

Lemma payout_is_completed env tid line :
  isCompletedPayout tid (payoutTransaction env tid line) = true.
Proof.
  unfold isCompletedPayout, payoutTransaction. cbn.
  rewrite String.eqb_refl. reflexivity.
Qed.

(** What a distribution that answers 200 has gone through. *)
Lemma distribute_success_inv env tid uid entries db resp db1 :
  distributeTournamentPrizes env tid uid entries db = (resp, db1) ->
  Response.code resp = 200 ->
  exists prizeDistribution tournament lines total winners dbm,
    entries = Some prizeDistribution /\ prizeDistribution <> []
    /\ Db.tournaments db !! tid = Some tournament
    /\ is_Some (Db.users db !! Tournament.organizer tournament)
    /\ Tournament.organizer tournament = uid
    /\ Tournament.status tournament = completed
    /\ existingPrizePayouts db tid = []
    /\ calculatePrizes tournament prizeDistribution [] Num.zero = inr (inr (lines, total))
    /\ mapM (creditWinner env tid) lines db = (inr winners, dbm)
    /\ db1 = (markDistributed env tid uid dbm).2
    /\ resp = Response.make 200 (Distributed total winners).
Proof.
  unfold distributeTournamentPrizes, catchAll. intros H Hcode.
  destruct entries as [[|entry entries]|].
  1,3: cbn in H; injection H as <- <-; discriminate.
  unfold bind at 1, get_db in H.
  destruct (Db.tournaments db !! tid) as [tournament|] eqn:Ht.
  2: { cbn in H. injection H as <- <-. discriminate. }
  destruct (bool_decide (is_Some (Db.users db !! Tournament.organizer tournament)))
    eqn:Horg.
  2: { cbn in H. injection H as <- <-. discriminate. }
  apply bool_decide_eq_true in Horg. cbn [negb] in H.
  destruct (String.eqb_spec (Tournament.organizer tournament) uid) as [Hu|Hu].
  2: { cbn in H. injection H as <- <-. discriminate. }
  cbn [negb] in H.
  destruct (bool_decide (Tournament.status tournament = completed)) eqn:Hst.
  2: { cbn in H. injection H as <- <-. discriminate. }
  apply bool_decide_eq_true in Hst. cbn [negb] in H.
  destruct (existingPrizePayouts db tid) as [|x xs] eqn:Hex.
  2: { cbn in H. injection H as <- <-. discriminate. }
  cbn [length Nat.eqb negb] in H.
  match type of H with context [if negb (length ?l =? 0)%nat then _ else _] =>
    destruct (negb (length l =? 0)%nat) end.
  { cbn in H. injection H as <- <-. discriminate. }
  unfold bind at 1, lift in H.
  destruct (calculatePrizes tournament (entry :: entries) [] Num.zero)
    as [e|[response|[lines total]]] eqn:Hcalc.
  { injection H as <- <-. discriminate. }
  { cbn in H. injection H as <- <-.
    rewrite (calculatePrizes_early_answer _ _ _ _ _ Hcalc) in Hcode. discriminate. }
  unfold distributionTransaction, inTransaction in H. unfold bind at 1 in H.
  destruct (mapM (creditWinner env tid) lines db) as [[e|winners] dbm] eqn:Hm.
  { injection H as <- <-. discriminate. }
  unfold bind, ret in H.
  destruct (markDistributed env tid uid dbm) as [[e|[]] dbf] eqn:Hmark.
  { unfold markDistributed, modify in Hmark. discriminate. }
  injection H as <- <-.
  exists (entry :: entries), tournament, lines, total, winners, dbm.
  rewrite Hmark. repeat split; try done.
Qed.

(** C2.  When a call of [distributeTournamentPrizes] succeeds, every entry
    of the request has yielded one line, the balance of every user has
    grown by the amounts of the user's own lines, each added once, and a
    second call with the same arguments, at any later time, is answered by
    the replay guard and leaves the database, hence every balance, as the
    first call left it. *)
Theorem second_distribution_is_refused env env' tid uid entries db resp db1 :
  distributeTournamentPrizes env tid uid entries db = (resp, db1) ->
  Response.code resp = 200 ->
  (exists tournament prizeDistribution lines,
      Db.tournaments db !! tid = Some tournament
      /\ entries = Some prizeDistribution
      /\ Forall2 (lineOf tournament) prizeDistribution lines
      /\ forall userId,
           walletOf userId db1
           = (fun balance => fold_left Num.add (creditsFor userId lines) balance)
               <$> walletOf userId db)
  /\ distributeTournamentPrizes env' tid uid entries db1 = (alreadyDistributed, db1).
Proof.
  intros H Hcode.
  destruct (distribute_success_inv _ _ _ _ _ _ _ H Hcode)
    as (pd & t & lines & total & winners & dbm & -> & Hne & Ht & Horg & Huid & Hst
        & Hex & Hcalc & Hm & -> & ->).
  destruct (mapM_creditWinner _ _ _ _ _ _ Hm) as (Hus & Hts & Htx & _).
  destruct (calculatePrizes_lines _ _ _ _ _ _ Hcalc) as (new & Hnew & HF).
  cbn in Hnew. subst new.
  split.
  - exists t, pd, lines. repeat split; try done.
    intros userId. unfold walletOf. cbn. rewrite Hus. apply creditUsers_lookup.
  - unfold distributeTournamentPrizes, catchAll.
    destruct pd as [|entry pd]; [done|].
    unfold bind at 1, get_db.
    cbn [markDistributed modify snd Db.tournaments Db.set_tournaments Db.users].
    rewrite Hts, lookup_alter, decide_True, Ht by done.
    cbn [fmap option_fmap option_map].
    cbn [Tournament.organizer Tournament.set_metadata Tournament.status].
    rewrite Hus, bool_decide_eq_true_2 by (by apply creditUsers_is_Some).
    rewrite Huid, String.eqb_refl, Hst, bool_decide_eq_true_2 by done.
    cbn [negb].
    unfold existingPrizePayouts. cbn [Db.transactions Db.set_tournaments].
    rewrite Htx, List.filter_app.
    inversion HF as [|? line ? lines' _ _]; subst.
    cbn [map List.filter]. rewrite payout_is_completed.
    rewrite length_app. cbn [length].
    replace (length _ + S _ =? 0)%nat with false
      by (symmetry; apply Nat.eqb_neq; lia).
    reflexivity.
Qed.

Lemma second_distribution_is_refused_witness :
  let db := Example.db completed [Fin 1000] in
  let first := distributeTournamentPrizes (Example.env 0) "t1" "org" Example.firstToAlice db in
  distributeTournamentPrizes (Example.env 0) "t1" "org" Example.firstToAlice db
    = (first.1, first.2)
  /\ Response.code first.1 = 200
  /\ (exists tournament prizeDistribution lines,
         Db.tournaments db !! "t1" = Some tournament
         /\ Example.firstToAlice = Some prizeDistribution
         /\ Forall2 (lineOf tournament) prizeDistribution lines
         /\ forall userId,
              walletOf userId first.2
              = (fun balance => fold_left Num.add (creditsFor userId lines) balance)
                  <$> walletOf userId db)
  /\ distributeTournamentPrizes (Example.env 60000) "t1" "org" Example.firstToAlice first.2
     = (alreadyDistributed, first.2).
Proof.
  intros db first.
  assert (distributeTournamentPrizes (Example.env 0) "t1" "org" Example.firstToAlice db
          = (first.1, first.2)) as Hfirst by (vm_compute; reflexivity).
  assert (Response.code first.1 = 200) as Hcode by (vm_compute; reflexivity).
  split; [exact Hfirst|]. split; [exact Hcode|].
  exact (second_distribution_is_refused (Example.env 0) (Example.env 60000) "t1" "org"
           Example.firstToAlice db first.1 first.2 Hfirst Hcode).
Defined.

(** The two calls on the example: alice is credited 1000 once. *)
Example distribution_replay :
  let first :=
    distributeTournamentPrizes (Example.env 0) "t1" "org" Example.firstToAlice
      (Example.db completed [Fin 1000]) in
  let second :=
    distributeTournamentPrizes (Example.env 60000) "t1" "org" Example.firstToAlice first.2 in
  Response.code first.1 = 200 /\ walletOf "alice" first.2 = Some (Fin 1000)
  /\ second.1 = alreadyDistributed /\ walletOf "alice" second.2 = Some (Fin 1000)
  /\ walletOf "bob" second.2 = Some (Fin 70).
Proof. repeat split; vm_compute; reflexivity. Qed.

(** *** Notifications and the ledger *)





Lemma payPrize_run env tid prize db :
  exists db', payPrize env tid prize db = (inr tt, db')
    /\ ledger db' =
       if Num.gtb (Payout.amount prize) Num.zero then
         (alter (addBalance (Payout.amount prize)) (Payout.userId prize) (Db.users db),
          Db.tournaments db,
          (Db.transactions db ++ [prizeTransaction env db tid prize])%list)
       else ledger db.
Proof.
  unfold payPrize.
  destruct (Num.gtb (Payout.amount prize) Num.zero); [|eexists; split; reflexivity].
  unfold bind at 1. unfold incWalletBalance at 1, modify at 1. cbn beta iota.
  unfold bind at 1. unfold bind at 1, get_db, modify at 1. cbn beta iota.
  unfold tryCatch, bind.
  match goal with |- context [notifyTournamentWinner env ?u ?t ?d] =>
    destruct (notifyTournamentWinner_ledger env u t d) as (r & d' & -> & Hl) end.
  unfold ret. eexists. split; [reflexivity|]. rewrite Hl. reflexivity.
Qed.



Lemma includes_participant db tournament userId :
  userId ∈ Tournament.participants tournament ->
  is_Some (Db.users db !! userId) ->
  existsb (String.eqb userId) (populateParticipants db tournament) = true.
Proof.
  intros Hin Hsome. apply existsb_exists. exists userId. split.
  - apply list_elem_of_In. unfold populateParticipants.
    apply list_elem_of_filter. done.
  - apply String.eqb_refl.
Qed.

Lemma calculatePrizes_total tournament entries : forall acc total lines total',
  calculatePrizes tournament entries acc total = inr (inr (lines, total')) ->
  exists new, lines = (acc ++ new)%list
    /\ total' = fold_left Num.add (map CalculatedPrize.amount new) total.
Proof.
  induction entries as [|entry entries IH]; intros acc total lines total' H.
  - cbn in H. injection H as <- <-. exists []. by rewrite app_nil_r.
  - cbn [calculatePrizes] in H.
    destruct (prizeAmount tournament entry) as [e|amount]; [discriminate|].
    cbn in H. destruct (Num.leb amount Num.zero); [discriminate|].
    apply IH in H as (new & -> & ->).
    eexists (_ :: new). rewrite <- app_assoc. done.
Qed.

Lemma mapM_creditWinner_winners env tid lines : forall db winners db',
  mapM (creditWinner env tid) lines db = (inr winners, db') ->
  map winnerLine winners = lines.
Proof.
  induction lines as [|line lines IH]; intros db winners db' H.
  - cbn in H. by injection H as <- <-.
  - cbn [mapM] in H. unfold bind at 1 in H.
    destruct (Db.users db !! CalculatedPrize.userId line) as [user|] eqn:Hu.
    + destruct (creditWinner_ok env tid line db user Hu) as (w & d1 & Hc & -> & _).
      rewrite Hc in H. unfold bind at 1 in H.
      destruct (mapM (creditWinner env tid) lines d1) as [[e|ws] d2] eqn:Hm;
        [discriminate|].
      unfold ret in H. injection H as <- <-. cbn. rewrite (IH _ _ _ Hm).
      by destruct line.
    + destruct (creditWinner_missing env tid line db Hu) as (e & Hc).
      rewrite Hc in H. discriminate.
Qed.








(** With every notification failing, the example distribution still commits. *)
Example distribution_without_notifications :
  let run :=
    distributeTournamentPrizes (Example.silentEnv 0) "t1" "org" Example.firstToAlice
      (Example.db completed [Fin 1000]) in
  Response.code run.1 = 200 /\ walletOf "alice" run.2 = Some (Fin 1000)
  /\ length (Db.transactions run.2) = 1%nat /\ Db.notifications run.2 = []
  /\ (Metadata.prizesDistributed ∘ Tournament.metadata) <$> Db.tournaments run.2 !! "t1"
     = Some true.
Proof. repeat split; vm_compute; reflexivity. Qed.

(** *** Custom amounts *)

(** C10.  A custom amount above zero replaces the amount that the prize
    structure gives to the position, whatever that amount is; and nothing
    compares it with the prize pool: for a completed tournament without
    earlier payouts, the organizer's request to pay any positive custom
    amount to a participant is answered 200 and the participant's balance
    grows by exactly that amount. *)
Theorem custom_amount_replaces_schedule env tid db tournament entry winner custom base :
  Db.tournaments db !! tid = Some tournament ->
  is_Some (Db.users db !! Tournament.organizer tournament) ->
  Tournament.status tournament = completed ->
  existingPrizePayouts db tid = [] ->
  PrizeEntry.userId entry ∈ Tournament.participants tournament ->
  Db.users db !! PrizeEntry.userId entry = Some winner ->
  scheduleAmount tournament (PrizeEntry.position entry) = inr base ->
  PrizeEntry.customAmount entry = Some custom ->
  Num.gtb custom Num.zero = true ->
  prizeAmount tournament entry = inr custom
  /\ exists total winners db1,
       distributeTournamentPrizes env tid (Tournament.organizer tournament)
         (Some [entry]) db
       = (Response.make 200 (Distributed total winners), db1)
       /\ map Winner.amount winners = [custom]
       /\ walletOf (PrizeEntry.userId entry) db1
          = Some (Num.add (User.walletBalance winner) custom).
Proof.
  intros Ht Horg Hst Hex Hin Hw Hbase Hc Hpos.
  destruct (gtb_zero_positive _ Hpos) as [Htruthy Hle].
  assert (prizeAmount tournament entry = inr custom) as Hamount.
  { unfold prizeAmount, res_bind, usesCustomAmount. rewrite Hbase, Hc, Htruthy, Hpos.
    reflexivity. }
  split; [exact Hamount|].
  unfold distributeTournamentPrizes, catchAll. unfold bind at 1, get_db.
  rewrite Ht, bool_decide_eq_true_2, String.eqb_refl, Hst, bool_decide_eq_true_2, Hex
    by done.
  cbn [negb length Nat.eqb List.filter].
  rewrite includes_participant by (rewrite ?Hw; eauto).
  cbn [negb length Nat.eqb]. unfold bind at 1, lift.
  cbn [calculatePrizes]. unfold res_bind. rewrite Hamount, Hle. cbn [app].
  unfold distributionTransaction, inTransaction. unfold bind at 1. cbn [mapM].
  unfold bind at 1.
  match goal with |- context [creditWinner env tid ?p db] =>
    destruct (creditWinner_ok env tid p db winner Hw)
      as (w & d1 & -> & -> & Hu1 & Ht1 & Hx1) end.
  cbn [CalculatedPrize.userId CalculatedPrize.amount CalculatedPrize.position] in *.
  unfold bind, ret, markDistributed, modify.
  eexists _, _, _. split; [reflexivity|]. split; [reflexivity|].
  unfold walletOf. cbn. rewrite Hu1, lookup_alter, decide_True, Hw by done.
  reflexivity.
Qed.

Lemma custom_amount_replaces_schedule_witness :
  let db := Example.db completed [Fin 1000] in
  let tournament := Example.tournament completed [Fin 1000] in
  let entry := Example.millionToBob in
  Db.tournaments db !! "t1" = Some tournament
  /\ is_Some (Db.users db !! Tournament.organizer tournament)
  /\ Tournament.status tournament = completed
  /\ existingPrizePayouts db "t1" = []
  /\ PrizeEntry.userId entry ∈ Tournament.participants tournament
  /\ Db.users db !! PrizeEntry.userId entry = Some Example.bob
  /\ scheduleAmount tournament (PrizeEntry.position entry) = inr (Fin 1000)
  /\ PrizeEntry.customAmount entry = Some (Fin 1000000)
  /\ Num.gtb (Fin 1000000) Num.zero = true
  /\ prizeAmount tournament entry = inr (Fin 1000000)
  /\ exists total winners db1,
       distributeTournamentPrizes (Example.env 0) "t1" (Tournament.organizer tournament)
         (Some [entry]) db
       = (Response.make 200 (Distributed total winners), db1)
       /\ map Winner.amount winners = [Fin 1000000]
       /\ walletOf (PrizeEntry.userId entry) db1
          = Some (Num.add (User.walletBalance Example.bob) (Fin 1000000)).
Proof.
  intros db tournament entry.
  assert (Db.tournaments db !! "t1" = Some tournament) as H1
    by (vm_compute; reflexivity).
  assert (is_Some (Db.users db !! Tournament.organizer tournament)) as H2
    by (exists Example.organizer; vm_compute; reflexivity).
  assert (PrizeEntry.userId entry ∈ Tournament.participants tournament) as H3
    by (apply list_elem_of_In; right; left; reflexivity).
  assert (Db.users db !! PrizeEntry.userId entry = Some Example.bob) as H4
    by (vm_compute; reflexivity).
  assert (scheduleAmount tournament (PrizeEntry.position entry) = inr (Fin 1000)) as H5
    by (vm_compute; reflexivity).
  split; [exact H1|]. split; [exact H2|]. split; [reflexivity|].
  split; [reflexivity|]. split; [exact H3|]. split; [exact H4|].
  split; [exact H5|]. split; [reflexivity|]. split; [reflexivity|].
  exact (custom_amount_replaces_schedule (Example.env 0) "t1" db tournament entry
           Example.bob (Fin 1000000) (Fin 1000) H1 H2 eq_refl eq_refl H3 H4 H5
           eq_refl eq_refl).
Defined.

(** On the example: the schedule gives 1000 to the first place, the pool
    is 1000, and bob receives one million. *)
Example custom_amount_exceeds_pool :
  let run :=
    distributeTournamentPrizes (Example.env 0) "t1" "org" (Some [Example.millionToBob])
      (Example.db completed [Fin 1000]) in
  totalPrizePool "fixed" (Example.fixedPrizes [Fin 1000]) = inr (Fin 1000)
  /\ Response.code run.1 = 200 /\ walletOf "bob" run.2 = Some (Fin 1000070).
Proof. repeat split; vm_compute; reflexivity. Qed.

(** ** Double payment *)

(** C1 fails on the code.  Result submission has no replay guard, and the
    guard of the distribution endpoint looks for ledger entries of type
    [prize_payout], which result submission does not write; the flag
    [metadata.prizesDistributed] is written by the endpoint and read by
    nothing.  On the example, submitting the same results twice and then
    calling the endpoint pays alice's first prize three times. *)
Theorem prizes_are_paid_again :
  let results := Some [Result.make "alice" 1 (Fin 7)] in
  let first :=
    submitTournamentResults (Example.env 0) "t1" "org" results
      (Example.db active [Fin 1000]) in
  let second := submitTournamentResults (Example.env 1000) "t1" "org" results first.2 in
  let third :=
    distributeTournamentPrizes (Example.env 2000) "t1" "org" Example.firstToAlice second.2 in
  Response.code first.1 = 200 /\ walletOf "alice" first.2 = Some (Fin 1000)
  /\ Response.code second.1 = 200 /\ walletOf "alice" second.2 = Some (Fin 2000)
  /\ (Metadata.prizesDistributed ∘ Tournament.metadata) <$> Db.tournaments second.2 !! "t1"
     = Some false
  /\ Response.code third.1 = 200 /\ walletOf "alice" third.2 = Some (Fin 3000)
  /\ map Transaction.type (Db.transactions third.2)
     = ["tournament_prize"; "tournament_prize"; "prize_payout"].
Proof. repeat split; vm_compute; reflexivity. Qed.

(** ** Funding at creation *)

(** C3 fails on the code.  The pool is taken from the wallet and saved
    before [Tournament.create] is called, and the handler of a creation
    error only answers 500.  On the example the organizer holds 5000 and
    funds a pool of 1500; when the document is rejected, no tournament and
    no ledger entry is stored, and the balance stays at 3500. *)
Theorem failed_creation_keeps_the_debit :
  let db := Example.db active [] in
  let run := createTournament (Example.rejectingEnv 0) Example.createRequest db in
  let accepted := createTournament (Example.env 0) Example.createRequest db in
  walletOf "org" db = Some (Fin 5000)
  /\ Response.code run.1.1 = 500
  /\ walletOf "org" run.1.2 = Some (Fin 3500)
  /\ Db.tournaments run.1.2 = Db.tournaments db
  /\ Db.transactions run.1.2 = []
  /\ Response.code accepted.1.1 = 201
  /\ walletOf "org" accepted.1.2 = Some (Fin 3500)
  /\ is_Some (Db.tournaments accepted.1.2 !! "t2").
Proof.
  repeat split; try (vm_compute; reflexivity).
  eexists. vm_compute. reflexivity.
Qed.

(** ** Reminders *)

(** C9 fails on the code.  The callback of the timer set at creation
    sends the reminder without reading or writing
    [fiveMinuteReminderSent], so that the timer and the reminder job both
    send it, in either order.  On the example the tournament starts at
    noon and is created ten minutes before; the timer is set for five
    minutes before noon, the minute at which the job also runs.  When the
    timer fires first, the job finds the flag unset and sends the reminder
    again; when the job runs first, it sets the flag and the timer sends
    the reminder all the same.  Alice has received two reminders either
    way; the runs of the job that follow send nothing. *)
Theorem reminder_is_delivered_twice :
  let db := Example.db upcoming [Fin 1000] in
  let job now := reminderJob (specIsStartingWithinMinutes Example.getStartDateTime)
                   (Example.env now) now in
  let timer :=
    scheduleTournamentReminder (Example.env (Example.noon - 600000)) "t1"
      Example.newYear "12:00" "UTC" in
  let fireAt := Example.noon - 300000 in
  let fired := (reminderCallback (Example.env fireAt) "t1" db).2 in
  let timerThenJob := (job (fireAt + 20) fired).2 in
  let jobThenTimer :=
    (reminderCallback (Example.env (fireAt + 20)) "t1" (job fireAt db).2).2 in
  timer = Some (Timer.make "t1" fireAt)
  /\ received "alice" "tournament_reminder" "t1" db = 0%nat
  /\ received "alice" "tournament_reminder" "t1" fired = 1%nat
  /\ Tournament.fiveMinuteReminderSent <$> Db.tournaments fired !! "t1" = Some false
  /\ received "alice" "tournament_reminder" "t1" timerThenJob = 2%nat
  /\ received "alice" "tournament_reminder" "t1" jobThenTimer = 2%nat
  /\ Tournament.fiveMinuteReminderSent <$> Db.tournaments (job fireAt db).2 !! "t1"
     = Some true
  /\ received "alice" "tournament_reminder" "t1" (job (fireAt + 60000) timerThenJob).2
     = 2%nat.
Proof. repeat split; vm_compute; reflexivity. Qed.

(** ** The three defects, for every input *)

Lemma forEach_payPrize_users env tid lines : forall db,
  exists db', forEach (payPrize env tid) lines db = (inr tt, db')
    /\ Db.users db' = payUsers (Db.users db) lines
    /\ Db.tournaments db' = Db.tournaments db.
Proof.
  induction lines as [|line lines IH]; intros db.
  - exists db. done.
  - cbn [forEach]. unfold bind at 1.
    destruct (payPrize_run env tid line db) as (d1 & -> & Hl).
    destruct (IH d1) as (d2 & -> & Hu & Ht). exists d2. split; [reflexivity|].
    rewrite Hu, Ht. cbn [payUsers fold_left].
    destruct (Num.gtb (Payout.amount line) Num.zero);
      unfold ledger in Hl; injection Hl as -> -> _; done.
Qed.

(** Result submission reads neither the ledger nor the distribution flag
    nor the status: whenever the calculator yields lines, they are paid. *)
Lemma submitTournamentResults_pays env tid db t result results lines :
  Db.tournaments db !! tid = Some t ->
  calculatePrizeDistribution t (result :: results) = inr lines ->
  exists db',
    submitTournamentResults env tid (Tournament.organizer t) (Some (result :: results)) db
    = (Response.make 200 (Submitted lines), db')
    /\ Db.users db' = payUsers (Db.users db) lines.
Proof.
  intros Ht Hcalc. unfold submitTournamentResults, catchAll.
  rewrite Ht, String.eqb_refl. cbn [negb]. unfold bind at 1, lift. rewrite Hcalc.
  unfold bind at 1.
  destruct (forEach_payPrize_users env tid lines db) as (d1 & -> & Hu & _).
  unfold bind, saveResults, modify, ret. eexists. split; [reflexivity|].
  cbn. exact Hu.
Qed.

(** A creation error after a wallet funding: the answer is a 500 and the
    database is the funded one, with the pool taken from the balance. *)
Lemma creation_error_keeps_debit env req input pool db user error :
  Db.users db !! CreateRequest.userId req = Some user ->
  Num.ltb (User.walletBalance user) pool = false ->
  Env.tournamentCreate env input = inl error ->
  exists funded,
    fundFromWallet (CreateRequest.userId req) pool db = inr funded
    /\ walletOf (CreateRequest.userId req) funded
       = Some (Num.sub (User.walletBalance user) pool)
    /\ persistTournament env req input pool funded
       = (Response.make 500 (Failure "Error creating tournament" error), funded, None).
Proof.
  intros Hu Hlt He. unfold fundFromWallet, persistTournament. rewrite Hu, Hlt, He.
  eexists. split; [reflexivity|]. split; [|reflexivity].
  unfold walletOf. cbn. rewrite lookup_insert_eq. reflexivity.
Qed.

(** The callback of the timer writes notifications only: the flag
    [fiveMinuteReminderSent] is as it was. *)
Lemma reminderCallback_ledger env tid db :
  (reminderCallback env tid db).1 = inr tt
  /\ ledger (reminderCallback env tid db).2 = ledger db.
Proof.
  unfold reminderCallback, notifyTournamentStartingInFiveMinutes, tryCatch, bind, get_db.
  destruct (Db.tournaments db !! tid) as [t|]; [|done].
  destruct (populateParticipants db t) as [|p ps]; [done|].
  unfold createBulkNotifications, tryCatch, bind, get_db, throw, modify, ret.
  destruct (existsb _ _); done.
Qed.

(** * Further properties *)

(** ** createTournament *)

Lemma persistTournament_code env req input pool db :
  Response.code (persistTournament env req input pool db).1.1 = 500
  \/ Response.code (persistTournament env req input pool db).1.1 = 201.
Proof.
  unfold persistTournament. destruct (Env.tournamentCreate env input) as [e|[id t]];
    [left|right]; reflexivity.
Qed.

(** X1.  Whenever [createTournament] answers anything but 201 or 500 (a
    missing field, a bad link, time, zone, duration or date, no banner, an
    entry fee above the pool, an unknown user, an insufficient balance, or
    the redirection to the top-up), the database is as it was and no
    timer is set. *)
Theorem createTournament_refusal_changes_nothing env req db :
  Response.code (createTournament env req db).1.1 <> 201 ->
  Response.code (createTournament env req db).1.1 <> 500 ->
  (createTournament env req db).1.2 = db /\ (createTournament env req db).2 = None.
Proof.
  unfold createTournament.
  destruct (validateRequest env req) as [response|[[durationInMs startDate] bannerUrl]];
    [done|].
  destruct (normalizePrizes _ _) as [e|normalizedPrizes]; [done|].
  destruct (totalPrizePool _ _) as [e|pool]; [done|].
  destruct (Num.gtb _ pool); [done|].
  destruct (String.eqb (CreateRequest.fundingMethod req) "wallet").
  - destruct (fundFromWallet _ _ _) as [response|funded]; [done|].
    intros H1 H2.
    match goal with |- context [persistTournament ?e ?r ?i ?p ?d] =>
      destruct (persistTournament_code e r i p d) end; congruence.
  - destruct (String.eqb (CreateRequest.fundingMethod req) "topup"); [done|].
    intros H1 H2.
    match goal with |- context [persistTournament ?e ?r ?i ?p ?d] =>
      destruct (persistTournament_code e r i p d) end; congruence.
Qed.

Lemma createTournament_refusal_changes_nothing_witness :
  let run := createTournament (Example.env 0) Sample.expensiveRequest
               (Example.db active []) in
  Response.code run.1.1 <> 201
  /\ Response.code run.1.1 <> 500
  /\ run.1.2 = Example.db active [] /\ run.2 = None.
Proof.
  intros run.
  assert (Response.code run.1.1 <> 201) as H1 by (vm_compute; discriminate).
  assert (Response.code run.1.1 <> 500) as H2 by (vm_compute; discriminate).
  split; [exact H1|]. split; [exact H2|].
  exact (createTournament_refusal_changes_nothing (Example.env 0) Sample.expensiveRequest
           (Example.db active []) H1 H2).
Defined.

(** The pool of a normalized structure can always be computed. *)
Lemma totalPrizePool_normalized prizeType prizes normalizedPrizes :
  normalizePrizes prizeType prizes = inr normalizedPrizes ->
  exists pool, totalPrizePool prizeType normalizedPrizes = inr pool.
Proof.
  unfold normalizePrizes, totalPrizePool, res_bind.
  destruct (String.eqb prizeType "fixed").
  { destruct (normalizeFixed prizes); [discriminate|]. intros [= <-]. cbn. eauto. }
  destruct (String.eqb prizeType "percentage").
  { destruct (normalizePercentage prizes); [discriminate|]. intros [= <-]. cbn. eauto. }
  destruct (String.eqb prizeType "special").
  { destruct (normalizeSpecial prizes) as [|s]; [discriminate|]. intros [= <-]. cbn.
    destruct (Special.isFixed s); eauto. }
  intros _. eauto.
Qed.

(** X2.  [createTournament] never answers "Error calculating prize pool":
    the structure that the normalization builds always carries the key of
    its prize type, so the calculation inside the [try] cannot throw. *)
Theorem prize_pool_error_is_unreachable env req db error :
  (createTournament env req db).1.1
  <> Response.make 400 (Failure "Error calculating prize pool" error).
Proof.
  unfold createTournament.
  destruct (validateRequest env req) as [response|[[durationInMs startDate] bannerUrl]]
    eqn:Hv.
  { cbn. intros ->. unfold validateRequest, bad in Hv.
    repeat match type of Hv with
    | (if ?b then _ else _) = _ => destruct b; try discriminate
    | match ?x with _ => _ end = _ => destruct x; try discriminate
    end. }
  destruct (normalizePrizes _ _) as [e|normalizedPrizes] eqn:Hn; [discriminate|].
  destruct (totalPrizePool_normalized _ _ _ Hn) as [pool ->].
  destruct (Num.gtb _ pool); [discriminate|].
  destruct (String.eqb (CreateRequest.fundingMethod req) "wallet").
  - destruct (fundFromWallet _ _ _) as [response|funded] eqn:Hf.
    + cbn. intros ->. unfold fundFromWallet, bad in Hf.
      destruct (Db.users db !! _); [|discriminate].
      destruct (Num.ltb _ _); discriminate.
    + intros H.
      match type of H with context [persistTournament ?e ?r ?i ?p ?d] =>
        destruct (persistTournament_code e r i p d) as [Hc|Hc]; rewrite H in Hc end;
        discriminate.
  - destruct (String.eqb (CreateRequest.fundingMethod req) "topup"); [discriminate|].
    intros H.
    match type of H with context [persistTournament ?e ?r ?i ?p ?d] =>
      destruct (persistTournament_code e r i p d) as [Hc|Hc]; rewrite H in Hc end;
      discriminate.
Qed.

(** X3.  Funding from the wallet never overdraws it: when the pool is
    taken from a finite balance, the new balance is the old one less the
    pool and is not negative; no other user, no tournament and no ledger
    entry is touched. *)
Theorem wallet_funding_never_overdraws userId db funded balance pool :
  walletOf userId db = Some (Fin balance) ->
  fundFromWallet userId (Fin pool) db = inr funded ->
  walletOf userId funded = Some (Num.sub (Fin balance) (Fin pool))
  /\ Num.leb Num.zero (Num.sub (Fin balance) (Fin pool)) = true
  /\ (forall other, other <> userId -> Db.users funded !! other = Db.users db !! other)
  /\ Db.tournaments funded = Db.tournaments db
  /\ Db.transactions funded = Db.transactions db.
Proof.
  unfold walletOf, fundFromWallet. intros Hb Hf.
  destruct (Db.users db !! userId) as [[name held created]|]; [|discriminate].
  cbn in Hb. injection Hb as ->. cbn [User.walletBalance] in Hf.
  destruct (Num.ltb (Fin balance) (Fin pool)) eqn:Hlt; [discriminate|].
  injection Hf as <-. cbn [Db.users Db.set_users Db.tournaments Db.transactions].
  rewrite lookup_insert_eq.
  split; [reflexivity|]. split; [|split; [|done]].
  - cbn in Hlt. apply negb_false_iff, Qle_bool_iff in Hlt.
    apply Qle_bool_iff. rewrite !Qred_correct.
    apply (Qplus_le_r _ _ pool). ring_simplify. exact Hlt.
  - intros other Hne. by rewrite lookup_insert_ne.
Qed.

Lemma wallet_funding_never_overdraws_witness :
  walletOf "org" (Example.db active []) = Some (Fin 5000)
  /\ fundFromWallet "org" (Fin 1500) (Example.db active []) = inr Sample.funded
  /\ walletOf "org" Sample.funded = Some (Num.sub (Fin 5000) (Fin 1500))
  /\ Num.leb Num.zero (Num.sub (Fin 5000) (Fin 1500)) = true
  /\ (forall other, other <> "org" ->
        Db.users Sample.funded !! other = Db.users (Example.db active []) !! other)
  /\ Db.tournaments Sample.funded = Db.tournaments (Example.db active [])
  /\ Db.transactions Sample.funded = Db.transactions (Example.db active []).
Proof.
  assert (walletOf "org" (Example.db active []) = Some (Fin 5000)) as H1
    by (vm_compute; reflexivity).
  assert (fundFromWallet "org" (Fin 1500) (Example.db active []) = inr Sample.funded)
    as H2 by (vm_compute; reflexivity).
  split; [exact H1|]. split; [exact H2|].
  exact (wallet_funding_never_overdraws "org" (Example.db active []) Sample.funded
           5000 1500 H1 H2).
Defined.

(** X4.  A wallet-funded creation that answers 201 has checked that the
    entry fee is not above the pool and that the organizer's balance
    covers the pool; it leaves the balance at the old one less the pool,
    stores the created document under its identifier, appends that
    identifier to the organizer's created tournaments, and appends one
    [tournament_funding] entry of the amount of the pool to the ledger,
    unless the ledger rejected it, which the handler ignores. *)
Theorem created_tournament_is_funded env req db :
  Response.code (createTournament env req db).1.1 = 201 ->
  CreateRequest.fundingMethod req = "wallet" ->
  exists normalizedPrizes pool user input tournamentId tournament,
    normalizePrizes (CreateRequest.prizeType req) (CreateRequest.prizes req)
      = inr normalizedPrizes
    /\ totalPrizePool (CreateRequest.prizeType req) normalizedPrizes = inr pool
    /\ Num.gtb (Js.parseFloatOrZero (CreateRequest.entryFee req)) pool = false
    /\ Db.users db !! CreateRequest.userId req = Some user
    /\ Num.ltb (User.walletBalance user) pool = false
    /\ Env.tournamentCreate env input = inr (tournamentId, tournament)
    /\ TournamentInput.prizes input = normalizedPrizes
    /\ Db.users (createTournament env req db).1.2 !! CreateRequest.userId req
       = Some (User.make (User.fullName user)
                 (Num.sub (User.walletBalance user) pool)
                 (User.createdTournaments user ++ [tournamentId])%list)
    /\ Db.tournaments (createTournament env req db).1.2
       = <[tournamentId := tournament]> (Db.tournaments db)
    /\ map (fun x => (Transaction.type x, Transaction.user x, Transaction.amount x))
         (Db.transactions (createTournament env req db).1.2)
       = (map (fun x => (Transaction.type x, Transaction.user x, Transaction.amount x))
              (Db.transactions db)
          ++ if Env.fundingRecordRejected env then []
             else [("tournament_funding", CreateRequest.userId req, pool)])%list.
Proof.
  unfold createTournament. intros Hcode Hwallet.
  destruct (validateRequest env req) as [response|[[durationInMs startDate] bannerUrl]]
    eqn:Hv.
  { exfalso. cbn in Hcode. unfold validateRequest, bad in Hv.
    repeat match type of Hv with
    | (if ?b then _ else _) = _ => destruct b
    | match ?x with _ => _ end = _ => destruct x
    end; try discriminate; injection Hv as <-; discriminate. }
  destruct (normalizePrizes _ _) as [e|normalizedPrizes] eqn:Hn; [discriminate|].
  destruct (totalPrizePool _ _) as [e|pool] eqn:Hp; [discriminate|].
  destruct (Num.gtb _ pool) eqn:Hfee; [discriminate|].
  rewrite Hwallet, String.eqb_refl in Hcode. rewrite Hwallet, String.eqb_refl.
  unfold fundFromWallet in *.
  destruct (Db.users db !! CreateRequest.userId req) as [user|] eqn:Hu; [|discriminate].
  destruct (Num.ltb (User.walletBalance user) pool) eqn:Hlt; [discriminate|].
  unfold persistTournament in *.
  match type of Hcode with context [Env.tournamentCreate env ?i] =>
    set (input := i) in * end.
  destruct (Env.tournamentCreate env input) as [e|[tournamentId tournament]] eqn:Hc;
    [discriminate|].
  exists normalizedPrizes, pool, user, input, tournamentId, tournament.
  rewrite Hwallet, String.eqb_refl. cbn [andb].
  repeat split; try done.
  - cbn [fst snd Db.users Db.set_users].
    destruct (Env.fundingRecordRejected env);
      cbn [negb Db.users Db.set_users Db.add_transaction Db.set_tournaments];
      rewrite lookup_alter, decide_True, lookup_insert_eq by done; reflexivity.
  - destruct (Env.fundingRecordRejected env); reflexivity.
  - destruct (Env.fundingRecordRejected env); cbn; [by rewrite app_nil_r|].
    rewrite map_app. reflexivity.
Qed.

Lemma created_tournament_is_funded_witness :
  let env := Example.env 0 in
  let req := Example.createRequest in
  let db := Example.db active [] in
  Response.code (createTournament env req db).1.1 = 201
  /\ CreateRequest.fundingMethod req = "wallet"
  /\ exists normalizedPrizes pool user input tournamentId tournament,
    normalizePrizes (CreateRequest.prizeType req) (CreateRequest.prizes req)
      = inr normalizedPrizes
    /\ totalPrizePool (CreateRequest.prizeType req) normalizedPrizes = inr pool
    /\ Num.gtb (Js.parseFloatOrZero (CreateRequest.entryFee req)) pool = false
    /\ Db.users db !! CreateRequest.userId req = Some user
    /\ Num.ltb (User.walletBalance user) pool = false
    /\ Env.tournamentCreate env input = inr (tournamentId, tournament)
    /\ TournamentInput.prizes input = normalizedPrizes
    /\ Db.users (createTournament env req db).1.2 !! CreateRequest.userId req
       = Some (User.make (User.fullName user)
                 (Num.sub (User.walletBalance user) pool)
                 (User.createdTournaments user ++ [tournamentId])%list)
    /\ Db.tournaments (createTournament env req db).1.2
       = <[tournamentId := tournament]> (Db.tournaments db)
    /\ map (fun x => (Transaction.type x, Transaction.user x, Transaction.amount x))
         (Db.transactions (createTournament env req db).1.2)
       = (map (fun x => (Transaction.type x, Transaction.user x, Transaction.amount x))
              (Db.transactions db)
          ++ if Env.fundingRecordRejected env then []
             else [("tournament_funding", CreateRequest.userId req, pool)])%list.
Proof.
  intros env req db.
  assert (Response.code (createTournament env req db).1.1 = 201) as H1
    by (vm_compute; reflexivity).
  split; [exact H1|]. split; [reflexivity|].
  exact (created_tournament_is_funded env req db H1 eq_refl).
Defined.

(** ** calculatePrizeDistribution *)

Lemma insertByPosition_perm r sorted : insertByPosition r sorted ≡ₚ r :: sorted.
Proof.
  induction sorted as [|s rest IH]; [reflexivity|]. cbn.
  destruct (Result.position r <=? Result.position s); [reflexivity|].
  rewrite IH. apply Permutation_swap.
Qed.

Lemma sortByPosition_perm results : sortByPosition results ≡ₚ results.
Proof.
  induction results as [|r rest IH]; [reflexivity|].
  cbn [sortByPosition fold_right]. fold (sortByPosition rest).
  rewrite insertByPosition_perm, IH. reflexivity.
Qed.

Lemma insertByPosition_sorted r sorted :
  StronglySorted (fun a b => Result.position a <= Result.position b) sorted ->
  StronglySorted (fun a b => Result.position a <= Result.position b)
    (insertByPosition r sorted).
Proof.
  induction 1 as [|s rest Hs IH Hall]; cbn.
  - repeat constructor.
  - destruct (Z.leb_spec (Result.position r) (Result.position s)).
    + constructor; [by constructor|]. constructor; [done|].
      eapply Forall_impl; [exact Hall|]. cbn. intros; lia.
    + constructor; [exact IH|].
      rewrite insertByPosition_perm. constructor; [lia|exact Hall].
Qed.

Lemma insertByPosition_filter (p : Z) r sorted :
  List.filter (fun x => Result.position x =? p) (insertByPosition r sorted)
  = List.filter (fun x => Result.position x =? p) (r :: sorted).
Proof.
  induction sorted as [|s rest IH]; [reflexivity|]. cbn [insertByPosition].
  destruct (Z.leb_spec (Result.position r) (Result.position s)); [reflexivity|].
  cbn [List.filter] in *. rewrite IH.
  destruct (Z.eqb_spec (Result.position s) p), (Z.eqb_spec (Result.position r) p);
    try reflexivity. lia.
Qed.

(** X5.  The results are ranked by a stable sort: the sorted list holds
    the submitted results, each as often as submitted, in ascending order
    of their position, and results of equal position stay in the order in
    which they were submitted. *)
Theorem sortByPosition_is_a_stable_sort results :
  sortByPosition results ≡ₚ results
  /\ StronglySorted (fun a b => Result.position a <= Result.position b)
       (sortByPosition results)
  /\ forall p,
       List.filter (fun x => Result.position x =? p) (sortByPosition results)
       = List.filter (fun x => Result.position x =? p) results.
Proof.
  split; [apply sortByPosition_perm|]. split.
  - induction results as [|r rest IH]; [constructor|].
    apply insertByPosition_sorted, IH.
  - intros p. induction results as [|r rest IH]; [reflexivity|].
    cbn [sortByPosition fold_right]. fold (sortByPosition rest).
    rewrite insertByPosition_filter. cbn [List.filter]. rewrite IH. reflexivity.
Qed.

Lemma lookup_sorted_userId results i result :
  sortByPosition results !! i = Some result ->
  Result.userId result ∈ map Result.userId results.
Proof.
  intros H. apply list_elem_of_lookup_2 in H.
  rewrite sortByPosition_perm in H. by apply list_elem_of_fmap_2.
Qed.

Lemma find_sorted_userId (f : Result.t -> bool) results result :
  find f (sortByPosition results) = Some result ->
  Result.userId result ∈ map Result.userId results.
Proof.
  intros H. apply find_some in H as [H _]. apply list_elem_of_In in H.
  rewrite sortByPosition_perm in H. by apply list_elem_of_fmap_2.
Qed.

Lemma specialLines_inv s sorted lines :
  specialLines s sorted = inr lines ->
  Forall (fun line =>
            Payout.position line = 1
            /\ Some (Payout.userId line) = Result.userId <$> head sorted)
         lines.
Proof.
  unfold specialLines, res_bind.
  generalize (Special.specialPrizes s). intros prizes. revert lines.
  induction prizes as [|sp prizes IH]; intros lines H.
  - cbn in H. injection H as <-. constructor.
  - cbn [res_map] in H. unfold res_bind in H.
    match type of H with context [if ?b then _ else _] => destruct b end.
    + destruct sorted as [|first rest]; [discriminate|].
      destruct (res_map _ prizes) as [e|ls] eqn:Hm; [discriminate|].
      injection H as <-. cbn. constructor; [done|]. apply IH. reflexivity.
    + destruct (res_map _ prizes) as [e|ls] eqn:Hm; [discriminate|].
      injection H as <-. cbn. apply IH. reflexivity.
Qed.

(** X6.  Whatever the prize type, every line that the calculator returns
    goes to a user named in the submitted results. *)
Theorem payout_lines_go_to_ranked_users tournament results lines :
  calculatePrizeDistribution tournament results = inr lines ->
  Forall (fun line => Payout.userId line ∈ map Result.userId results) lines.
Proof.
  unfold calculatePrizeDistribution. intros H.
  destruct (Tournament.prizeType tournament).
  - assert (forall amounts,
              Forall (fun line => Payout.userId line ∈ map Result.userId results)
                (fixedStandardLines amounts (sortByPosition results))) as Hstd.
    { intros amounts. apply Forall_forall. intros line Hin.
      apply list_elem_of_omap in Hin as (i & _ & Hi).
      destruct (sortByPosition results !! i) as [result|] eqn:Hr; [|discriminate].
      cbn zeta in Hi. destruct (Num.gtb _ _); [|discriminate]. injection Hi as <-. cbn.
      eapply lookup_sorted_userId, Hr. }
    destruct (Prizes.fixed (Tournament.prizes tournament)) as [fixedPrizes|];
      injection H as <-; [|apply Hstd].
    apply Forall_app. split; [apply Hstd|].
    apply Forall_forall. intros line Hin.
    apply list_elem_of_omap in Hin as (ap & _ & Hi).
    destruct (find _ _) as [result|] eqn:Hr; [|discriminate].
    destruct (Num.gtb _ _); [|discriminate]. injection Hi as <-. cbn.
    eapply find_sorted_userId, Hr.
  - destruct (Prizes.percentage (Tournament.prizes tournament)) as [p|];
      [|discriminate]. injection H as <-.
    apply Forall_forall. intros line Hin.
    apply list_elem_of_omap in Hin as (i & _ & Hi).
    destruct (sortByPosition results !! i) as [result|] eqn:Hr; [|discriminate].
    cbn zeta in Hi. destruct (Num.gtb _ _); [|discriminate]. injection Hi as <-. cbn.
    eapply lookup_sorted_userId, Hr.
  - destruct (Prizes.special (Tournament.prizes tournament)) as [s|];
      [|discriminate].
    apply specialLines_inv in H. eapply Forall_impl; [exact H|].
    intros line [_ Hu]. cbn in Hu.
    destruct (sortByPosition results) as [|first rest] eqn:Hs; [discriminate|].
    cbn in Hu. injection Hu as ->.
    eapply (lookup_sorted_userId results 0). rewrite Hs. reflexivity.
Qed.

Lemma payout_lines_go_to_ranked_users_witness :
  let tournament := Example.tournament completed Example.sixAmounts in
  calculatePrizeDistribution tournament Example.sixResults
    = inr (Sample.linesOf tournament Example.sixResults)
  /\ Forall (fun line => Payout.userId line ∈ map Result.userId Example.sixResults)
       (Sample.linesOf tournament Example.sixResults).
Proof.
  intros tournament.
  assert (calculatePrizeDistribution tournament Example.sixResults
          = inr (Sample.linesOf tournament Example.sixResults)) as H
    by (vm_compute; reflexivity).
  split; [exact H|].
  exact (payout_lines_go_to_ranked_users tournament Example.sixResults _ H).
Defined.

(** X7.  Under the special prize type every line goes, with position 1,
    to the first of the sorted results: the category of a special prize
    plays no part in choosing its winner. *)
Theorem special_prizes_go_to_first_place tournament results lines :
  Tournament.prizeType tournament = special ->
  calculatePrizeDistribution tournament results = inr lines ->
  Forall (fun line =>
            Payout.position line = 1
            /\ Some (Payout.userId line)
               = Result.userId <$> head (sortByPosition results))
         lines.
Proof.
  unfold calculatePrizeDistribution. intros Hsp H. rewrite Hsp in H.
  destruct (Prizes.special (Tournament.prizes tournament)) as [s|]; [|discriminate].
  by apply (specialLines_inv s).
Qed.

Lemma special_prizes_go_to_first_place_witness :
  Tournament.prizeType Sample.specialTournament = special
  /\ calculatePrizeDistribution Sample.specialTournament Sample.twoResults
     = inr (Sample.linesOf Sample.specialTournament Sample.twoResults)
  /\ Forall (fun line =>
               Payout.position line = 1
               /\ Some (Payout.userId line)
                  = Result.userId <$> head (sortByPosition Sample.twoResults))
       (Sample.linesOf Sample.specialTournament Sample.twoResults).
Proof.
  assert (calculatePrizeDistribution Sample.specialTournament Sample.twoResults
          = inr (Sample.linesOf Sample.specialTournament Sample.twoResults)) as H
    by (vm_compute; reflexivity).
  split; [reflexivity|]. split; [exact H|].
  exact (special_prizes_go_to_first_place Sample.specialTournament Sample.twoResults _
           eq_refl H).
Defined.

Example special_lines :
  Sample.linesOf Sample.specialTournament Sample.twoResults
  = [Payout.make "alice" 1 (Fin 100) (Some "Best Game");
     Payout.make "alice" 1 (Fin 100) (Some "Biggest Upset")].
Proof. vm_compute. reflexivity. Qed.

(** X8.  Under the fixed prize type every line carries an amount above
    zero, and there are at most five standard lines and one line for each
    additional prize. *)
Theorem fixed_lines_are_positive_and_bounded tournament fixedPrizes results lines :
  Tournament.prizeType tournament = fixed ->
  Prizes.fixed (Tournament.prizes tournament) = Some fixedPrizes ->
  calculatePrizeDistribution tournament results = inr lines ->
  Forall (fun line => Num.gtb (Payout.amount line) Num.zero = true) lines
  /\ (length lines <= 5 + length (Fixed.additional fixedPrizes))%nat.
Proof.
  unfold calculatePrizeDistribution. intros Hf Hp H. rewrite Hf, Hp in H.
  injection H as <-. split.
  - apply Forall_app. split; apply Forall_forall; intros line Hin.
    + apply list_elem_of_omap in Hin as (i & _ & Hi).
      destruct (sortByPosition results !! i) as [result|]; [|discriminate].
      cbn zeta in Hi. destruct (Num.gtb _ _) eqn:Hg; [|discriminate].
      injection Hi as <-. exact Hg.
    + apply list_elem_of_omap in Hin as (ap & _ & Hi).
      destruct (find _ _) as [result|]; [|discriminate].
      destruct (Num.gtb _ _) eqn:Hg; [|discriminate]. injection Hi as <-. exact Hg.
  - rewrite length_app. unfold fixedStandardLines, fixedAdditionalLines.
    pose proof (length_omap_le :=
      fun (A B : Type) (f : A -> option B) (l : list A) =>
        ltac:(induction l as [|x l IH]; cbn; [lia|destruct (f x); cbn; lia])
        : (length (omap f l) <= length l)%nat).
    match goal with |- (length (omap ?f ?l) + length (omap ?g ?m) <= _)%nat =>
      pose proof (length_omap_le _ _ f l); pose proof (length_omap_le _ _ g m) end.
    rewrite length_seq in *. lia.
Qed.

Lemma fixed_lines_are_positive_and_bounded_witness :
  let tournament := Example.tournament completed Example.sixAmounts in
  let fixedPrizes := Fixed.make Example.sixAmounts [] in
  Tournament.prizeType tournament = fixed
  /\ Prizes.fixed (Tournament.prizes tournament) = Some fixedPrizes
  /\ calculatePrizeDistribution tournament Example.sixResults
     = inr (Sample.linesOf tournament Example.sixResults)
  /\ Forall (fun line => Num.gtb (Payout.amount line) Num.zero = true)
       (Sample.linesOf tournament Example.sixResults)
  /\ (length (Sample.linesOf tournament Example.sixResults)
      <= 5 + length (Fixed.additional fixedPrizes))%nat.
Proof.
  intros tournament fixedPrizes.
  assert (calculatePrizeDistribution tournament Example.sixResults
          = inr (Sample.linesOf tournament Example.sixResults)) as H
    by (vm_compute; reflexivity).
  split; [reflexivity|]. split; [reflexivity|]. split; [exact H|].
  exact (fixed_lines_are_positive_and_bounded tournament fixedPrizes Example.sixResults _
           eq_refl eq_refl H).
Defined.

(** ** submitTournamentResults *)

Lemma forEach_payPrize_postings env tid lines : forall db,
  map posting (Db.transactions (forEach (payPrize env tid) lines db).2)
  = (map posting (Db.transactions db)
     ++ map (fun line => ("tournament_prize", Payout.userId line, tid, Payout.amount line))
            (paidLines lines))%list.
Proof.
  induction lines as [|line lines IH]; intros db.
  - cbn. by rewrite app_nil_r.
  - cbn [forEach]. unfold bind at 1.
    destruct (payPrize_run env tid line db) as (d1 & -> & Hl).
    rewrite IH. cbn [paidLines List.filter].
    destruct (Num.gtb (Payout.amount line) Num.zero);
      unfold ledger in Hl; injection Hl as _ _ ->; [|done].
    rewrite map_app, <- app_assoc. reflexivity.
Qed.

(** X9.  Result submission by the organizer, whenever the calculator yields
    lines: the answer is 200 with those lines, the balances are those after
    every line is paid, the tournament is stored completed with the sorted
    results, no other tournament is touched, and the ledger grows by one
    [tournament_prize] entry for each line of an amount above zero, in
    order.  Neither the status of the tournament nor its participants are
    consulted. *)
Theorem results_submission_outcome env tid db tournament result results lines :
  Db.tournaments db !! tid = Some tournament ->
  calculatePrizeDistribution tournament (result :: results) = inr lines ->
  let run :=
    submitTournamentResults env tid (Tournament.organizer tournament)
      (Some (result :: results)) db in
  run.1 = Response.make 200 (Submitted lines)
  /\ Db.users run.2 = payUsers (Db.users db) lines
  /\ Tournament.status <$> Db.tournaments run.2 !! tid = Some completed
  /\ Tournament.results <$> Db.tournaments run.2 !! tid
     = Some (sortByPosition (result :: results))
  /\ (forall other, other <> tid ->
        Db.tournaments run.2 !! other = Db.tournaments db !! other)
  /\ map posting (Db.transactions run.2)
     = (map posting (Db.transactions db)
        ++ map (fun line =>
                  ("tournament_prize", Payout.userId line, tid, Payout.amount line))
               (paidLines lines))%list.
Proof.
  intros Ht Hcalc run.
  assert (run = (Response.make 200 (Submitted lines),
                 (saveResults tid (result :: results)
                    (forEach (payPrize env tid) lines db).2).2)) as ->.
  { subst run. unfold submitTournamentResults, catchAll.
    rewrite Ht, String.eqb_refl. cbn [negb]. unfold bind at 1, lift. rewrite Hcalc.
    unfold bind at 1.
    destruct (forEach_payPrize_users env tid lines db) as (d1 & -> & _).
    reflexivity. }
  pose proof (forEach_payPrize_postings env tid lines db) as Hp.
  destruct (forEach_payPrize_users env tid lines db) as (d1 & Hrun & Hu & Htn).
  rewrite Hrun in Hp |- *. cbn [fst snd] in Hp |- *.
  unfold saveResults, modify. cbn [fst snd Db.users Db.tournaments Db.transactions
    Db.set_tournaments].
  split; [reflexivity|]. split; [exact Hu|]. rewrite Htn.
  split; [by rewrite lookup_alter_eq, Ht|]. split; [by rewrite lookup_alter_eq, Ht|].
  split; [|exact Hp]. intros other Hne. by rewrite lookup_alter_ne.
Qed.

Lemma results_submission_outcome_witness :
  let db := Example.db upcoming Example.sixAmounts in
  let tournament := Example.tournament upcoming Example.sixAmounts in
  let lines := Sample.linesOf tournament Sample.twoResults in
  let run := submitTournamentResults (Example.env 0) "t1" (Tournament.organizer tournament)
               (Some Sample.twoResults) db in
  Db.tournaments db !! "t1" = Some tournament
  /\ calculatePrizeDistribution tournament Sample.twoResults = inr lines
  /\ run.1 = Response.make 200 (Submitted lines)
  /\ Db.users run.2 = payUsers (Db.users db) lines
  /\ Tournament.status <$> Db.tournaments run.2 !! "t1" = Some completed
  /\ Tournament.results <$> Db.tournaments run.2 !! "t1"
     = Some (sortByPosition Sample.twoResults)
  /\ (forall other, other <> "t1" ->
        Db.tournaments run.2 !! other = Db.tournaments db !! other)
  /\ map posting (Db.transactions run.2)
     = (map posting (Db.transactions db)
        ++ map (fun line =>
                  ("tournament_prize", Payout.userId line, "t1", Payout.amount line))
               (paidLines lines))%list.
Proof.
  intros db tournament lines run.
  assert (Db.tournaments db !! "t1" = Some tournament) as H1 by (vm_compute; reflexivity).
  assert (calculatePrizeDistribution tournament Sample.twoResults = inr lines) as H2
    by (vm_compute; reflexivity).
  split; [exact H1|]. split; [exact H2|].
  exact (results_submission_outcome (Example.env 0) "t1" db tournament _ _ lines H1 H2).
Defined.

(** ** distributeTournamentPrizes *)

(** X10.  A distribution that answers 200 names in its response one winner
    for each entry of the request, in the order of the request, with the
    total of their amounts; the ledger grows by one completed
    [prize_payout] entry for each winner, nothing else of it changes, and
    the tournament is marked as distributed at the time of the request by
    the caller. *)
Theorem distribution_outcome env tid uid entries db resp db1 :
  distributeTournamentPrizes env tid uid entries db = (resp, db1) ->
  Response.code resp = 200 ->
  exists tournament prizeDistribution winners,
    Db.tournaments db !! tid = Some tournament
    /\ entries = Some prizeDistribution
    /\ Forall2 (lineOf tournament) prizeDistribution (map winnerLine winners)
    /\ resp = Response.make 200
                (Distributed (fold_left Num.add (map Winner.amount winners) Num.zero)
                   winners)
    /\ Db.transactions db1
       = (Db.transactions db
          ++ map (payoutTransaction env tid) (map winnerLine winners))%list
    /\ Db.tournaments db1
       = <[tid := Tournament.set_metadata
                    (Metadata.make true (Some (Env.now env)) (Some uid)) tournament]>
           (Db.tournaments db).
Proof.
  intros H Hcode.
  destruct (distribute_success_inv _ _ _ _ _ _ _ H Hcode)
    as (prizeDistribution & tournament & lines & total & winners & dbm
        & -> & _ & Ht & _ & _ & _ & _ & Hcalc & Hm & -> & ->).
  pose proof (mapM_creditWinner_winners _ _ _ _ _ _ Hm) as Hw.
  destruct (mapM_creditWinner _ _ _ _ _ _ Hm) as (_ & Htn & Htx & _).
  destruct (calculatePrizes_lines _ _ _ _ _ _ Hcalc) as (new & Hnew & Hlines).
  destruct (calculatePrizes_total _ _ _ _ _ _ Hcalc) as (new' & Hnew' & ->).
  cbn in Hnew, Hnew'. subst new new'.
  exists tournament, prizeDistribution, winners. rewrite Hw.
  split; [exact Ht|]. split; [reflexivity|]. split; [exact Hlines|].
  split; [|split].
  - do 2 f_equal. rewrite <- Hw, map_map. reflexivity.
  - cbn. exact Htx.
  - cbn. rewrite Htn. apply map_eq. intros i. rewrite lookup_alter.
    destruct (decide (tid = i)) as [<-|Hne].
    + by rewrite lookup_insert_eq, Ht.
    + by rewrite lookup_insert_ne.
Qed.

Lemma distribution_outcome_witness :
  let db := Example.db completed [Fin 1000] in
  let env := Example.env 0 in
  let run := distributeTournamentPrizes env "t1" "org" Example.firstToAlice db in
  distributeTournamentPrizes env "t1" "org" Example.firstToAlice db = (run.1, run.2)
  /\ Response.code run.1 = 200
  /\ exists tournament prizeDistribution winners,
    Db.tournaments db !! "t1" = Some tournament
    /\ Example.firstToAlice = Some prizeDistribution
    /\ Forall2 (lineOf tournament) prizeDistribution (map winnerLine winners)
    /\ run.1 = Response.make 200
                (Distributed (fold_left Num.add (map Winner.amount winners) Num.zero)
                   winners)
    /\ Db.transactions run.2
       = (Db.transactions db
          ++ map (payoutTransaction env "t1") (map winnerLine winners))%list
    /\ Db.tournaments run.2
       = <["t1" := Tournament.set_metadata
                    (Metadata.make true (Some (Env.now env)) (Some "org")) tournament]>
           (Db.tournaments db).
Proof.
  intros db env run.
  assert (distributeTournamentPrizes env "t1" "org" Example.firstToAlice db
          = (run.1, run.2)) as H1 by (vm_compute; reflexivity).
  assert (Response.code run.1 = 200) as H2 by (vm_compute; reflexivity).
  split; [exact H1|]. split; [exact H2|].
  exact (distribution_outcome env "t1" "org" Example.firstToAlice db run.1 run.2 H1 H2).
Defined.

(** X11.  A distribution that does not answer 200 leaves every balance,
    every tournament and the ledger as they were: each guard answers before
    the first write, and an error inside the session aborts it. *)
Theorem refused_distribution_changes_no_ledger env tid uid entries db :
  Response.code (distributeTournamentPrizes env tid uid entries db).1 <> 200 ->
  ledger (distributeTournamentPrizes env tid uid entries db).2 = ledger db.
Proof.
  destruct (distributeTournamentPrizes env tid uid entries db) as [resp db1] eqn:H.
  cbn [fst snd]. intros Hcode.
  unfold distributeTournamentPrizes, catchAll in H.
  destruct entries as [[|entry entries]|].
  1,3: cbn in H; by injection H as <- <-.
  unfold bind at 1, get_db in H.
  destruct (Db.tournaments db !! tid) as [tournament|].
  2: { cbn in H. by injection H as <- <-. }
  destruct (negb (bool_decide (is_Some _))).
  { cbn in H. by injection H as <- <-. }
  destruct (negb (Tournament.organizer tournament =? uid)%string).
  { cbn in H. by injection H as <- <-. }
  destruct (negb (bool_decide _)).
  { cbn in H. by injection H as <- <-. }
  destruct (negb (length (existingPrizePayouts db tid) =? 0)%nat).
  { cbn in H. by injection H as <- <-. }
  match type of H with context [if negb (length ?l =? 0)%nat then _ else _] =>
    destruct (negb (length l =? 0)%nat) end.
  { cbn in H. by injection H as <- <-. }
  unfold bind at 1, lift in H.
  destruct (calculatePrizes tournament (entry :: entries) [] Num.zero)
    as [e|[response|[lines total]]].
  1,2: cbn in H; by injection H as <- <-.
  unfold distributionTransaction, inTransaction in H. unfold bind at 1 in H.
  destruct (mapM (creditWinner env tid) lines db) as [[e|winners] dbm].
  { by injection H as <- <-. }
  unfold bind, ret, markDistributed, modify in H. injection H as <- <-.
  exfalso. apply Hcode. reflexivity.
Qed.

Lemma refused_distribution_changes_no_ledger_witness :
  let db := Example.db active [Fin 1000] in
  Response.code
    (distributeTournamentPrizes (Example.env 0) "t1" "org" Example.firstToAlice db).1
    <> 200
  /\ ledger (distributeTournamentPrizes (Example.env 0) "t1" "org"
               Example.firstToAlice db).2
     = ledger db.
Proof.
  intros db.
  assert (Response.code
            (distributeTournamentPrizes (Example.env 0) "t1" "org"
               Example.firstToAlice db).1 <> 200) as H by (vm_compute; lia).
  split; [exact H|].
  exact (refused_distribution_changes_no_ledger (Example.env 0) "t1" "org"
           Example.firstToAlice db H).
Defined.



(** X13.  For a fixed schedule, an entry without a custom amount whose
    position label reads, once everything but its digits is removed, as the
    rank [n] gets [amounts[n - 1]] whenever that amount is above zero, for
    every rank [n] from 1 on: the cap at five ranks of the calculator of
    result submission does not apply to the distribution endpoint. *)
Theorem fixed_schedule_reads_any_rank tournament fixedPrizes entry n amount :
  Tournament.prizeType tournament = fixed ->
  Prizes.fixed (Tournament.prizes tournament) = Some fixedPrizes ->
  PrizeEntry.customAmount entry = None ->
  Str.parseInt10 (Str.digitsOnly (PrizeEntry.position entry)) = Some n ->
  1 <= n ->
  Fixed.amounts fixedPrizes !! Z.to_nat (n - 1) = Some amount ->
  Num.gtb amount Num.zero = true ->
  prizeAmount tournament entry = inr amount.
Proof.
  intros Hf Hp Hc Hn Hge Ha Hg.
  unfold prizeAmount, scheduleAmount, usesCustomAmount, fixedAmountFor.
  rewrite Hf, Hp, Hc, Hn. cbn zeta.
  destruct (Z.leb_spec 1 n); [|lia]. unfold amountAt. rewrite Ha.
  cbn [default from_option id]. rewrite (or_zero_positive _ Hg), Hg. reflexivity.
Qed.

Lemma fixed_schedule_reads_any_rank_witness :
  let tournament := Example.tournament completed Example.sixAmounts in
  let entry := PrizeEntry.make "bob" "6th" None in
  Tournament.prizeType tournament = fixed
  /\ Prizes.fixed (Tournament.prizes tournament) = Some (Fixed.make Example.sixAmounts [])
  /\ PrizeEntry.customAmount entry = None
  /\ Str.parseInt10 (Str.digitsOnly (PrizeEntry.position entry)) = Some 6
  /\ 1 <= 6
  /\ Fixed.amounts (Fixed.make Example.sixAmounts []) !! Z.to_nat (6 - 1) = Some (Fin 100)
  /\ Num.gtb (Fin 100) Num.zero = true
  /\ prizeAmount tournament entry = inr (Fin 100).
Proof.
  intros tournament entry.
  assert (1 <= 6) as H by lia.
  split; [reflexivity|]. split; [reflexivity|]. split; [reflexivity|].
  split; [reflexivity|]. split; [exact H|]. split; [reflexivity|]. split; [reflexivity|].
  exact (fixed_schedule_reads_any_rank tournament (Fixed.make Example.sixAmounts []) entry
           6 (Fin 100) eq_refl eq_refl eq_refl eq_refl H eq_refl eq_refl).
Defined.

Example sixth_place_in_both_paths :
  let tournament := Example.tournament completed Example.sixAmounts in
  length (Sample.linesOf tournament Example.sixResults) = 5%nat
  /\ prizeAmount tournament (PrizeEntry.make "frank" "6th" None) = inr (Fin 100).
Proof. split; vm_compute; reflexivity. Qed.

(** ** The organizer's endpoints *)

(** X14.  Result submission, prize distribution and the status update
    leave the database as it is when the caller is not the organizer of
    the tournament; result submission and the status update answer 403,
    and distribution does not answer 200. *)
Theorem only_the_organizer_changes_a_tournament
    env tid uid db tournament results entries status :
  Db.tournaments db !! tid = Some tournament ->
  Tournament.organizer tournament <> uid ->
  let submitted := submitTournamentResults env tid uid results db in
  let distributed := distributeTournamentPrizes env tid uid entries db in
  let updated := updateTournamentStatus tid uid status db in
  (Response.code submitted.1 = 403 /\ submitted.2 = db)
  /\ (Response.code distributed.1 <> 200 /\ distributed.2 = db)
  /\ (Response.code updated.1 = 403 /\ updated.2 = db).
Proof.
  intros Ht Hne. apply String.eqb_neq in Hne. cbn zeta.
  unfold submitTournamentResults, updateTournamentStatus. rewrite Ht, Hne. cbn [negb].
  split; [done|]. split; [|done].
  destruct (distributeTournamentPrizes env tid uid entries db) as [resp db1] eqn:H.
  unfold distributeTournamentPrizes, catchAll in H.
  destruct entries as [[|entry entries]|].
  1,3: cbn in H; by injection H as <- <-.
  unfold bind at 1, get_db in H. rewrite Ht in H.
  destruct (negb (bool_decide (is_Some _))).
  { cbn in H. by injection H as <- <-. }
  rewrite Hne in H. cbn in H. by injection H as <- <-.
Qed.

Lemma only_the_organizer_changes_a_tournament_witness :
  let db := Example.db completed [Fin 1000] in
  let tournament := Example.tournament completed [Fin 1000] in
  let results := Some Sample.twoResults in
  let submitted := submitTournamentResults (Example.env 0) "t1" "alice" results db in
  let distributed :=
    distributeTournamentPrizes (Example.env 0) "t1" "alice" Example.firstToAlice db in
  let updated := updateTournamentStatus "t1" "alice" cancelled db in
  Db.tournaments db !! "t1" = Some tournament
  /\ Tournament.organizer tournament <> "alice"
  /\ (Response.code submitted.1 = 403 /\ submitted.2 = db)
  /\ (Response.code distributed.1 <> 200 /\ distributed.2 = db)
  /\ (Response.code updated.1 = 403 /\ updated.2 = db).
Proof.
  intros db tournament results submitted distributed updated.
  assert (Db.tournaments db !! "t1" = Some tournament) as H1 by (vm_compute; reflexivity).
  assert (Tournament.organizer tournament <> "alice") as H2 by discriminate.
  split; [exact H1|]. split; [exact H2|].
  exact (only_the_organizer_changes_a_tournament (Example.env 0) "t1" "alice" db
           tournament results Example.firstToAlice cancelled H1 H2).
Defined.

(** ** The reminder job *)

Lemma usersAmong_NoDup db userIds : NoDup (usersAmong db userIds).
Proof. apply NoDup_fst_map_to_list. Qed.

Lemma usersAmong_elem db userIds userId :
  userId ∈ usersAmong db userIds
  <-> is_Some (Db.users db !! userId) /\ userId ∈ userIds.
Proof.
  unfold usersAmong. rewrite list_elem_of_fmap. split.
  - intros ([k u] & -> & H).
    apply elem_of_map_to_list, map_lookup_filter_Some in H as [H1 H2]. eauto.
  - intros [[u Hu] Hin]. exists (userId, u). split; [done|].
    by apply elem_of_map_to_list, map_lookup_filter_Some.
Qed.

Lemma usersAmong_nil db : usersAmong db [] = [].
Proof.
  apply elem_of_nil_inv. intros userId H.
  apply usersAmong_elem in H as [_ H]. by apply elem_of_nil in H.
Qed.

Lemma usersAmong_same db db0 userIds :
  Db.users db = Db.users db0 -> usersAmong db userIds = usersAmong db0 userIds.
Proof. unfold usersAmong. by intros ->. Qed.

Lemma usersAmong_participants db t userId :
  userId ∈ usersAmong db (populateParticipants db t)
  <-> userId ∈ populateParticipants db t.
Proof.
  rewrite usersAmong_elem. split; [by intros [_ H]|]. intros H. split; [|exact H].
  unfold populateParticipants in H. by apply list_elem_of_filter in H as [H _].
Qed.

Lemma occurrences_NoDup userId (l : list string) :
  NoDup l ->
  occurrences userId l = if bool_decide (userId ∈ l) then 1%nat else 0%nat.
Proof.
  unfold occurrences. induction 1 as [|x l Hx _ IH]; [reflexivity|].
  cbn [List.filter]. destruct (String.eqb_spec userId x) as [<-|Hne].
  - cbn [length]. rewrite IH, (bool_decide_eq_false_2 _ Hx).
    rewrite bool_decide_eq_true_2; [reflexivity|left].
  - rewrite IH.
    rewrite (bool_decide_ext (userId ∈ x :: l) (userId ∈ l)); [reflexivity|].
    rewrite elem_of_cons. split; [intros [->|H]; [done|exact H]|by right].
Qed.

Lemma notifyStarting_run env tid db :
  exists r db' new,
    notifyTournamentStartingInFiveMinutes env tid db = (inr r, db')
    /\ ledger db' = ledger db
    /\ Db.notifications db' = (Db.notifications db ++ new)%list
    /\ (Db.tournaments db !! tid = None -> new = [])
    /\ forall t, Db.tournaments db !! tid = Some t ->
         let all := map (fun id => notificationFor env db id "tournament_reminder" tid)
                        (usersAmong db (populateParticipants db t)) in
         (new = [] \/ new = all)
         /\ ((forall id ns, Env.notificationRejected env id ns = false) -> new = all).
Proof.
  unfold notifyTournamentStartingInFiveMinutes, tryCatch, bind, get_db.
  destruct (Db.tournaments db !! tid) as [t|] eqn:Ht.
  2: { eexists _, _, []. split; [reflexivity|]. split; [reflexivity|].
       rewrite app_nil_r. split; [reflexivity|]. split; [done|]. intros t [=]. }
  destruct (populateParticipants db t) as [|p ps] eqn:Hp.
  { eexists _, _, []. split; [reflexivity|]. split; [reflexivity|].
    rewrite app_nil_r. split; [reflexivity|]. split; [done|].
    intros t' [= <-]. rewrite Hp, usersAmong_nil. cbn. auto. }
  unfold createBulkNotifications, tryCatch, bind, get_db, throw, modify, ret.
  destruct (existsb _ _) eqn:Hrej.
  { eexists _, _, []. split; [reflexivity|]. split; [reflexivity|].
    rewrite app_nil_r. split; [reflexivity|]. split; [done|].
    intros t' [= <-]. cbn zeta. split; [by left|].
    intros Hno. exfalso. apply existsb_exists in Hrej as (x & _ & Hx).
    rewrite Hno in Hx. discriminate. }
  eexists _, _, _. split; [reflexivity|]. split; [reflexivity|].
  split; [reflexivity|]. split; [discriminate|].
  intros t' [= <-]. rewrite Hp. cbn zeta. auto.
Qed.

Lemma remindIfStarting_run isStarting env now tid t db :
  exists db' new,
    remindIfStarting isStarting env now (tid, t) db = (inr tt, db')
    /\ Db.users db' = Db.users db /\ Db.transactions db' = Db.transactions db
    /\ Db.tournaments db'
       = (if isStarting t 5 now
          then alter (Tournament.set_fiveMinuteReminderSent true) tid (Db.tournaments db)
          else Db.tournaments db)
    /\ Db.notifications db' = (Db.notifications db ++ new)%list
    /\ (isStarting t 5 now = false -> new = [])
    /\ (Db.tournaments db !! tid = None -> new = [])
    /\ forall tc, Db.tournaments db !! tid = Some tc ->
         let all := map (fun id => notificationFor env db id "tournament_reminder" tid)
                        (usersAmong db (populateParticipants db tc)) in
         (new = [] \/ new = all)
         /\ ((forall id ns, Env.notificationRejected env id ns = false) ->
             isStarting t 5 now = true -> new = all).
Proof.
  unfold remindIfStarting, tryCatch. cbn [fst snd].
  destruct (isStarting t 5 now).
  2: { eexists _, []. split; [reflexivity|]. rewrite app_nil_r.
       repeat split; try done. by left. }
  unfold bind.
  destruct (notifyStarting_run env tid db)
    as (r & d1 & new & -> & Hl & Hn & Hnone & Hsome).
  unfold markReminderSent, modify. eexists _, new. split; [reflexivity|].
  unfold ledger in Hl. injection Hl as Hu Ht Hx. cbn. rewrite Hu, Ht, Hx.
  repeat split; try done.
  - by apply Hsome.
  - intros Hno _. by apply Hsome.
Qed.


Lemma received_app userId type tid db new :
  received userId type tid (Db.add_notifications new db)
  = (received userId type tid db
     + length (List.filter
                 (fun n => String.eqb (Notification.user n) userId
                           && String.eqb (Notification.type n) type
                           && String.eqb (Notification.relatedId n) tid) new))%nat.
Proof. unfold received. cbn. by rewrite List.filter_app, length_app. Qed.

Lemma received_eq userId type tid db db' :
  Db.notifications db' = Db.notifications db ->
  received userId type tid db' = received userId type tid db.
Proof. unfold received. by intros ->. Qed.

Lemma received_other userId type tid db db' new :
  Db.notifications db' = (Db.notifications db ++ new)%list ->
  Forall (fun n => Notification.relatedId n <> tid) new ->
  received userId type tid db' = received userId type tid db.
Proof.
  intros H Hall. unfold received. rewrite H, List.filter_app, length_app. clear H.
  replace (List.filter _ new) with (@nil Notification.t); [cbn; lia|].
  symmetry. induction Hall as [|n ns Hn _ IH]; [reflexivity|]. cbn.
  apply String.eqb_neq in Hn. rewrite Hn, andb_false_r. exact IH.
Qed.

Lemma received_reminders env db0 userId tid db db' ps :
  Db.notifications db'
  = (Db.notifications db
     ++ map (fun id => notificationFor env db0 id "tournament_reminder" tid) ps)%list ->
  received userId "tournament_reminder" tid db'
  = (received userId "tournament_reminder" tid db + occurrences userId ps)%nat.
Proof.
  intros H. unfold received, occurrences. rewrite H, List.filter_app, length_app.
  clear H. f_equal. induction ps as [|p ps IH]; [reflexivity|]. cbn [map List.filter].
  cbn [notificationFor Notification.user Notification.type Notification.relatedId].
  rewrite String.eqb_refl, (String.eqb_refl tid), !andb_true_r, (String.eqb_sym p).
  destruct (userId =? p)%string; cbn; by rewrite IH.
Qed.

Lemma occurrences_all_le userId type tid (ns : list Notification.t) ps env db0 :
  ns = [] \/ ns = map (fun id => notificationFor env db0 id type tid) ps ->
  (length (List.filter
             (fun n => String.eqb (Notification.user n) userId
                       && String.eqb (Notification.type n) type
                       && String.eqb (Notification.relatedId n) tid) ns)
   <= occurrences userId ps)%nat.
Proof.
  intros [->| ->]; [cbn; lia|]. unfold occurrences.
  induction ps as [|p ps IH]; [reflexivity|]. cbn [map List.filter].
  cbn [notificationFor Notification.user Notification.type Notification.relatedId].
  rewrite !String.eqb_refl, !andb_true_r, (String.eqb_sym p).
  destruct (userId =? p)%string; cbn; lia.
Qed.

Lemma populateParticipants_same db db0 t t0 :
  Db.users db = Db.users db0 ->
  Tournament.participants t = Tournament.participants t0 ->
  populateParticipants db t = populateParticipants db0 t0.
Proof. unfold populateParticipants. by intros -> ->. Qed.

Lemma notificationFor_same env db db0 id type tid :
  Db.users db = Db.users db0 ->
  notificationFor env db id type tid = notificationFor env db0 id type tid.
Proof. unfold notificationFor. by intros ->. Qed.

Lemma forEach_remind isStarting env now db0 userId tid' l :
  NoDup l.*1 ->
  forall db,
    Db.users db = Db.users db0 ->
    (forall e, e ∈ l ->
       exists tc, Db.tournaments db !! e.1 = Some tc
                  /\ Tournament.participants tc = Tournament.participants e.2) ->
    exists db',
      forEach (remindIfStarting isStarting env now) l db = (inr tt, db')
      /\ Db.users db' = Db.users db /\ Db.transactions db' = Db.transactions db
      /\ (forall tid,
            Db.tournaments db' !! tid
            = (if existsb (fun e => String.eqb e.1 tid && isStarting e.2 5 now) l
               then Tournament.set_fiveMinuteReminderSent true else id)
              <$> Db.tournaments db !! tid)
      /\ let bonus :=
           match find (fun e => String.eqb e.1 tid' && isStarting e.2 5 now) l with
           | Some e => occurrences userId (usersAmong db0 (populateParticipants db0 e.2))
           | None => 0%nat
           end in
         (received userId "tournament_reminder" tid' db
          <= received userId "tournament_reminder" tid' db'
          <= received userId "tournament_reminder" tid' db + bonus)%nat
         /\ ((forall id ns, Env.notificationRejected env id ns = false) ->
             received userId "tournament_reminder" tid' db'
             = (received userId "tournament_reminder" tid' db + bonus)%nat).
Proof.
  induction l as [|[tid t] l IH]; intros Hnd db Hu Hl.
  { exists db. split; [reflexivity|]. split; [done|]. split; [done|]. split.
    - intros tid. cbn. by destruct (Db.tournaments db !! tid).
    - cbn. split; lia. }
  apply NoDup_cons in Hnd as [Hfresh Hnd]. cbn [fst] in Hfresh.
  destruct (Hl (tid, t)) as (tc & Htc & Hpart); [left|]. cbn [fst snd] in Htc, Hpart.
  cbn [forEach]. unfold bind at 1.
  destruct (remindIfStarting_run isStarting env now tid t db)
    as (d1 & new & -> & Hu1 & Hx1 & Ht1 & Hn1 & Hquiet & _ & Hsome).
  specialize (Hsome tc Htc). cbn zeta in Hsome. destruct Hsome as [Hnew Hall].
  rewrite (populateParticipants_same db db0 tc t Hu Hpart) in Hnew, Hall.
  rewrite (usersAmong_same db db0 _ Hu) in Hnew, Hall.
  rewrite (map_ext _ _ (fun id => notificationFor_same env db db0 id _ tid Hu))
    in Hnew, Hall.
  destruct (IH Hnd d1) as (d2 & -> & Hu2 & Hx2 & Ht2 & Hr2 & Hr2').
  { congruence. }
  { intros e He. destruct (Hl e) as (tc' & Htc' & Hp'); [by right|].
    rewrite Ht1. destruct (isStarting t 5 now); [|eauto].
    rewrite lookup_alter. destruct (decide (tid = e.1)) as [->|]; [|eauto].
    rewrite Htc'. eexists. split; [reflexivity|]. exact Hp'. }
  exists d2. split; [reflexivity|]. split; [congruence|]. split; [congruence|]. split.
  - intros tid0. rewrite Ht2, Ht1. cbn [existsb fst snd].
    destruct (String.eqb_spec tid tid0) as [->|Hne]; cbn [andb orb].
    + destruct (isStarting t 5 now); cbn [orb].
      * rewrite lookup_alter_eq. destruct (Db.tournaments db !! tid0); [|by destruct (existsb _ _)].
        cbn. by destruct (existsb _ _).
      * reflexivity.
    + destruct (isStarting t 5 now); [|reflexivity]. by rewrite lookup_alter_ne.
  - cbn [find fst snd].
    destruct (String.eqb_spec tid tid') as [->|Hne]; cbn [andb].
    + assert (find (fun e => String.eqb e.1 tid' && isStarting e.2 5 now) l = None) as Hnone.
      { destruct (find _ l) as [e|] eqn:Hf; [|reflexivity]. exfalso.
        apply find_some in Hf as [He Hk]. apply andb_prop in Hk as [Hk _].
        apply String.eqb_eq in Hk. apply Hfresh, list_elem_of_fmap.
        exists e. split; [by symmetry|]. by apply list_elem_of_In. }
      rewrite Hnone in Hr2, Hr2'. cbn zeta in Hr2, Hr2'. rewrite Nat.add_0_r in *.
      destruct (isStarting t 5 now) eqn:Hs.
      * cbn zeta. cbn [fst snd]. split.
        -- destruct Hnew as [->| ->].
           ++ rewrite app_nil_r in Hn1. rewrite (received_eq _ _ _ db d1 Hn1) in Hr2.
              destruct Hr2 as [Ha Hb]. split; [exact Ha|]. etransitivity; [exact Hb|].
              apply Nat.le_add_r.
           ++ rewrite (received_reminders env db0 _ _ db d1 _ Hn1) in Hr2. lia.
        -- intros Hno. rewrite (Hr2' Hno). rewrite (Hall Hno eq_refl) in Hn1.
           by rewrite (received_reminders env db0 _ _ db d1 _ Hn1).
      * rewrite Hnone. cbn zeta. rewrite (Hquiet eq_refl), app_nil_r in Hn1.
        rewrite (received_eq _ _ _ db d1 Hn1) in Hr2, Hr2'. rewrite Nat.add_0_r.
        split; [lia|]. intros Hno. by apply Hr2'.
    + assert (received userId "tournament_reminder" tid' d1
              = received userId "tournament_reminder" tid' db) as Hsame.
      { destruct Hnew as [->| ->].
        - rewrite app_nil_r in Hn1. by apply received_eq.
        - eapply received_other; [exact Hn1|]. apply Forall_forall. intros n Hn.
          apply list_elem_of_fmap in Hn as (id & -> & _). exact Hne. }
      rewrite Hsame in Hr2, Hr2'. auto.
Qed.

Lemma upcomingTournaments_elem db tid t :
  (tid, t) ∈ upcomingTournaments db
  <-> Db.tournaments db !! tid = Some t /\ awaitsReminder t = true.
Proof.
  unfold upcomingTournaments. rewrite elem_of_map_to_list, map_lookup_filter_Some.
  reflexivity.
Qed.

Lemma upcomingTournaments_find (isStarting : Tournament.t -> Z -> Z -> bool) now db tid t :
  Db.tournaments db !! tid = Some t ->
  find (fun e => String.eqb e.1 tid && isStarting e.2 5 now) (upcomingTournaments db)
  = if awaitsReminder t && isStarting t 5 now then Some (tid, t) else None.
Proof.
  intros Ht.
  destruct (find _ _) as [[id t']|] eqn:Hf.
  - apply find_some in Hf as [Hin Hp]. cbn [fst snd] in Hp.
    apply andb_prop in Hp as [Hid Hs]. apply String.eqb_eq in Hid as ->.
    apply list_elem_of_In, upcomingTournaments_elem in Hin as [Ht' Ha].
    rewrite Ht in Ht'. injection Ht' as <-. by rewrite Ha, Hs.
  - destruct (awaitsReminder t && isStarting t 5 now) eqn:Hb; [|reflexivity].
    apply andb_prop in Hb as [Ha Hs]. exfalso.
    assert (In (tid, t) (upcomingTournaments db)) as Hin
      by by apply list_elem_of_In, upcomingTournaments_elem.
    pose proof (find_none _ _ Hf _ Hin) as Hp. cbn [fst snd] in Hp.
    by rewrite String.eqb_refl, Hs in Hp.
Qed.

Lemma find_existsb {A : Type} (p : A -> bool) (l : list A) :
  existsb p l = bool_decide (is_Some (find p l)).
Proof.
  induction l as [|x l IH]; [reflexivity|]. cbn. destruct (p x); [|exact IH].
  symmetry. apply bool_decide_eq_true. eauto.
Qed.

Lemma reminderJob_run isStarting env now db userId tid' :
  exists db',
    reminderJob isStarting env now db = (inr tt, db')
    /\ Db.users db' = Db.users db /\ Db.transactions db' = Db.transactions db
    /\ Db.tournaments db' = afterReminderJob isStarting now <$> Db.tournaments db
    /\ let bonus :=
         match find (fun e => String.eqb e.1 tid' && isStarting e.2 5 now)
                    (upcomingTournaments db) with
         | Some e => occurrences userId (usersAmong db (populateParticipants db e.2))
         | None => 0%nat
         end in
       (received userId "tournament_reminder" tid' db
        <= received userId "tournament_reminder" tid' db'
        <= received userId "tournament_reminder" tid' db + bonus)%nat
       /\ ((forall id ns, Env.notificationRejected env id ns = false) ->
           received userId "tournament_reminder" tid' db'
           = (received userId "tournament_reminder" tid' db + bonus)%nat).
Proof.
  unfold reminderJob, tryCatch, bind, get_db.
  destruct (forEach_remind isStarting env now db userId tid' (upcomingTournaments db))
    with (db := db) as (db' & -> & Hu & Hx & Ht & Hr).
  { apply NoDup_fst_map_to_list. }
  { reflexivity. }
  { intros [id t] He. apply upcomingTournaments_elem in He as [He _]. eauto. }
  exists db'. split; [reflexivity|]. split; [exact Hu|]. split; [exact Hx|].
  split; [|exact Hr].
  apply map_eq. intros tid. rewrite Ht, lookup_fmap.
  destruct (Db.tournaments db !! tid) as [t|] eqn:Hl; [|by destruct (existsb _ _)].
  rewrite find_existsb, (upcomingTournaments_find _ _ _ _ _ Hl).
  unfold afterReminderJob. cbn.
  destruct (awaitsReminder t && isStarting t 5 now); reflexivity.
Qed.


(** X16.  One run of the reminder job stores, for a tournament and a user,
    at most one reminder, whatever the number of times the user occurs among
    the participants, and none unless the user is a participant that exists
    and the tournament is upcoming, without the flag, and starting within
    five minutes; when the notification store rejects nothing it stores
    exactly one for such a user. *)
Theorem reminder_job_reminds_participants_once isStarting env now db tid t userId :
  Db.tournaments db !! tid = Some t ->
  let before := received userId "tournament_reminder" tid db in
  let after :=
    received userId "tournament_reminder" tid (reminderJob isStarting env now db).2 in
  let due :=
    if awaitsReminder t && isStarting t 5 now
       && bool_decide (userId ∈ populateParticipants db t)
    then 1%nat else 0%nat in
  (before <= after <= before + due)%nat
  /\ ((forall id ns, Env.notificationRejected env id ns = false) ->
      after = (before + due)%nat).
Proof.
  intros Ht.
  destruct (reminderJob_run isStarting env now db userId tid)
    as (db' & Hrun & _ & _ & _ & Hr).
  rewrite (upcomingTournaments_find _ _ _ _ _ Ht) in Hr.
  cbn zeta in Hr |- *. rewrite Hrun. cbn [snd].
  destruct (awaitsReminder t && isStarting t 5 now); [|exact Hr].
  cbn [snd andb] in Hr |- *.
  rewrite (occurrences_NoDup _ _ (usersAmong_NoDup _ _)) in Hr.
  by rewrite (bool_decide_ext _ _ (usersAmong_participants db t userId)) in Hr.
Qed.

Lemma reminder_job_reminds_participants_once_witness :
  let db := Example.db upcoming [Fin 1000] in
  let t := Example.tournament upcoming [Fin 1000] in
  let isStarting := specIsStartingWithinMinutes Example.getStartDateTime in
  let now := Example.noon - 300000 in
  let before := received "alice" "tournament_reminder" "t1" db in
  let after :=
    received "alice" "tournament_reminder" "t1"
      (reminderJob isStarting (Example.env now) now db).2 in
  let due :=
    if awaitsReminder t && isStarting t 5 now
       && bool_decide ("alice" ∈ populateParticipants db t)
    then 1%nat else 0%nat in
  Db.tournaments db !! "t1" = Some t
  /\ (before <= after <= before + due)%nat
  /\ ((forall id ns, Env.notificationRejected (Example.env now) id ns = false) ->
      after = (before + due)%nat).
Proof.
  intros db t isStarting now.
  assert (Db.tournaments db !! "t1" = Some t) as H by (vm_compute; reflexivity).
  split; [exact H|].
  exact (reminder_job_reminds_participants_once isStarting (Example.env now) now db
           "t1" t "alice" H).
Defined.

Example reminder_job_example :
  let db := Example.db upcoming [Fin 1000] in
  let isStarting := specIsStartingWithinMinutes Example.getStartDateTime in
  let now := Example.noon - 300000 in
  let once := (reminderJob isStarting (Example.env now) now db).2 in
  let twice := (reminderJob isStarting (Example.env (now + 60000)) (now + 60000) once).2 in
  received "alice" "tournament_reminder" "t1" once = 1%nat
  /\ received "alice" "tournament_reminder" "t1" twice = 1%nat.
Proof. split; vm_compute; reflexivity. Qed.

(** A participant listed twice is still found once by [User.find]. *)
Example reminder_for_a_participant_listed_twice :
  let listed :=
    Tournament.make "Winter Open" "org" Example.newYear "12:00" "UTC" 3600000 upcoming
      false false fixed (Example.fixedPrizes [Fin 1000]) (Fin 100) "wallet"
      ["alice"; "bob"; "alice"] [] Metadata.empty in
  let db :=
    Db.set_tournaments {[ "t1" := listed ]} (Example.db upcoming [Fin 1000]) in
  let isStarting := specIsStartingWithinMinutes Example.getStartDateTime in
  let now := Example.noon - 300000 in
  let once := (reminderJob isStarting (Example.env now) now db).2 in
  populateParticipants db listed = ["alice"; "bob"; "alice"]
  /\ received "alice" "tournament_reminder" "t1" db = 0%nat
  /\ received "alice" "tournament_reminder" "t1" once = 1%nat
  /\ received "bob" "tournament_reminder" "t1" once = 1%nat
  /\ length (Db.notifications once) = 2%nat.
Proof. repeat split; vm_compute; reflexivity. Qed.

(** ** Status reconciliation *)

Lemma reconcile_run update now (l : list (string * Tournament.t)) :
  NoDup l.*1 ->
  forall db count,
    (forall e, e ∈ l -> Db.tournaments db !! e.1 = Some e.2) ->
    let run :=
      fold_left
        (fun '(db, updatedCount) '(tournamentId, tournament) =>
           let '(db', wasUpdated) := updateAndSave update now tournamentId tournament db in
           (db', if wasUpdated then S updatedCount else updatedCount))
        l (db, count) in
    Db.users run.1 = Db.users db
    /\ Db.transactions run.1 = Db.transactions db
    /\ Db.notifications run.1 = Db.notifications db
    /\ (forall tid,
          Db.tournaments run.1 !! tid
          = match find (fun e => String.eqb e.1 tid) l with
            | Some e => Some (if (update now e.2).2 then (update now e.2).1 else e.2)
            | None => Db.tournaments db !! tid
            end)
    /\ run.2 = (count + length (List.filter (fun e => (update now e.2).2) l))%nat.
Proof.
  induction l as [|[id t] l IH]; intros Hnd db count Hl.
  { cbn. repeat split; lia. }
  apply NoDup_cons in Hnd as [Hfresh Hnd].
  assert (Db.tournaments db !! id = Some t) as Hid by (apply (Hl (id, t)); left).
  assert (forall e, e ∈ l -> e.1 <> id) as Hother.
  { intros e He Heq. apply Hfresh, list_elem_of_fmap. exists e. by split. }
  assert (find (fun e : string * Tournament.t => String.eqb e.1 id) l = None) as Hkey.
  { destruct (find _ l) as [e|] eqn:Hf; [|reflexivity]. exfalso.
    apply find_some in Hf as [He Hk]. apply String.eqb_eq in Hk.
    by apply (Hother e); [apply list_elem_of_In|]. }
  cbn [fold_left].
  destruct (updateAndSave update now id t db) as [d1 w] eqn:Hstep.
  unfold updateAndSave in Hstep. destruct (update now t) as [updated changed] eqn:Hup.
  cbn zeta.
  destruct changed; injection Hstep as <- <-.
  - specialize (IH Hnd (Db.set_tournaments (<[id := updated]> (Db.tournaments db)) db)
                  (S count)).
    cbn zeta in IH. destruct IH as (Hu & Hx & Hn & Ht & Hc).
    { intros e He. cbn. rewrite lookup_insert_ne; [apply Hl; by right|].
      intros Heq. by apply (Hother e). }
    split; [exact Hu|]. split; [exact Hx|]. split; [exact Hn|]. split.
    + intros tid. rewrite Ht. cbn [find fst snd].
      destruct (String.eqb_spec id tid) as [<-|Hne].
      * rewrite Hkey. cbn. by rewrite lookup_insert_eq, Hup.
      * clear Hkey. destruct (find _ l); [reflexivity|]. cbn. by rewrite lookup_insert_ne.
    + rewrite Hc. cbn [List.filter snd]. rewrite Hup. cbn. lia.
  - specialize (IH Hnd db count). cbn zeta in IH. destruct IH as (Hu & Hx & Hn & Ht & Hc).
    { intros e He. apply Hl. by right. }
    split; [exact Hu|]. split; [exact Hx|]. split; [exact Hn|]. split.
    + intros tid. rewrite Ht. cbn [find fst snd].
      destruct (String.eqb_spec id tid) as [<-|Hne].
      * rewrite Hkey, Hid. cbn. by rewrite Hup.
      * reflexivity.
    + rewrite Hc. cbn [List.filter snd]. by rewrite Hup.
Qed.

Lemma tournamentsToCheck_elem db tid t :
  (tid, t) ∈ tournamentsToCheck db
  <-> Db.tournaments db !! tid = Some t /\ needsStatusCheck t = true.
Proof.
  unfold tournamentsToCheck. rewrite elem_of_map_to_list, map_lookup_filter_Some.
  reflexivity.
Qed.

Lemma tournamentsToCheck_find db tid :
  find (fun e : string * Tournament.t => String.eqb e.1 tid) (tournamentsToCheck db)
  = match Db.tournaments db !! tid with
    | Some t => if needsStatusCheck t then Some (tid, t) else None
    | None => None
    end.
Proof.
  destruct (find _ _) as [[id t']|] eqn:Hf.
  - apply find_some in Hf as [Hin Hp]. cbn [fst] in Hp. apply String.eqb_eq in Hp as ->.
    apply list_elem_of_In, tournamentsToCheck_elem in Hin as [-> ->]. reflexivity.
  - destruct (Db.tournaments db !! tid) as [t|] eqn:Ht; [|reflexivity].
    destruct (needsStatusCheck t) eqn:Hn; [|reflexivity]. exfalso.
    assert (In (tid, t) (tournamentsToCheck db)) as Hin
      by by apply list_elem_of_In, tournamentsToCheck_elem.
    pose proof (find_none _ _ Hf _ Hin) as Hp. cbn [fst] in Hp.
    by rewrite String.eqb_refl in Hp.
Qed.

Lemma reconcile_tournaments update now db :
  Db.tournaments (updateAllTournamentStatuses update now db).1
  = afterReconciliation update now <$> Db.tournaments db.
Proof.
  unfold updateAllTournamentStatuses.
  destruct (reconcile_run update now (tournamentsToCheck db)) with (db := db) (count := 0%nat)
    as (_ & _ & _ & Ht & _).
  { apply NoDup_fst_map_to_list. }
  { intros [id t] He. by apply tournamentsToCheck_elem in He as [He _]. }
  apply map_eq. intros tid. rewrite Ht, lookup_fmap, tournamentsToCheck_find.
  unfold afterReconciliation.
  destruct (Db.tournaments db !! tid) as [t|]; [|reflexivity]. cbn.
  by destruct (needsStatusCheck t).
Qed.

(** X17.  Status reconciliation, whatever the update method of the model
    does: it touches neither users nor the ledger nor notifications; it
    stores the updated document of every upcoming or active tournament
    without a manual override whose update reports a change, leaves every
    other tournament as it is, and counts the documents it stored. *)
Theorem reconciliation_outcome update now db :
  let run := updateAllTournamentStatuses update now db in
  Db.users run.1 = Db.users db
  /\ Db.transactions run.1 = Db.transactions db
  /\ Db.notifications run.1 = Db.notifications db
  /\ Db.tournaments run.1 = afterReconciliation update now <$> Db.tournaments db
  /\ run.2 = length (List.filter (fun e => (update now e.2).2) (tournamentsToCheck db)).
Proof.
  unfold updateAllTournamentStatuses.
  destruct (reconcile_run update now (tournamentsToCheck db)) with (db := db) (count := 0%nat)
    as (Hu & Hx & Hn & Ht & Hc).
  { apply NoDup_fst_map_to_list. }
  { intros [id t] He. by apply tournamentsToCheck_elem in He as [He _]. }
  cbn zeta. split; [exact Hu|]. split; [exact Hx|]. split; [exact Hn|].
  split; [|exact Hc]. apply reconcile_tournaments.
Qed.

(** ** scheduleTournamentReminder *)

(** X18.  The timer of a tournament whose start is read as [start]: none
    when the start is five minutes away or less; otherwise one that fires
    five minutes before the start, unless that is more than 2^31 - 1
    milliseconds away, in which case it fires one millisecond after it is
    set. *)
Theorem reminder_timer_regimes env tid startDate startTime timezone start :
  Env.fromISO env startDate startTime (reminderZone timezone) = Some start ->
  let delay := start - 300000 - Env.now env in
  scheduleTournamentReminder env tid startDate startTime timezone
  = if delay <=? 0 then None
    else if delay <=? 2147483647 then Some (Timer.make tid (start - 300000))
    else Some (Timer.make tid (Env.now env + 1)).
Proof.
  intros Hs. unfold scheduleTournamentReminder, timeoutDelay. fold (reminderZone timezone).
  rewrite Hs. cbn zeta.
  replace (start - 5 * 60 * 1000 - Env.now env) with (start - 300000 - Env.now env) by lia.
  destruct (Z.ltb_spec 0 (start - 300000 - Env.now env));
    destruct (Z.leb_spec (start - 300000 - Env.now env) 0); try lia; [|reflexivity].
  destruct (Z.ltb_spec 2147483647 (start - 300000 - Env.now env));
    destruct (Z.leb_spec (start - 300000 - Env.now env) 2147483647); try lia;
    [reflexivity|].
  do 2 f_equal. lia.
Qed.

Lemma reminder_timer_regimes_witness :
  let env := Example.env (Example.noon - 3000000000) in
  Env.fromISO env Example.newYear "12:00" (reminderZone "UTC") = Some Example.noon
  /\ let delay := Example.noon - 300000 - Env.now env in
     scheduleTournamentReminder env "t1" Example.newYear "12:00" "UTC"
     = if delay <=? 0 then None
       else if delay <=? 2147483647 then Some (Timer.make "t1" (Example.noon - 300000))
       else Some (Timer.make "t1" (Env.now env + 1)).
Proof.
  intros env.
  assert (Env.fromISO env Example.newYear "12:00" (reminderZone "UTC")
          = Some Example.noon) as H by (vm_compute; reflexivity).
  split; [exact H|].
  exact (reminder_timer_regimes env "t1" Example.newYear "12:00" "UTC" Example.noon H).
Defined.

Example far_start_fires_at_once :
  scheduleTournamentReminder (Example.env (Example.noon - 3000000000)) "t1"
    Example.newYear "12:00" "UTC"
  = Some (Timer.make "t1" (Example.noon - 3000000000 + 1)).
Proof. vm_compute. reflexivity. Qed.

(** ** getDetailedTimeInfo *)

Lemma diffMinutes_le_five later earlier :
  Num.leb (diffMinutes later earlier) (Num.of_Z 5) = (later - earlier <=? 300000).
Proof.
  unfold diffMinutes, Num.div, Num.of_Z, Num.leb.
  change (Qeq_bool (inject_Z 60000) 0) with false. cbn iota.
  apply eq_true_iff_eq. rewrite Qle_bool_iff, Qred_correct, Z.leb_le.
  unfold Qle, Qdiv, Qmult, Qinv, inject_Z. cbn. lia.
Qed.

(** X19.  [isStartingSoon] holds exactly in the five minutes before the
    start, the start excluded and the instant five minutes before it
    included; none of [hasStarted], [isActive] and [hasEnded] holds then,
    when the end is not before the start. *)
Theorem starting_soon_window startDateTime endDateTime now :
  startDateTime <= endDateTime ->
  let info := getDetailedTimeInfo startDateTime endDateTime now in
  (TimeInfo.isStartingSoon info = true <-> now < startDateTime <= now + 300000)
  /\ (TimeInfo.isStartingSoon info = true ->
      TimeInfo.hasStarted info = false /\ TimeInfo.isActive info = false
      /\ TimeInfo.hasEnded info = false).
Proof.
  intros Hle info. subst info. unfold getDetailedTimeInfo.
  cbn [TimeInfo.isStartingSoon TimeInfo.hasStarted TimeInfo.isActive TimeInfo.hasEnded].
  rewrite !diffMinutes_gt, !diffMinutes_le, diffMinutes_le_five.
  split.
  - rewrite andb_true_iff, Z.ltb_lt, Z.leb_le. lia.
  - rewrite andb_true_iff, Z.ltb_lt, Z.leb_le. intros [H1 H2].
    destruct (Z.leb_spec startDateTime now); [lia|].
    destruct (Z.leb_spec endDateTime now); [lia|]. done.
Qed.

Lemma starting_soon_window_witness :
  let info :=
    getDetailedTimeInfo Example.noon (Example.noon + 3600000) (Example.noon - 300000) in
  Example.noon <= Example.noon + 3600000
  /\ (TimeInfo.isStartingSoon info = true
      <-> Example.noon - 300000 < Example.noon <= Example.noon - 300000 + 300000)
  /\ (TimeInfo.isStartingSoon info = true ->
      TimeInfo.hasStarted info = false /\ TimeInfo.isActive info = false
      /\ TimeInfo.hasEnded info = false).
Proof.
  intros info.
  assert (Example.noon <= Example.noon + 3600000) as H by lia.
  split; [exact H|].
  exact (starting_soon_window Example.noon (Example.noon + 3600000)
           (Example.noon - 300000) H).
Defined.

(** ** registerForTournament *)

Lemma notifyTournamentRegistration_ledger env userId tournamentId db :
  exists r db', notifyTournamentRegistration env userId tournamentId db = (inr r, db')
    /\ ledger db' = ledger db.
Proof.
  unfold notifyTournamentRegistration, createNotification, tryCatch, bind, get_db, throw,
    ret, modify.
  destruct (Env.notificationRejected env userId (Db.notifications db)); eauto.
Qed.

Lemma existsb_eqb_elem (x : string) (l : list string) :
  existsb (String.eqb x) l = true <-> x ∈ l.
Proof.
  rewrite existsb_exists. split.
  - intros (y & Hin & Heq). apply String.eqb_eq in Heq as ->. by apply list_elem_of_In.
  - intros Hin. exists x. split; [by apply list_elem_of_In|apply String.eqb_refl].
Qed.

Lemma payEntryFee_cases env saves uid tid user fee confirmed db :
  let debited :=
    Db.set_users
      (<[uid := User.set_walletBalance (Num.sub (User.walletBalance user) fee) user]>
         (Db.users db))
      db in
  payEntryFee env saves uid tid user fee confirmed db
  = if Num.gtb fee Num.zero then
      if Num.ltb (User.walletBalance user) fee then
        (inr (bad 400 "Insufficient wallet balance. Please top up to register"), db)
      else if negb confirmed then
        (inr (bad 400 "Please confirm registration to proceed"), db)
      else
        match Saves.debit saves with
        | Some error => (inl error, db)
        | None =>
            match Saves.entry saves with
            | Some error => (inl error, debited)
            | None =>
                (inr (inr tt),
                 Db.add_transaction (entryTransaction env debited uid tid fee) debited)
            end
        end
    else (inr (inr tt), db).
Proof.
  unfold payEntryFee, save, bind, get_db, throw, modify, ret.
  destruct (Num.gtb fee Num.zero); [|reflexivity].
  destruct (Num.ltb (User.walletBalance user) fee); [reflexivity|].
  destruct (negb confirmed); [reflexivity|].
  destruct (Saves.debit saves); [reflexivity|].
  by destruct (Saves.entry saves).
Qed.

(** X20.  A registration that answers 200: the user was not a participant,
    exists and has a linked Lichess account; a fee above zero was covered
    by the balance and confirmed, is taken from the wallet once and
    recorded as one [tournament_entry] entry; the user is appended to the
    participants and the tournament to the user's registered tournaments.
    Nothing else changes, and the status of the tournament is not
    consulted. *)
Theorem registration_outcome env saves tid uid confirmed site response site' :
  registerForTournament env saves tid uid confirmed site = (inr response, site') ->
  Response.code response = 200 ->
  exists tournament user,
    Db.tournaments (Site.db site) !! tid = Some tournament
    /\ Db.users (Site.db site) !! uid = Some user
    /\ (uid ∉ Tournament.participants tournament)
    /\ Account.lichessUsername (default Account.empty (Site.accounts site !! uid)) <> ""
    /\ let fee := Tournament.entryFee tournament in
       let charged := Num.gtb fee Num.zero in
       (charged = true ->
        Num.ltb (User.walletBalance user) fee = false /\ confirmed = true)
       /\ Db.tournaments (Site.db site')
          = <[tid := pushParticipant uid tournament]> (Db.tournaments (Site.db site))
       /\ Db.users (Site.db site')
          = (if charged
             then <[uid := User.set_walletBalance
                             (Num.sub (User.walletBalance user) fee) user]>
                    (Db.users (Site.db site))
             else Db.users (Site.db site))
       /\ map posting (Db.transactions (Site.db site'))
          = (map posting (Db.transactions (Site.db site))
             ++ if charged then [("tournament_entry", uid, tid, fee)] else [])%list
       /\ Site.accounts site'
          = <[uid := Account.make
                       (Account.lichessUsername
                          (default Account.empty (Site.accounts site !! uid)))
                       (Account.registeredTournaments
                          (default Account.empty (Site.accounts site !! uid))
                        ++ [tid])%list]>
              (Site.accounts site).
Proof.
  unfold registerForTournament. intros H Hcode.
  destruct (Db.tournaments (Site.db site) !! tid) as [tournament|] eqn:Ht.
  2: { injection H as <- <-. discriminate. }
  destruct (existsb _ _) eqn:Hreg.
  { injection H as <- <-. discriminate. }
  destruct (Db.users (Site.db site) !! uid) as [user|] eqn:Hu; [|discriminate].
  destruct (String.eqb_spec
              (Account.lichessUsername (default Account.empty (Site.accounts site !! uid)))
              "") as [Hl|Hl].
  { injection H as <- <-. discriminate. }
  exists tournament, user. split; [reflexivity|]. split; [reflexivity|].
  split. { rewrite <- existsb_eqb_elem, Hreg. discriminate. }
  split; [exact Hl|]. cbn zeta.
  rewrite payEntryFee_cases in H. unfold bad in H.
  destruct (Num.gtb (Tournament.entryFee tournament) Num.zero).
  - destruct (Num.ltb (User.walletBalance user) (Tournament.entryFee tournament)).
    { injection H as <- <-. discriminate. }
    destruct confirmed; cbn [negb] in H.
    2: { injection H as <- <-. discriminate. }
    destruct (Saves.debit saves); [discriminate|].
    destruct (Saves.entry saves); [discriminate|].
    destruct (Saves.participant saves); [discriminate|].
    destruct (Saves.registered saves); [discriminate|].
    unfold tryCatch, bind in H.
    match type of H with context [notifyTournamentRegistration env ?u ?t ?d] =>
      destruct (notifyTournamentRegistration_ledger env u t d) as (r & d' & Hn & Hlg) end.
    rewrite Hn in H. cbn in H. injection H as <- <-. cbn.
    unfold ledger in Hlg. cbn in Hlg. injection Hlg as -> -> ->.
    split; [done|]. split.
    { apply map_eq. intros i. rewrite lookup_alter.
      destruct (decide (tid = i)) as [<-|].
      - by rewrite lookup_insert_eq, Ht.
      - by rewrite lookup_insert_ne. }
    split; [reflexivity|]. split; [|reflexivity].
    by rewrite map_app.
  - destruct (Saves.participant saves); [discriminate|].
    destruct (Saves.registered saves); [discriminate|].
    unfold tryCatch, bind in H.
    match type of H with context [notifyTournamentRegistration env ?u ?t ?d] =>
      destruct (notifyTournamentRegistration_ledger env u t d) as (r & d' & Hn & Hlg) end.
    rewrite Hn in H. cbn in H. injection H as <- <-. cbn.
    unfold ledger in Hlg. cbn in Hlg. injection Hlg as -> -> ->.
    split; [done|]. split.
    { apply map_eq. intros i. rewrite lookup_alter.
      destruct (decide (tid = i)) as [<-|].
      - by rewrite lookup_insert_eq, Ht.
      - by rewrite lookup_insert_ne. }
    split; [reflexivity|]. split; [|reflexivity].
    by rewrite app_nil_r.
Qed.

Lemma registration_outcome_witness :
  let site := Sample.site upcoming in
  let run := registerForTournament (Example.env 0) Saves.accepted "t1" "carol" true site in
  registerForTournament (Example.env 0) Saves.accepted "t1" "carol" true site
    = (inr (Response.make 200 (Message "Successfully registered for tournament")), run.2)
  /\ Response.code (Response.make 200 (Message "Successfully registered for tournament"))
     = 200
  /\ exists tournament user,
    Db.tournaments (Site.db site) !! "t1" = Some tournament
    /\ Db.users (Site.db site) !! "carol" = Some user
    /\ ("carol" ∉ Tournament.participants tournament)
    /\ Account.lichessUsername (default Account.empty (Site.accounts site !! "carol")) <> ""
    /\ let fee := Tournament.entryFee tournament in
       let charged := Num.gtb fee Num.zero in
       (charged = true ->
        Num.ltb (User.walletBalance user) fee = false /\ true = true)
       /\ Db.tournaments (Site.db run.2)
          = <["t1" := pushParticipant "carol" tournament]> (Db.tournaments (Site.db site))
       /\ Db.users (Site.db run.2)
          = (if charged
             then <["carol" := User.set_walletBalance
                             (Num.sub (User.walletBalance user) fee) user]>
                    (Db.users (Site.db site))
             else Db.users (Site.db site))
       /\ map posting (Db.transactions (Site.db run.2))
          = (map posting (Db.transactions (Site.db site))
             ++ if charged then [("tournament_entry", "carol", "t1", fee)] else [])%list
       /\ Site.accounts run.2
          = <["carol" := Account.make
                       (Account.lichessUsername
                          (default Account.empty (Site.accounts site !! "carol")))
                       (Account.registeredTournaments
                          (default Account.empty (Site.accounts site !! "carol"))
                        ++ ["t1"])%list]>
              (Site.accounts site).
Proof.
  intros site run.
  assert (registerForTournament (Example.env 0) Saves.accepted "t1" "carol" true site
          = (inr (Response.make 200 (Message "Successfully registered for tournament")),
             run.2)) as H by (vm_compute; reflexivity).
  split; [exact H|]. split; [reflexivity|].
  exact (registration_outcome (Example.env 0) Saves.accepted "t1" "carol" true site _
           run.2 H eq_refl).
Defined.

(** X21.  A registration that is answered with a code other than 200 leaves
    the tournaments, the users, the ledger, the notifications and the
    accounts as they were, whatever the outcome of the writes would have
    been: every refusal is answered before the first write. *)
Theorem refused_registration_changes_nothing env saves tid uid confirmed site response :
  (registerForTournament env saves tid uid confirmed site).1 = inr response ->
  Response.code response <> 200 ->
  (registerForTournament env saves tid uid confirmed site).2 = site.
Proof.
  unfold registerForTournament.
  destruct (Db.tournaments (Site.db site) !! tid) as [tournament|]; [|done].
  destruct (existsb _ _); [done|].
  destruct (Db.users (Site.db site) !! uid) as [user|]; [|done].
  destruct (String.eqb _ ""); [done|].
  rewrite payEntryFee_cases. unfold bad.
  destruct (Num.gtb (Tournament.entryFee tournament) Num.zero).
  - destruct (Num.ltb _ _); [done|]. destruct (negb confirmed); [done|].
    destruct (Saves.debit saves); [done|]. destruct (Saves.entry saves); [done|].
    destruct (Saves.participant saves); [done|].
    destruct (Saves.registered saves); [done|].
    cbn [fst snd]. intros [= <-] Hcode. by destruct Hcode.
  - destruct (Saves.participant saves); [done|].
    destruct (Saves.registered saves); [done|].
    cbn [fst snd]. intros [= <-] Hcode. by destruct Hcode.
Qed.

Lemma refused_registration_changes_nothing_witness :
  let site := Sample.site upcoming in
  let response := Response.make 400 (Message "Please confirm registration to proceed") in
  (registerForTournament (Example.env 0) Sample.entryRejected "t1" "carol" false site).1
    = inr response
  /\ Response.code response <> 200
  /\ (registerForTournament (Example.env 0) Sample.entryRejected "t1" "carol" false site).2
     = site.
Proof.
  intros site response.
  assert ((registerForTournament (Example.env 0) Sample.entryRejected "t1" "carol" false
             site).1 = inr response) as H by (vm_compute; reflexivity).
  assert (Response.code response <> 200) as Hcode by (cbn; lia).
  split; [exact H|]. split; [exact Hcode|].
  exact (refused_registration_changes_nothing (Example.env 0) Sample.entryRejected "t1"
           "carol" false site response H Hcode).
Defined.

Lemma registration_joins env saves tid uid confirmed site response site' :
  registerForTournament env saves tid uid confirmed site = (inr response, site') ->
  Response.code response = 200 ->
  exists tournament,
    Db.tournaments (Site.db site') !! tid = Some (pushParticipant uid tournament).
Proof.
  unfold registerForTournament. intros H Hcode.
  destruct (Db.tournaments (Site.db site) !! tid) as [tournament|] eqn:Ht.
  2: { injection H as <- <-. discriminate. }
  destruct (existsb _ _). { injection H as <- <-. discriminate. }
  destruct (Db.users (Site.db site) !! uid) as [user|]; [|discriminate].
  destruct (String.eqb _ ""). { injection H as <- <-. discriminate. }
  destruct (payEntryFee _ _ _ _ _ _ _ _) as [[error|[refusal|[]]] paid] eqn:Hpay;
    [discriminate| |].
  { injection H as <- <-. rewrite payEntryFee_cases in Hpay. unfold bad in Hpay.
    repeat match type of Hpay with
           | (if ?b then _ else _) = _ => destruct b
           | match ?o with Some _ => _ | None => _ end = _ => destruct o
           end;
      try discriminate; by injection Hpay as <-. }
  assert (Db.tournaments paid = Db.tournaments (Site.db site)) as Hsame.
  { rewrite payEntryFee_cases in Hpay. unfold bad in Hpay.
    repeat match type of Hpay with
           | (if ?b then _ else _) = _ => destruct b
           | match ?o with Some _ => _ | None => _ end = _ => destruct o
           end;
      try discriminate; by injection Hpay as <-. }
  destruct (Saves.participant saves); [discriminate|].
  destruct (Saves.registered saves); [discriminate|].
  unfold tryCatch, bind in H.
  match type of H with context [notifyTournamentRegistration env ?u ?t ?d] =>
    destruct (notifyTournamentRegistration_ledger env u t d) as (r & d' & Hn & Hlg) end.
  rewrite Hn in H. cbn in H. injection H as _ <-. cbn.
  unfold ledger in Hlg. cbn in Hlg. injection Hlg as _ -> _.
  exists tournament. by rewrite lookup_alter_eq, Hsame, Ht.
Qed.

(** X22.  After a registration that answers 200, a second registration of
    the same user for the same tournament, confirmed or not and at any
    time, is answered 400 and changes nothing: the entry fee is taken
    once. *)
Theorem second_registration_is_refused env env' saves saves' tid uid confirmed confirmed'
    site response site' :
  registerForTournament env saves tid uid confirmed site = (inr response, site') ->
  Response.code response = 200 ->
  registerForTournament env' saves' tid uid confirmed' site'
  = (inr (Response.make 400 (Message "You are already registered for this tournament")),
     site').
Proof.
  intros H Hcode.
  destruct (registration_joins _ _ _ _ _ _ _ _ H Hcode) as (tournament & Htn).
  unfold registerForTournament. rewrite Htn.
  replace (existsb (String.eqb uid) (Tournament.participants (pushParticipant uid tournament)))
    with true; [reflexivity|].
  symmetry. apply existsb_eqb_elem. cbn. apply elem_of_app. right. by left.
Qed.

Lemma second_registration_is_refused_witness :
  let site := Sample.site upcoming in
  let run := registerForTournament (Example.env 0) Saves.accepted "t1" "carol" true site in
  registerForTournament (Example.env 0) Saves.accepted "t1" "carol" true site
    = (inr (Response.make 200 (Message "Successfully registered for tournament")), run.2)
  /\ Response.code (Response.make 200 (Message "Successfully registered for tournament"))
     = 200
  /\ registerForTournament (Example.env 1000) Saves.accepted "t1" "carol" true run.2
     = (inr (Response.make 400
               (Message "You are already registered for this tournament")),
        run.2).
Proof.
  intros site run.
  assert (registerForTournament (Example.env 0) Saves.accepted "t1" "carol" true site
          = (inr (Response.make 200 (Message "Successfully registered for tournament")),
             run.2)) as H by (vm_compute; reflexivity).
  split; [exact H|]. split; [reflexivity|].
  exact (second_registration_is_refused (Example.env 0) (Example.env 1000) Saves.accepted
           Saves.accepted "t1" "carol" true true site _ run.2 H eq_refl).
Defined.

Example registration_example :
  let run := registerForTournament (Example.env 0) Saves.accepted "t1" "carol" true
               (Sample.site completed) in
  walletOf "carol" (Site.db run.2) = Some (Fin 150)
  /\ Tournament.participants <$> Db.tournaments (Site.db run.2) !! "t1"
     = Some ["alice"; "bob"; "carol"]
  /\ map posting (Db.transactions (Site.db run.2))
     = [("tournament_entry", "carol", "t1", Fin 100)].
Proof. repeat split; vm_compute; reflexivity. Qed.

(** X28.  The writes of a registration are not atomic.  For a user who
    passes every check of a tournament with a fee, when the debit is saved
    and the ledger entry is rejected, the handler throws the error of the
    ledger with the fee taken from the wallet and nothing else changed: no
    ledger entry, no participant, no registered tournament, no
    notification. *)
Theorem rejected_entry_keeps_the_fee env saves tid uid site tournament user error :
  Db.tournaments (Site.db site) !! tid = Some tournament ->
  uid ∉ Tournament.participants tournament ->
  Db.users (Site.db site) !! uid = Some user ->
  Account.lichessUsername (default Account.empty (Site.accounts site !! uid)) <> "" ->
  Num.gtb (Tournament.entryFee tournament) Num.zero = true ->
  Num.ltb (User.walletBalance user) (Tournament.entryFee tournament) = false ->
  Saves.debit saves = None ->
  Saves.entry saves = Some error ->
  registerForTournament env saves tid uid true site
  = (inl error,
     Site.make
       (Db.make
          (<[uid := User.set_walletBalance
                      (Num.sub (User.walletBalance user) (Tournament.entryFee tournament))
                      user]>
             (Db.users (Site.db site)))
          (Db.tournaments (Site.db site))
          (Db.transactions (Site.db site))
          (Db.notifications (Site.db site)))
       (Site.accounts site)).
Proof.
  intros Ht Hnew Hu Hl Hfee Hbal Hdebit Hentry. unfold registerForTournament.
  rewrite Ht, Hu.
  replace (existsb (String.eqb uid) (Tournament.participants tournament)) with false.
  2: { symmetry. apply not_true_is_false. by rewrite existsb_eqb_elem. }
  apply String.eqb_neq in Hl. rewrite Hl.
  rewrite payEntryFee_cases, Hfee, Hbal, Hdebit, Hentry. reflexivity.
Qed.

Lemma rejected_entry_keeps_the_fee_witness :
  let site := Sample.site upcoming in
  let tournament := Example.tournament upcoming [Fin 1000] in
  let carol := User.make "Carol" (Fin 250) [] in
  Db.tournaments (Site.db site) !! "t1" = Some tournament
  /\ ("carol" ∉ Tournament.participants tournament)
  /\ Db.users (Site.db site) !! "carol" = Some carol
  /\ Account.lichessUsername (default Account.empty (Site.accounts site !! "carol")) <> ""
  /\ Num.gtb (Tournament.entryFee tournament) Num.zero = true
  /\ Num.ltb (User.walletBalance carol) (Tournament.entryFee tournament) = false
  /\ Saves.debit Sample.entryRejected = None
  /\ Saves.entry Sample.entryRejected = Some "Transaction validation failed"
  /\ registerForTournament (Example.env 0) Sample.entryRejected "t1" "carol" true site
     = (inl "Transaction validation failed",
        Site.make
          (Db.make
             (<["carol" := User.set_walletBalance
                             (Num.sub (User.walletBalance carol)
                                (Tournament.entryFee tournament))
                             carol]>
                (Db.users (Site.db site)))
             (Db.tournaments (Site.db site))
             (Db.transactions (Site.db site))
             (Db.notifications (Site.db site)))
          (Site.accounts site)).
Proof.
  intros site tournament carol.
  assert (Db.tournaments (Site.db site) !! "t1" = Some tournament) as H1
    by (vm_compute; reflexivity).
  assert ("carol" ∉ Tournament.participants tournament) as H2.
  { intros H. apply list_elem_of_In in H. cbn in H. intuition discriminate. }
  assert (Db.users (Site.db site) !! "carol" = Some carol) as H3
    by (vm_compute; reflexivity).
  assert (Account.lichessUsername (default Account.empty (Site.accounts site !! "carol"))
          <> "") as H4 by (vm_compute; discriminate).
  assert (Num.gtb (Tournament.entryFee tournament) Num.zero = true) as H5
    by (vm_compute; reflexivity).
  assert (Num.ltb (User.walletBalance carol) (Tournament.entryFee tournament) = false)
    as H6 by (vm_compute; reflexivity).
  assert (Saves.debit Sample.entryRejected = None) as H7 by reflexivity.
  assert (Saves.entry Sample.entryRejected = Some "Transaction validation failed") as H8
    by reflexivity.
  split; [exact H1|]. split; [exact H2|]. split; [exact H3|]. split; [exact H4|].
  split; [exact H5|]. split; [exact H6|]. split; [exact H7|]. split; [exact H8|].
  exact (rejected_entry_keeps_the_fee (Example.env 0) Sample.entryRejected "t1" "carol"
           site tournament carol "Transaction validation failed" H1 H2 H3 H4 H5 H6 H7 H8).
Defined.

Example rejected_entry_example :
  let site := Sample.site upcoming in
  let run :=
    registerForTournament (Example.env 0) Sample.entryRejected "t1" "carol" true site in
  run.1 = inl "Transaction validation failed"
  /\ walletOf "carol" (Site.db site) = Some (Fin 250)
  /\ walletOf "carol" (Site.db run.2) = Some (Fin 150)
  /\ Db.transactions (Site.db run.2) = []
  /\ Tournament.participants <$> Db.tournaments (Site.db run.2) !! "t1"
     = Some ["alice"; "bob"].
Proof. repeat split; vm_compute; reflexivity. Qed.

(** ** scripts/migrateFixedPrizes.js *)

Lemma migratedAmounts_eq fixed :
  migratedAmounts fixed = map (fun lbl => Js.parseFloatOrZero (Js.field fixed lbl)) labels.
Proof.
  unfold migratedAmounts. apply map_ext. intros lbl.
  by destruct (Js.field fixed lbl).
Qed.

Lemma or_zero_idempotent a : Num.or_zero (Num.or_zero a) = Num.or_zero a.
Proof.
  unfold Num.or_zero. destruct (Num.truthy a) eqn:Ht; [by rewrite Ht|reflexivity].
Qed.

Lemma lookup_delete_labels (fixed : gmap string JsValue) key :
  foldr delete fixed labels !! key = if bool_decide (key ∈ labels) then None else fixed !! key.
Proof.
  unfold labels. cbn [foldr].
  destruct (bool_decide (key ∈ _)) eqn:Hk.
  - apply bool_decide_eq_true in Hk.
    repeat (apply elem_of_cons in Hk as [->|Hk];
            [by repeat first [rewrite lookup_delete_eq | rewrite lookup_delete_ne by done]|]).
    by apply elem_of_nil in Hk.
  - apply bool_decide_eq_false in Hk.
    repeat (rewrite lookup_delete_ne; [|intros <-; apply Hk; set_solver]). reflexivity.
Qed.

(** X23.  When the migration script updates a stored fixed schedule: the
    new [amounts] are five numbers, none NaN, the i-th being the number
    read from the i-th legacy key and zero when the key is absent or does
    not read as a number, so that the prize calculator finds for each of
    the first five ranks the amount of its legacy key; every key other than
    [amounts] and the legacy keys is kept; the legacy keys are gone when
    the unset applies; and a second run skips the document. *)
Theorem migration_outcome unsetApplies unsetApplies' fixed migrated :
  migrateFixed unsetApplies fixed = Some migrated ->
  let amounts := migratedAmounts (JsObject fixed) in
  migrated !! "amounts" = Some (JsArray (map JsNumber amounts))
  /\ length amounts = 5%nat
  /\ Forall (fun amount => Num.isNaN amount = false) amounts
  /\ (forall i lbl, labels !! i = Some lbl ->
        amountAt amounts i = Js.parseFloatOrZero (default JsUndefined (fixed !! lbl)))
  /\ (forall key, key ∉ labels -> key <> "amounts" -> migrated !! key = fixed !! key)
  /\ (unsetApplies = true -> forall lbl, lbl ∈ labels -> migrated !! lbl = None)
  /\ migrateFixed unsetApplies' migrated = None.
Proof.
  unfold migrateFixed. intros H.
  assert (legacyKeysExist (JsObject fixed) = true
          /\ migrated = <["amounts" := JsArray (map JsNumber
                                         (migratedAmounts (JsObject fixed)))]>
                          (if unsetApplies then foldr delete fixed labels else fixed))
    as [_ ->].
  { destruct (fixed !! "amounts") as [[]|]; try discriminate;
      destruct (legacyKeysExist _); try discriminate; by injection H as <-. }
  clear H. cbn zeta. rewrite lookup_insert_eq.
  split; [reflexivity|]. split; [reflexivity|]. split.
  { rewrite migratedAmounts_eq. apply Forall_forall. intros a Ha.
    apply list_elem_of_fmap in Ha as (lbl & -> & _). apply or_zero_not_NaN. }
  split.
  { intros i lbl Hi. unfold amountAt. rewrite migratedAmounts_eq, list_lookup_fmap, Hi.
    cbn. apply or_zero_idempotent. }
  split.
  { intros key Hk Hne. rewrite lookup_insert_ne by done.
    destruct unsetApplies; [|reflexivity].
    by rewrite lookup_delete_labels, bool_decide_eq_false_2. }
  split.
  { intros -> lbl Hl. rewrite lookup_insert_ne.
    - by rewrite lookup_delete_labels, bool_decide_eq_true_2.
    - intros <-. apply list_elem_of_In in Hl. cbn in Hl. intuition discriminate. }
  reflexivity.
Qed.

Lemma migration_outcome_witness :
  let fixed := Sample.legacyStored in
  let migrated :=
    <["amounts" := JsArray (map JsNumber [Fin 1000; Fin 0; Fin 300; Fin 0; Fin 0])]>
      (foldr delete fixed labels) in
  let amounts := migratedAmounts (JsObject fixed) in
  migrateFixed true fixed = Some migrated
  /\ migrated !! "amounts" = Some (JsArray (map JsNumber amounts))
  /\ length amounts = 5%nat
  /\ Forall (fun amount => Num.isNaN amount = false) amounts
  /\ (forall i lbl, labels !! i = Some lbl ->
        amountAt amounts i = Js.parseFloatOrZero (default JsUndefined (fixed !! lbl)))
  /\ (forall key, key ∉ labels -> key <> "amounts" -> migrated !! key = fixed !! key)
  /\ (true = true -> forall lbl, lbl ∈ labels -> migrated !! lbl = None)
  /\ migrateFixed false migrated = None.
Proof.
  intros fixed migrated.
  assert (migrateFixed true fixed = Some migrated) as H by (vm_compute; reflexivity).
  split; [exact H|].
  exact (migration_outcome true false fixed migrated H).
Defined.

Example migration_keeps_ranks :
  migratedAmounts (JsObject Sample.legacyStored) = [Fin 1000; Fin 0; Fin 300; Fin 0; Fin 0]
  /\ normalizeFixedAmounts (JsObject Sample.legacyStored) = [Fin 1000; Fin 300].
Proof. split; vm_compute; reflexivity. Qed.

(** ** walletController.js *)









Lemma find_updateFirst {A : Type} (p : A -> bool) (f : A -> A) (l : list A) :
  (forall x, p (f x) = p x) ->
  find p (updateFirst p f l) = f <$> find p l.
Proof.
  intros Hp. induction l as [|x l IH]; [reflexivity|]. cbn.
  destruct (p x) eqn:Hx; cbn; [by rewrite Hp, Hx|]. by rewrite Hx.
Qed.

Lemma updateFirst_none {A : Type} (p : A -> bool) (f : A -> A) (l : list A) :
  find p l = None -> updateFirst p f l = l.
Proof.
  induction l as [|x l IH]; [reflexivity|]. cbn.
  destruct (p x); [discriminate|]. intros H. by rewrite IH.
Qed.

(** X25.  The [transfer.failed] event marks the withdrawal of its
    reference as failed and puts its amount back on the balance of its
    user; it does nothing to a withdrawal that is already marked as
    failed, so that the same event delivered twice refunds once. *)
Theorem failed_transfer_refunds_once reference db :
  handleTransferFailed reference (handleTransferFailed reference db)
  = handleTransferFailed reference db
  /\ forall withdrawal,
       find (isWithdrawal reference) (Db.transactions db) = Some withdrawal ->
       (Transaction.status withdrawal = "failed" -> handleTransferFailed reference db = db)
       /\ (Transaction.status withdrawal <> "failed" ->
           Transaction.status
             <$> find (isWithdrawal reference)
                   (Db.transactions (handleTransferFailed reference db))
           = Some "failed"
           /\ forall user,
                Db.users db !! Transaction.user withdrawal = Some user ->
                walletOf (Transaction.user withdrawal) (handleTransferFailed reference db)
                = Some (Num.add (User.walletBalance user) (Transaction.amount withdrawal))).
Proof.
  assert (forall x, isWithdrawal reference (set_transactionStatus "failed" x)
                    = isWithdrawal reference x) as Hp by done.
  assert (forall withdrawal,
            find (isWithdrawal reference) (Db.transactions db) = Some withdrawal ->
            Transaction.status withdrawal <> "failed" ->
            find (isWithdrawal reference)
              (Db.transactions (handleTransferFailed reference db))
            = Some (set_transactionStatus "failed" withdrawal)) as Hfound.
  { intros w Hw Hs. unfold handleTransferFailed. rewrite Hw.
    apply String.eqb_neq in Hs. rewrite Hs. cbn [negb].
    assert (Db.transactions
              (updateTransaction (isWithdrawal reference)
                 (set_transactionStatus "failed") db)
            = updateFirst (isWithdrawal reference) (set_transactionStatus "failed")
                (Db.transactions db)) as Hx by done.
    destruct (Db.users _ !! Transaction.user w); unfold creditWallet; cbn;
      by rewrite (find_updateFirst _ _ _ Hp), Hw. }
  split.
  - destruct (find (isWithdrawal reference) (Db.transactions db)) as [w|] eqn:Hw.
    2: { unfold handleTransferFailed. by rewrite !Hw. }
    destruct (String.eqb_spec (Transaction.status w) "failed") as [Hs|Hs].
    { unfold handleTransferFailed. rewrite !Hw.
      apply String.eqb_eq in Hs. rewrite !Hs. cbn [negb]. by rewrite Hw, Hs. }
    pose proof (Hfound w eq_refl Hs) as Hf.
    unfold handleTransferFailed at 1. by rewrite Hf.
  - intros w Hw. split.
    + intros Hs. unfold handleTransferFailed. rewrite Hw.
      apply String.eqb_eq in Hs. by rewrite Hs.
    + intros Hs. split; [by rewrite (Hfound w Hw Hs)|].
      intros user Hu. unfold handleTransferFailed. rewrite Hw.
      apply String.eqb_neq in Hs. rewrite Hs. cbn [negb].
      cbn [updateTransaction Db.users]. rewrite Hu. unfold walletOf, creditWallet. cbn.
      by rewrite lookup_insert_eq.
Qed.

Example failed_transfer_events :
  let bank := Sample.bank (inr false) in
  let db := Example.db upcoming [Fin 1000] in
  let withdrawn := (initiateWithdrawal (Example.env 0) bank Sample.withdrawal db).2 in
  let failed := handleTransferFailed "CHESS_WD_0" withdrawn in
  let again := handleTransferFailed "CHESS_WD_0" failed in
  let reopened := handleTransferFailed "CHESS_WD_0"
                    (handleTransferSuccess "CHESS_WD_0" failed) in
  walletOf "org" withdrawn = Some (Fin 3000)
  /\ walletOf "org" failed = Some (Fin 5000)
  /\ walletOf "org" again = Some (Fin 5000)
  /\ walletOf "org" reopened = Some (Fin 7000).
Proof. repeat split; vm_compute; reflexivity. Qed.

(** X26.  Deposit verification reads neither the status nor the type nor
    the amount of the transaction it finds: whenever Paystack reports a
    success for the reference, the user of the transaction is credited the
    reported amount, in kobo, divided by 100, and a second verification of
    the same reference credits it again. *)
Theorem deposit_verification_credits_every_time bank reference db transaction user amount :
  Bank.verify bank reference = inr ("success", amount) ->
  find (fun x => String.eqb (Transaction.reference x) reference) (Db.transactions db)
    = Some transaction ->
  Db.users db !! Transaction.user transaction = Some user ->
  let once := verifyDeposit bank reference db in
  let twice := verifyDeposit bank reference once.2 in
  let credit := Num.div amount Num.hundred in
  Response.code once.1 = 200
  /\ walletOf (Transaction.user transaction) once.2
     = Some (Num.add (User.walletBalance user) credit)
  /\ Response.code twice.1 = 200
  /\ walletOf (Transaction.user transaction) twice.2
     = Some (Num.add (Num.add (User.walletBalance user) credit) credit).
Proof.
  intros Hv Hf Hu once twice credit.
  set (hasReference := fun x => String.eqb (Transaction.reference x) reference) in *.
  assert (forall x, hasReference (set_transactionStatus "completed" x) = hasReference x)
    as Hp by done.
  assert (once = (Response.make 200 (Message "Deposit successful"),
                  creditWallet (Transaction.user transaction) user credit
                    (updateTransaction hasReference (set_transactionStatus "completed") db)))
    as Honce.
  { subst once. unfold verifyDeposit. rewrite Hv. fold hasReference. rewrite Hf.
    cbn [String.eqb Ascii.eqb Bool.eqb andb]. cbn [updateTransaction Db.users].
    by rewrite Hu. }
  assert (twice = (Response.make 200 (Message "Deposit successful"),
                   creditWallet (Transaction.user transaction)
                     (User.set_walletBalance (Num.add (User.walletBalance user) credit) user)
                     credit
                     (updateTransaction hasReference (set_transactionStatus "completed")
                        once.2))) as Htwice.
  { subst twice. unfold verifyDeposit. rewrite Hv. fold hasReference.
    rewrite Honce. cbn [snd creditWallet updateTransaction Db.transactions Db.set_users].
    rewrite (find_updateFirst _ _ _ Hp), Hf.
    cbn [fmap option_fmap option_map String.eqb Ascii.eqb Bool.eqb andb].
    cbn [set_transactionStatus Transaction.user].
    assert (forall p f u usr c d,
              Db.users (updateTransaction p f (creditWallet u usr c d)) !! u
              = Some (User.set_walletBalance (Num.add (User.walletBalance usr) c) usr))
      as Hlook by (intros; apply lookup_insert_eq).
    by rewrite Hlook. }
  rewrite Htwice, Honce. unfold walletOf, creditWallet. cbn [fst snd Response.code Db.users
    Db.set_users updateTransaction]. rewrite !lookup_insert_eq. done.
Qed.

Lemma deposit_verification_credits_every_time_witness :
  let bank := Sample.bank (inr false) in
  let transaction :=
    Transaction.make "alice" "" "deposit" (Fin 2500) "pending" "paystack" "CHESS_1" None in
  let once := verifyDeposit bank "CHESS_1" Sample.depositDb in
  let twice := verifyDeposit bank "CHESS_1" once.2 in
  let credit := Num.div (Fin 250000) Num.hundred in
  Bank.verify bank "CHESS_1" = inr ("success", Fin 250000)
  /\ find (fun x => String.eqb (Transaction.reference x) "CHESS_1")
          (Db.transactions Sample.depositDb) = Some transaction
  /\ Db.users Sample.depositDb !! Transaction.user transaction = Some Example.alice
  /\ Response.code once.1 = 200
  /\ walletOf (Transaction.user transaction) once.2
     = Some (Num.add (User.walletBalance Example.alice) credit)
  /\ Response.code twice.1 = 200
  /\ walletOf (Transaction.user transaction) twice.2
     = Some (Num.add (Num.add (User.walletBalance Example.alice) credit) credit).
Proof.
  intros bank transaction.
  assert (Db.users Sample.depositDb !! Transaction.user transaction = Some Example.alice) as H
    by (vm_compute; reflexivity).
  split; [reflexivity|]. split; [reflexivity|]. split; [exact H|].
  exact (deposit_verification_credits_every_time bank "CHESS_1" Sample.depositDb transaction
           Example.alice (Fin 250000) eq_refl eq_refl H).
Defined.

Example deposit_verified_twice :
  let bank := Sample.bank (inr false) in
  let once := verifyDeposit bank "CHESS_1" Sample.depositDb in
  let twice := verifyDeposit bank "CHESS_1" once.2 in
  walletOf "alice" Sample.depositDb = Some (Fin 0)
  /\ walletOf "alice" once.2 = Some (Fin 2500)
  /\ walletOf "alice" twice.2 = Some (Fin 5000)
  /\ map Transaction.status (Db.transactions twice.2) = ["completed"].
Proof. repeat split; vm_compute; reflexivity. Qed.



